(** * PBR workflow converter: channel re-encoding engine

    A shallow embedding of the TypeScript sources (workflowConverter.ts,
    channelExtractor.ts, textureLoader.ts, textureWriter.ts, pbrConverter.ts
    and, under bidirectional/, formatDetector.ts, bidirectionalConverter.ts,
    bidirectionalWorkflowConverter.ts and normalMapProcessor.ts) and the
    properties of the conversion functions.

    JavaScript numbers are IEEE 754 binary64 values; they are embedded as the
    kernel's primitive binary64 floats, so that [/], [*], [-] and [Math.sqrt]
    round exactly as they do at run time.  Node [Buffer]s are lists of bytes
    held as [Z]; a store applies the ToUint8 conversion, a load outside the
    buffer yields [undefined], which every numeric use turns into NaN. *)

From Stdlib Require Import ZArith Floats Lia Bool Ascii.
From stdpp Require Import base list strings gmap.

Local Open Scope Z_scope.
Set Warnings "-inexact-float".

(** ** JavaScript numbers and the [Math] functions the sources call *)
Module JS.

Definition number := float.

Definition NaN : number := nan.

(** An integer literal or a byte read from a buffer, as a number (exact
    below 2^53). *)
Definition Z2F (z : Z) : number :=
  match z with
  | Z0 => PrimFloat.zero
  | Zpos _ => of_uint63 (Uint63.of_Z z)
  | Zneg p => (- of_uint63 (Uint63.of_Z (Zpos p)))%float
  end.

(** The mathematical value of a finite float is [(-1)^s * m * 2^e]. *)
Definition signed (s : bool) (m : positive) : Z :=
  if s then Zneg m else Zpos m.

(** [Math.floor]: the largest integral number not above [x]. *)
Definition Math_floor (x : number) : number :=
  match Prim2SF x with
  | S754_finite s m e =>
      if 0 <=? e then x else Z2F (signed s m / 2 ^ (- e))
  | _ => x
  end.

(** [Math.round]: the integral number closest to [x], ties towards
    +infinity; [-0] for an argument in [[-0.5, 0)]. *)
Definition Math_round (x : number) : number :=
  match Prim2SF x with
  | S754_finite s m e =>
      if 0 <=? e then x
      else
        let k := (2 * signed s m + 2 ^ (- e)) / 2 ^ (- e + 1) in
        if (k =? 0) && s then neg_zero else Z2F k
  | _ => x
  end.

(** [Math.min] and [Math.max] of two arguments: NaN is contagious and
    [-0] is below [+0]. *)
Definition Math_min (a b : number) : number :=
  if is_nan a || is_nan b then NaN
  else if (b <? a)%float then b
  else if (a <? b)%float then a
  else if get_sign a then a else b.

Definition Math_max (a b : number) : number :=
  if is_nan a || is_nan b then NaN
  else if (a <? b)%float then b
  else if (b <? a)%float then a
  else if get_sign a then b else a.

(** ToUint8, applied by every store into a [Buffer]: NaN and the
    infinities give 0, other values are truncated towards zero and taken
    modulo 256. *)
Definition ToUint8 (x : number) : Z :=
  match Prim2SF x with
  | S754_finite s m e =>
      let t := if 0 <=? e then Zpos m * 2 ^ e else Zpos m / 2 ^ (- e) in
      (if s then - t else t) mod 256
  | _ => 0
  end.

(** The integer a number denotes, when it denotes one. *)
Definition to_Z (x : number) : option Z :=
  match Prim2SF x with
  | S754_zero _ => Some 0
  | S754_finite s m e =>
      if 0 <=? e then Some (signed s m * 2 ^ e)
      else if (Zpos m mod 2 ^ (- e) =? 0) then Some (signed s m / 2 ^ (- e))
      else None
  | _ => None
  end.

(** [x === k] for some integer [lo <= k <= hi]. *)
Definition in_range (lo hi : Z) (x : number) : Prop :=
  exists k : Z, (x =? Z2F k)%float = true /\ lo <= k <= hi.

Definition in_rangeb (lo hi : Z) (x : number) : bool :=
  match to_Z x with
  | Some k => (x =? Z2F k)%float && (lo <=? k) && (k <=? hi)
  | None => false
  end.

(** The 256 values of a byte. *)
Definition bytes : list Z := map Z.of_nat (seq 0 256).

End JS.

(** ** Node [Buffer]s *)
Module Buffer.

Abbreviation t := (list Z).

(** [Buffer.alloc(n)]: [n] zero bytes. *)
Definition alloc (n : nat) : t := replicate n 0.

(** [buf[i]] as a number; [undefined] (here NaN) outside the buffer. *)
Definition get (buf : t) (i : nat) : JS.number :=
  match buf !! i with
  | Some v => JS.Z2F v
  | None => JS.NaN
  end.

(** [buf[i] = x]: the store converts with ToUint8 and is ignored outside
    the buffer. *)
Definition set (buf : t) (i : nat) (x : JS.number) : t :=
  <[ i := JS.ToUint8 x ]> buf.

(** Every element is an unsigned 8-bit value. *)
Definition wf (buf : t) : Prop := Forall (fun v => 0 <= v < 256) buf.

End Buffer.

(** [for (let i = 0; i < n; i++) body]. *)
Definition for_loop {St : Type} (n : nat) (body : nat -> St -> St) (s : St)
    : St :=
  foldl (fun st i => body i st) s (seq 0 n).

(** ** types.ts *)
Inductive PredefinedMetal :=
  Iron | Gold | Aluminum | Chrome | Copper | Lead | Platinum | Silver.

Definition PredefinedMetal_code (m : PredefinedMetal) : Z :=
  match m with
  | Iron => 230 | Gold => 231 | Aluminum => 232 | Chrome => 233
  | Copper => 234 | Lead => 235 | Platinum => 236 | Silver => 237
  end.

Record TextureData := mkTextureData {
  td_width : nat;
  td_height : nat;
  td_data : Buffer.t;
  td_channels : nat
}.

Record ChannelData := mkChannelData {
  cd_r : Buffer.t;
  cd_g : Buffer.t;
  cd_b : Buffer.t;
  cd_a : option Buffer.t;
  cd_width : nat;
  cd_height : nat
}.

Inductive OutputFormat := png | jpg | tga.

Definition OutputFormat_name (f : OutputFormat) : string :=
  match f with
  | png => "png"
  | jpg => "jpg"
  | tga => "tga"
  end.

(** [ConversionOptions] with the fields [BidirectionalConversionOptions]
    adds; [conversionDirection] holds the enum's number. *)
Record ConversionOptions := mkConversionOptions {
  outputFormat : option OutputFormat;
  compressionLevel : option JS.number;
  conversionDirection : option Z;
  bakeAO : option bool;
  extractHeightMap : option bool
}.

Record OutputPaths := mkOutputPaths {
  out_specular : option string;
  out_normal : option string;
  out_mer : option string;
  out_bedrockNormal : option string;
  out_heightMap : option string;
  out_baseColorWithAO : option string
}.

(** [resultDirection] is the field [conversionDirection] of the result. *)
Record ConversionResult := mkConversionResult {
  sourcePath : string;
  outputPaths : OutputPaths;
  success : bool;
  messages : list string;
  resultDirection : option Z
}.

(** ** workflowConverter.ts *)
Module WorkflowConverter.
Import JS.
Local Open Scope float_scope.

Definition roughnessToSmoothness (roughness : number) : number :=
  let normalizedRoughness := roughness / 255 in
  let smoothness := 1.0 - sqrt normalizedRoughness in
  Math_max 0 (Math_min 255 (Math_round (smoothness * 255))).

(** [Math.pow(x, 2.0)] is taken as the binary64 product [x * x]. *)
Definition smoothnessToRoughness (smoothness : number) : number :=
  let normalizedSmoothness := smoothness / 255 in
  let roughness :=
    (1.0 - normalizedSmoothness) * (1.0 - normalizedSmoothness) in
  Math_max 0 (Math_min 255 (Math_round (roughness * 255))).

Definition metallicToF0 (metallic : number) : number :=
  if 200 <? metallic then
    Math_min 255 (230 + Math_floor ((metallic - 200) / 5))
  else
    let baseF0 := 4 in
    let maxF0 := 229 in
    let scaledF0 := baseF0 + (metallic / 255) * (maxF0 - baseF0) in
    Math_round scaledF0.

Definition convertEmissive (emissive : number) : number :=
  Math_min 254 emissive.

Definition isMetallic (metallic : number) : bool :=
  200 <? metallic.

Definition getPredefinedMetal (r g b : number) : number :=
  if (200 <? r) && (150 <? g) && (b <? 100) then
    Z2F (PredefinedMetal_code Gold)
  else if (200 <? r) && (g <? 150) && (b <? 100) then
    Z2F (PredefinedMetal_code Copper)
  else if (200 <? r) && (200 <? g) && (200 <? b) then
    Z2F (PredefinedMetal_code Silver)
  else if (100 <? r) && (r <? 200) && (100 <? g) && (g <? 200)
          && (100 <? b) && (b <? 200) then
    Z2F (PredefinedMetal_code Iron)
  else
    Z2F (PredefinedMetal_code Iron).

Definition convertSubsurface (subsurface : number) : number :=
  if subsurface =? 0 then 0
  else 65 + Math_floor ((subsurface / 255) * (255 - 65)).

Definition convertPorosity (porosity : number) : number :=
  Math_round (porosity * 64).

End WorkflowConverter.

(** ** channelExtractor.ts *)
Module ChannelExtractor.

Definition extractChannels (textureData : TextureData) : ChannelData :=
  let width := td_width textureData in
  let height := td_height textureData in
  let data := td_data textureData in
  let channels := td_channels textureData in
  let pixelCount := (width * height)%nat in
  let r := Buffer.alloc pixelCount in
  let g := Buffer.alloc pixelCount in
  let b := Buffer.alloc pixelCount in
  let a := if (channels =? 4)%nat then Some (Buffer.alloc pixelCount)
           else None in
  let '(r, g, b, a) :=
    for_loop pixelCount (fun i '(r, g, b, a) =>
      let offset := (i * channels)%nat in
      let r := Buffer.set r i (Buffer.get data offset) in
      let g := Buffer.set g i (Buffer.get data (offset + 1)) in
      let b := Buffer.set b i (Buffer.get data (offset + 2)) in
      let a :=
        match a with
        | Some a' =>
            if (channels =? 4)%nat
            then Some (Buffer.set a' i (Buffer.get data (offset + 3)))
            else a
        | None => None
        end in
      (r, g, b, a)) (r, g, b, a) in
  mkChannelData r g b a width height.

Record MERChannels := mkMERChannels {
  metallic : Buffer.t;
  emissive : Buffer.t;
  roughness : Buffer.t;
  subsurface : option Buffer.t
}.

Definition extractMERChannels (textureData : TextureData) : MERChannels :=
  let channels := extractChannels textureData in
  mkMERChannels (cd_r channels) (cd_g channels) (cd_b channels)
                (cd_a channels).

Definition combineChannels (channels : ChannelData) : TextureData :=
  let width := cd_width channels in
  let height := cd_height channels in
  let r := cd_r channels in
  let g := cd_g channels in
  let b := cd_b channels in
  let a := cd_a channels in
  let pixelCount := (width * height)%nat in
  let hasAlpha := match a with Some _ => true | None => false end in
  let channelCount := if hasAlpha then 4%nat else 3%nat in
  let data := Buffer.alloc (pixelCount * channelCount) in
  let data :=
    for_loop pixelCount (fun i data =>
      let offset := (i * channelCount)%nat in
      let data := Buffer.set data offset (Buffer.get r i) in
      let data := Buffer.set data (offset + 1) (Buffer.get g i) in
      let data := Buffer.set data (offset + 2) (Buffer.get b i) in
      match a with
      | Some a' =>
          if hasAlpha then Buffer.set data (offset + 3) (Buffer.get a' i)
          else data
      | None => data
      end) data in
  mkTextureData width height data channelCount.

End ChannelExtractor.

(** ** The collaborators outside the engine *)

(** The outcome of a call that may throw [new Error(message)]. *)
Inductive outcome (A : Type) : Type :=
| Ok (a : A)
| Throw (message : string).
Arguments Ok {A} a.
Arguments Throw {A} message.

(** Node's [path] and [fs] modules, the [sharp] codec and two built-ins.
    [World] is the state of the file system; a call with an effect takes the
    world and returns the next one.  [sharp_read] stands for decoding a
    file (metadata and raw pixels), [sharp_raw] for the constructor over raw
    pixels, which validates their description, and [sharp_write] for
    encoding them to a file with the named encoder and its quality or
    compression level. *)
Record Node := mkNode {
  World : Type;
  path_dirname : string -> string;
  path_basename : string -> string;
  path_basename_ext : string -> string -> string;
  path_extname : string -> string;
  path_join : string -> string -> string;
  fs_existsSync : World -> string -> bool;
  fs_mkdirSync : string -> World -> outcome unit * World;
  sharp_read : string -> World -> outcome TextureData * World;
  sharp_raw : TextureData -> outcome unit;
  sharp_write :
    TextureData -> string -> JS.number -> string -> World ->
    outcome unit * World;
  String_toLowerCase : string -> string;
  Number_toFixed2 : JS.number -> string
}.

(** The string methods the sources call. *)
Module JSString.
Local Open Scope string_scope.
Local Open Scope nat_scope.

(** [s.endsWith(suffix)]. *)
Definition endsWith (s suffix : string) : bool :=
  (String.length suffix <=? String.length s)
  && String.eqb
       (String.substring (String.length s - String.length suffix)
                  (String.length suffix) s)
       suffix.

(** [s.slice(0, -n)]. *)
Definition slice_to_last (s : string) (n : nat) : string :=
  String.substring 0 (String.length s - n) s.

(** [s.substring(n)]. *)
Definition substring_from (s : string) (n : nat) : string :=
  String.substring n (String.length s - n) s.

(** [s.replace(pat, rep)] for a non-empty string pattern: the first
    occurrence only. *)
Fixpoint replace (pat rep s : string) : string :=
  if String.prefix pat s then
    rep +:+ substring_from s (String.length pat)
  else
    match s with
    | EmptyString => EmptyString
    | String c s' => String c (replace pat rep s')
    end.

(** A string is falsy when it is absent or empty. *)
Definition truthy (o : option string) : option string :=
  match o with
  | Some s => if String.eqb s EmptyString then None else Some s
  | None => None
  end.

(** [a || b] on strings. *)
Definition or_else (o : option string) (d : string) : string :=
  match truthy o with
  | Some s => s
  | None => d
  end.

End JSString.

(** ** Conversion calls: the result object, the world and faults

    A conversion call mutates its [result] object and the file system and
    may throw; what it wrote before a throw stays written.  [M A] is the
    state monad over the pair of the world and the result, with an
    outcome. *)
Module Conv.

Definition push_message (message : string) (r : ConversionResult)
    : ConversionResult :=
  mkConversionResult (sourcePath r) (outputPaths r) (success r)
    (messages r ++ [message]) (resultDirection r).

Definition set_success (b : bool) (r : ConversionResult)
    : ConversionResult :=
  mkConversionResult (sourcePath r) (outputPaths r) b (messages r)
    (resultDirection r).

Definition set_outputPaths (f : OutputPaths -> OutputPaths)
    (r : ConversionResult) : ConversionResult :=
  mkConversionResult (sourcePath r) (f (outputPaths r)) (success r)
    (messages r) (resultDirection r).

Section WithNode.
Context {node : Node}.

Definition state : Type := World node * ConversionResult.

Definition M (A : Type) : Type := state -> outcome A * state.

Definition ret {A} (a : A) : M A := fun st => (Ok a, st).

Definition bind {A B} (c : M A) (k : A -> M B) : M B :=
  fun st =>
    match c st with
    | (Ok a, st') => k a st'
    | (Throw message, st') => (Throw message, st')
    end.

Definition throw {A} (message : string) : M A :=
  fun st => (Throw message, st).

(** A call into a collaborator that may change the world or throw. *)
Definition io {A} (f : World node -> outcome A * World node) : M A :=
  fun st =>
    let '(o, w') := f (fst st) in (o, (w', snd st)).

(** A call that only reads the world. *)
Definition ask {A} (f : World node -> A) : M A :=
  fun st => (Ok (f (fst st)), st).

(** A pure call that may throw. *)
Definition try_pure {A} (o : outcome A) : M A := fun st => (o, st).

(** A nested conversion call: it returns its own result object. *)
Definition call (f : World node -> ConversionResult * World node)
    : M ConversionResult :=
  fun st =>
    let '(r, w') := f (fst st) in (Ok r, (w', snd st)).

Definition update (f : ConversionResult -> ConversionResult) : M unit :=
  fun st => (Ok tt, (fst st, f (snd st))).

(** [result.messages.push(message)]. *)
Definition push (message : string) : M unit :=
  update (push_message message).

(** [try { body; return result } catch (error) {
      result.messages.push(`Error: ${error.message}`); return result }]. *)
Definition try_catch (body : M unit) (w : World node)
    (result : ConversionResult) : ConversionResult * World node :=
  match body (w, result) with
  | (Ok _, (w', result')) => (result', w')
  | (Throw message, (w', result')) =>
      (push_message ("Error: " +:+ message) result', w')
  end.

End WithNode.

End Conv.

Notation "x <- c ;; k" := (Conv.bind c (fun x => k))
  (at level 100, c at next level, right associativity).
Notation "c ;; k" := (Conv.bind c (fun _ => k))
  (at level 100, right associativity).

(** ** textureLoader.ts *)
Module TextureLoader.
Import JSString.
Local Open Scope string_scope.

Section WithNode.
Context (node : Node).

Definition loadTexture (filePath : string) (w : World node)
    : outcome TextureData * World node :=
  let '(o, w') :=
    if negb (fs_existsSync node w filePath) then
      (Throw ("Texture file not found: " +:+ filePath), w)
    else
      let '(o, w') := sharp_read node filePath w in
      match o with
      | Ok td =>
          if (td_width td =? 0)%nat || (td_height td =? 0)%nat then
            (Throw ("Invalid image dimensions for " +:+ filePath), w')
          else (Ok td, w')
      | Throw message => (Throw message, w')
      end in
  match o with
  | Ok td => (Ok td, w')
  | Throw message =>
      (Throw ("Failed to load texture " +:+ filePath +:+ ": Error: "
              +:+ message), w')
  end.

Fixpoint first_existing (w : World node) (dir : string)
    (names : list string) : option string :=
  match names with
  | [] => None
  | name :: names' =>
      let colorPath := path_join node dir name in
      if fs_existsSync node w colorPath then Some colorPath
      else first_existing w dir names'
  end.

Definition findColorTexture (w : World node) (merFilePath : string)
    : option string :=
  let dir := path_dirname node merFilePath in
  let baseName :=
    replace "_mer" EmptyString
      (replace "_mer.png" EmptyString
         (String_toLowerCase node (path_basename node merFilePath))) in
  let possibleNames :=
    [ baseName +:+ ".png";
      baseName +:+ "_color.png";
      baseName +:+ "_diffuse.png" ] in
  first_existing w dir possibleNames.

End WithNode.

End TextureLoader.

(** ** textureWriter.ts *)
Module TextureWriter.
Import JS JSString.
Local Open Scope string_scope.

Record SaveOptions := mkSaveOptions {
  format : option OutputFormat;
  quality : option number
}.

(** A number is falsy when it is absent, zero or NaN. *)
Definition truthy_number (o : option number) : option number :=
  match o with
  | Some q => if is_nan q || (q =? 0)%float then None else Some q
  | None => None
  end.

Section WithNode.
Context (node : Node).

Definition saveTexture (textureData : TextureData) (outputPath : string)
    (options : SaveOptions) (w : World node)
    : outcome string * World node :=
  let '(o, w') :=
    let dir := path_dirname node outputPath in
    let '(made, w1) :=
      if negb (fs_existsSync node w dir) then fs_mkdirSync node dir w
      else (Ok tt, w) in
    match made, sharp_raw node textureData with
    | Throw message, _ => (Throw message, w1)
    | Ok _, Throw message => (Throw message, w1)
    | Ok _, Ok _ =>
        let format :=
          or_else (option_map OutputFormat_name (format options))
            (or_else
               (Some (substring_from (path_extname node outputPath) 1))
               "png") in
        let lower := String_toLowerCase node format in
        if String.eqb lower "jpg" || String.eqb lower "jpeg" then
          sharp_write node textureData "jpeg"
            (match truthy_number (quality options) with
             | Some q => q
             | None => 90%float
             end) outputPath w1
        else if String.eqb lower "tga" then
          (Throw "TGA format not supported in this version", w1)
        else
          sharp_write node textureData "png"
            (match truthy_number (quality options) with
             | Some q => Math_floor (q / 10)%float
             | None => 6%float
             end) outputPath w1
    end in
  match o with
  | Ok _ => (Ok outputPath, w')
  | Throw message =>
      (Throw ("Failed to save texture to " +:+ outputPath +:+ ": Error: "
              +:+ message), w')
  end.

Definition getSpecularTexturePath (sourcePath : string) : string :=
  let dir := path_dirname node sourcePath in
  let baseName :=
    replace "_color" EmptyString
      (replace "_diffuse" EmptyString
         (replace "_mer" EmptyString
            (path_basename_ext node sourcePath
               (path_extname node sourcePath)))) in
  path_join node dir (baseName +:+ "_s.png").

End WithNode.

End TextureWriter.

(** ** pbrConverter.ts *)
Module PBRConverter.
Import JS ChannelExtractor.
Local Open Scope float_scope.

Definition createSpecularTexture (merChannels : MERChannels)
    (colorChannels : ChannelData) (width height : nat) : TextureData :=
  let metallic := metallic merChannels in
  let emissive := emissive merChannels in
  let roughness := roughness merChannels in
  let subsurface := subsurface merChannels in
  let pixelCount := (width * height)%nat in
  let smoothness := Buffer.alloc pixelCount in
  let f0 := Buffer.alloc pixelCount in
  let porosity := Buffer.alloc pixelCount in
  let emission := Buffer.alloc pixelCount in
  let '(smoothness, f0, porosity, emission) :=
    for_loop pixelCount (fun i '(smoothness, f0, porosity, emission) =>
      let smoothness :=
        Buffer.set smoothness i
          (WorkflowConverter.roughnessToSmoothness (Buffer.get roughness i)) in
      let f0 :=
        if WorkflowConverter.isMetallic (Buffer.get metallic i) then
          Buffer.set f0 i
            (WorkflowConverter.getPredefinedMetal
               (Buffer.get (cd_r colorChannels) i)
               (Buffer.get (cd_g colorChannels) i)
               (Buffer.get (cd_b colorChannels) i))
        else
          Buffer.set f0 i
            (WorkflowConverter.metallicToF0 (Buffer.get metallic i)) in
      let porosity :=
        match subsurface with
        | Some subsurface' =>
            if 0 <? Buffer.get subsurface' i then
              Buffer.set porosity i
                (WorkflowConverter.convertSubsurface
                   (Buffer.get subsurface' i))
            else
              Buffer.set porosity i (WorkflowConverter.convertPorosity 0.1)
        | None =>
            Buffer.set porosity i (WorkflowConverter.convertPorosity 0.1)
        end in
      let emission :=
        Buffer.set emission i
          (WorkflowConverter.convertEmissive (Buffer.get emissive i)) in
      (smoothness, f0, porosity, emission))
      (smoothness, f0, porosity, emission) in
  combineChannels
    (mkChannelData smoothness f0 porosity (Some emission) width height).


(** [convertTexture]: the body of the [try] block, then the call. *)
Section WithNode.
Context (node : Node).
Import JSString Conv.
Local Open Scope string_scope.

Definition set_specular (p : string) (o : OutputPaths) : OutputPaths :=
  mkOutputPaths (Some p) (out_normal o) (out_mer o) (out_bedrockNormal o)
    (out_heightMap o) (out_baseColorWithAO o).

Definition convertTexture_try (merTexturePath : string)
    (colorTexturePath outputDir : option string)
    (options : ConversionOptions) : M (node := node) unit :=
  colorTexturePath <-
    match truthy colorTexturePath with
    | Some given => ret given
    | None =>
        foundTexturePath <-
          ask (fun w => TextureLoader.findColorTexture node w merTexturePath) ;;
        match truthy foundTexturePath with
        | None => throw "Could not find corresponding color texture"
        | Some found =>
            push ("Found color texture: " +:+ path_basename node found) ;;
            ret found
        end
    end ;;
  let finalOutputDir :=
    or_else outputDir (path_dirname node merTexturePath) in
  push "Loading textures..." ;;
  merTextureData <- io (TextureLoader.loadTexture node merTexturePath) ;;
  colorTextureData <- io (TextureLoader.loadTexture node colorTexturePath) ;;
  push "Extracting channels..." ;;
  let merChannels := extractMERChannels merTextureData in
  let colorChannels := extractChannels colorTextureData in
  push "Creating specular texture..." ;;
  let specularTexture :=
    createSpecularTexture merChannels colorChannels
      (td_width merTextureData) (td_height merTextureData) in
  let specularPath :=
    TextureWriter.getSpecularTexturePath node colorTexturePath in
  let finalSpecularPath :=
    match truthy outputDir with
    | Some _ =>
        path_join node finalOutputDir (path_basename node specularPath)
    | None => specularPath
    end in
  io (TextureWriter.saveTexture node specularTexture finalSpecularPath
        (TextureWriter.mkSaveOptions (outputFormat options)
           (compressionLevel options))) ;;
  update (set_outputPaths (set_specular finalSpecularPath)) ;;
  push ("Saved specular texture to: "
        +:+ path_basename node finalSpecularPath) ;;
  push "Note: Normal map processing not implemented in this version" ;;
  update (set_success true).

(** [const result = { sourcePath, outputPaths: {}, success: false,
    messages: [] }]. *)
Definition convertTexture_result (merTexturePath : string)
    : ConversionResult :=
  mkConversionResult merTexturePath
    (mkOutputPaths None None None None None None) false [] None.

Definition convertTexture (merTexturePath : string)
    (colorTexturePath outputDir : option string)
    (options : ConversionOptions) (w : World node)
    : ConversionResult * World node :=
  let result := convertTexture_result merTexturePath in
  try_catch
    (convertTexture_try merTexturePath colorTexturePath outputDir options)
    w result.

End WithNode.

End PBRConverter.

(** ** bidirectional/formatDetector.ts *)
Module FormatDetector.
Import JS JSString.

Inductive TextureFormat := Bedrock | LabPBR | Unknown.

Inductive ConversionDirection := BedrockToLabPBR | LabPBRToBedrock | Auto.

Record DetectionResult := mkDetectionResult {
  format : TextureFormat;
  baseTexturePath : option string;
  merTexturePath : option string;
  specularTexturePath : option string;
  normalTexturePath : option string;
  confidence : number
}.

(** What [detectFormat] reads off the file name and the file system before
    it scores (lines 44-72). *)
Record Probe := mkProbe {
  isLabPBRSpecular : bool;
  isLabPBRNormal : bool;
  isBedrockMER : bool;
  basePath : string;
  specularPath : string;
  normalPath : string;
  merPath : string;
  hasBaseTexture : bool;
  hasSpecularTexture : bool;
  hasNormalTexture : bool;
  hasMERTexture : bool
}.

Section Detect.
Context (node : Node) (w : World node).
Local Open Scope string_scope.

Definition probe (texturePath : string) : Probe :=
  let dir := path_dirname node texturePath in
  let baseName :=
    path_basename_ext node texturePath (path_extname node texturePath) in
  let isLabPBRSpecular := endsWith baseName "_s" in
  let isLabPBRNormal := endsWith baseName "_n" in
  let isBedrockMER := endsWith baseName "_mer" in
  let baseNameWithoutSuffix :=
    if isLabPBRSpecular then slice_to_last baseName 2
    else if isLabPBRNormal then slice_to_last baseName 2
    else if isBedrockMER then slice_to_last baseName 4
    else baseName in
  let ext := path_extname node texturePath in
  let baseTexturePath :=
    path_join node dir (baseNameWithoutSuffix +:+ ext) in
  let specularTexturePath :=
    path_join node dir (baseNameWithoutSuffix +:+ "_s" +:+ ext) in
  let normalTexturePath :=
    path_join node dir (baseNameWithoutSuffix +:+ "_n" +:+ ext) in
  let merTexturePath :=
    path_join node dir (baseNameWithoutSuffix +:+ "_mer" +:+ ext) in
  mkProbe isLabPBRSpecular isLabPBRNormal isBedrockMER
    baseTexturePath specularTexturePath normalTexturePath merTexturePath
    (fs_existsSync node w baseTexturePath)
    (fs_existsSync node w specularTexturePath)
    (fs_existsSync node w normalTexturePath)
    (fs_existsSync node w merTexturePath).

(** Lines 74-98: the pair [(labPBRConfidence, bedrockConfidence)]. *)
Definition scores (p : Probe) : number * number :=
  let labPBRConfidence := 0%float in
  let bedrockConfidence := 0%float in
  let labPBRConfidence :=
    if isLabPBRSpecular p || isLabPBRNormal p
    then (labPBRConfidence + 0.4)%float else labPBRConfidence in
  let bedrockConfidence :=
    if isBedrockMER p
    then (bedrockConfidence + 0.4)%float else bedrockConfidence in
  let labPBRConfidence :=
    if hasSpecularTexture p && hasNormalTexture p
    then (labPBRConfidence + 0.3)%float else labPBRConfidence in
  let bedrockConfidence :=
    if hasMERTexture p
    then (bedrockConfidence + 0.3)%float else bedrockConfidence in
  if hasBaseTexture p
  then ((labPBRConfidence + 0.1)%float, (bedrockConfidence + 0.1)%float)
  else (labPBRConfidence, bedrockConfidence).

(** Lines 100-116. *)
Definition classify (p : Probe) : DetectionResult :=
  let '(labPBRConfidence, bedrockConfidence) := scores p in
  let keep (present : bool) (path : string) :=
    if present then Some path else None in
  if (bedrockConfidence <? labPBRConfidence)%float then
    mkDetectionResult LabPBR
      (keep (hasBaseTexture p) (basePath p))
      None
      (keep (hasSpecularTexture p) (specularPath p))
      (keep (hasNormalTexture p) (normalPath p))
      labPBRConfidence
  else if (0 <? bedrockConfidence)%float then
    mkDetectionResult Bedrock
      (keep (hasBaseTexture p) (basePath p))
      (keep (hasMERTexture p) (merPath p))
      None None
      bedrockConfidence
  else
    mkDetectionResult Unknown None None None None 0%float.

Definition detectFormat (texturePath : string) : DetectionResult :=
  classify (probe texturePath).

Definition determineConversionDirection (texturePath : string)
    : ConversionDirection :=
  match format (detectFormat texturePath) with
  | Bedrock => BedrockToLabPBR
  | LabPBR => LabPBRToBedrock
  | Unknown => Auto
  end.

End Detect.

End FormatDetector.

(** ** bidirectional/normalMapProcessor.ts

    The three entry points the converter calls, with the types they are
    called at; each may throw (a normal texture without alpha has no height
    map to extract). *)
Module NormalMapProcessor.

Record t := mk {
  reconstructNormalMap : TextureData -> outcome TextureData;
  extractHeightMap : TextureData -> outcome TextureData;
  bakeAOIntoBaseColor : Buffer.t -> TextureData -> outcome TextureData
}.

End NormalMapProcessor.

(** ** bidirectional/bidirectionalConverter.ts *)
Module BidirectionalConverter.
Import JS ChannelExtractor.
Local Open Scope float_scope.

Definition createMERTexture (specularChannels normalChannels : ChannelData)
    (width height : nat) : TextureData :=
  let pixelCount := (width * height)%nat in
  let metallic := Buffer.alloc pixelCount in
  let emissive := Buffer.alloc pixelCount in
  let roughness := Buffer.alloc pixelCount in
  let subsurface := Buffer.alloc pixelCount in
  let '(metallic, emissive, roughness, subsurface) :=
    for_loop pixelCount (fun i '(metallic, emissive, roughness, subsurface) =>
      let f0 := Buffer.get (cd_g specularChannels) i in
      let metallic :=
        if 230 <=? f0 then Buffer.set metallic i 255
        else if 200 <=? f0 then Buffer.set metallic i 255
        else if 150 <=? f0 then Buffer.set metallic i 230
        else if 100 <=? f0 then Buffer.set metallic i 180
        else if 50 <=? f0 then Buffer.set metallic i 100
        else Buffer.set metallic i 0 in
      let roughness :=
        Buffer.set roughness i (255 - Buffer.get (cd_r specularChannels) i) in
      let emissive := Buffer.set emissive i 0 in
      let subsurface :=
        if 65 <=? Buffer.get (cd_b specularChannels) i then
          Buffer.set subsurface i (Buffer.get (cd_b specularChannels) i)
        else
          Buffer.set subsurface i 255 in
      (metallic, emissive, roughness, subsurface))
      (metallic, emissive, roughness, subsurface) in
  combineChannels
    (mkChannelData metallic emissive roughness (Some subsurface) width height).

(** The scan of [convertLabPBRToBedrock] for a subsurface pixel; once the
    flag is set the loop is left. *)
Definition scanSubsurface (specularChannels : ChannelData)
    (pixelCount : nat) : bool :=
  for_loop pixelCount (fun i (hasSubsurface : bool) =>
    if hasSubsurface then true
    else if 65 <=? Buffer.get (cd_b specularChannels) i then true
    else false) false.

Definition fileSuffix (hasSubsurface : bool) : string :=
  if hasSubsurface then "_mers"%string else "_mer"%string.

(** [if (!hasSubsurface) { ... merTexture.data[alphaOffset + i] = 255 }]. *)
Definition forceOpaque (merTexture : TextureData) : TextureData :=
  let pixelCount := (td_width merTexture * td_height merTexture)%nat in
  let alphaOffset := (pixelCount * 3)%nat in
  let data :=
    for_loop pixelCount (fun i data =>
      Buffer.set data (alphaOffset + i) 255) (td_data merTexture) in
  mkTextureData (td_width merTexture) (td_height merTexture) data
                (td_channels merTexture).

(** Lines 151-187 of [convertLabPBRToBedrock]: from the loaded specular and
    normal textures to the MER texture that is saved and its suffix. *)
Definition merStage (specularTextureData normalTextureData : TextureData)
    : TextureData * bool :=
  let specularChannels := extractChannels specularTextureData in
  let normalChannels := extractChannels normalTextureData in
  let merTexture :=
    createMERTexture specularChannels normalChannels
      (td_width specularTextureData) (td_height specularTextureData) in
  let pixelCount :=
    (td_width specularTextureData * td_height specularTextureData)%nat in
  let hasSubsurface := scanSubsurface specularChannels pixelCount in
  let merTexture :=
    if negb hasSubsurface then forceOpaque merTexture else merTexture in
  (merTexture, hasSubsurface).


(** The conversion calls. *)
Section WithNode.
Context (node : Node) (nmp : NormalMapProcessor.t).
Import JSString Conv FormatDetector.
Local Open Scope string_scope.

Definition ConversionDirection_code (d : ConversionDirection) : Z :=
  match d with
  | BedrockToLabPBR => 0
  | LabPBRToBedrock => 1
  | Auto => 2
  end.

Definition TextureFormat_name (f : TextureFormat) : string :=
  match f with
  | Bedrock => "Bedrock"
  | LabPBR => "LabPBR"
  | Unknown => "Unknown"
  end.

Definition set_mer (p : string) (o : OutputPaths) : OutputPaths :=
  mkOutputPaths (out_specular o) (out_normal o) (Some p)
    (out_bedrockNormal o) (out_heightMap o) (out_baseColorWithAO o).

Definition set_bedrockNormal (p : string) (o : OutputPaths)
    : OutputPaths :=
  mkOutputPaths (out_specular o) (out_normal o) (out_mer o) (Some p)
    (out_heightMap o) (out_baseColorWithAO o).

Definition set_heightMap (p : string) (o : OutputPaths) : OutputPaths :=
  mkOutputPaths (out_specular o) (out_normal o) (out_mer o)
    (out_bedrockNormal o) (Some p) (out_baseColorWithAO o).

Definition set_baseColorWithAO (p : string) (o : OutputPaths)
    : OutputPaths :=
  mkOutputPaths (out_specular o) (out_normal o) (out_mer o)
    (out_bedrockNormal o) (out_heightMap o) (Some p).

(** The name under which an output derived from the base texture is
    saved. *)
Definition outputName (baseTexturePath suffix : string) : string :=
  path_basename_ext node baseTexturePath
    (path_extname node baseTexturePath)
  +:+ suffix +:+ path_extname node baseTexturePath.

Definition convertLabPBRToBedrock_try
    (specularTexturePath normalTexturePath baseTexturePath : string)
    (outputDir : option string) (options : ConversionOptions)
    : M (node := node) unit :=
  let saveOptions :=
    TextureWriter.mkSaveOptions (outputFormat options)
      (compressionLevel options) in
  let finalOutputDir :=
    or_else outputDir (path_dirname node specularTexturePath) in
  push "Loading textures..." ;;
  specularTextureData <-
    io (TextureLoader.loadTexture node specularTexturePath) ;;
  normalTextureData <-
    io (TextureLoader.loadTexture node normalTexturePath) ;;
  baseTextureData <- io (TextureLoader.loadTexture node baseTexturePath) ;;
  push "Extracting channels..." ;;
  let normalChannels := extractChannels normalTextureData in
  push "Creating MER texture..." ;;
  let '(merTexture, hasSubsurface) :=
    merStage specularTextureData normalTextureData in
  let merPath :=
    path_join node finalOutputDir
      (outputName baseTexturePath (fileSuffix hasSubsurface)) in
  io (TextureWriter.saveTexture node merTexture merPath saveOptions) ;;
  update (set_outputPaths (set_mer merPath)) ;;
  push ("Saved " +:+ (if hasSubsurface then "MERS" else "MER")
        +:+ " texture to: " +:+ path_basename node merPath) ;;
  push "Creating Bedrock normal map..." ;;
  bedrockNormalMap <- try_pure
      (NormalMapProcessor.reconstructNormalMap nmp normalTextureData) ;;
  let normalPath :=
    path_join node finalOutputDir (outputName baseTexturePath "_normal") in
  io (TextureWriter.saveTexture node bedrockNormalMap normalPath
        saveOptions) ;;
  update (set_outputPaths (set_bedrockNormal normalPath)) ;;
  push ("Saved normal map to: " +:+ path_basename node normalPath) ;;
  (if negb (match extractHeightMap options with
            | Some false => true
            | _ => false
            end)
      && (td_channels normalTextureData =? 4)%nat
   then
     push "Extracting heightmap..." ;;
     heightMap <- try_pure
        (NormalMapProcessor.extractHeightMap nmp normalTextureData) ;;
     let heightMapPath :=
       path_join node finalOutputDir
         (outputName baseTexturePath "_heightmap") in
     io (TextureWriter.saveTexture node heightMap heightMapPath
           saveOptions) ;;
     update (set_outputPaths (set_heightMap heightMapPath)) ;;
     push ("Saved heightmap to: " +:+ path_basename node heightMapPath)
   else ret tt) ;;
  (match bakeAO options with
   | Some true =>
       push "Baking AO into base color..." ;;
       baseColorWithAO <-
         try_pure
           (NormalMapProcessor.bakeAOIntoBaseColor nmp (cd_b normalChannels)
              baseTextureData) ;;
       let baseColorPath :=
         path_join node finalOutputDir
           (outputName baseTexturePath "_withAO") in
       io (TextureWriter.saveTexture node baseColorWithAO baseColorPath
             saveOptions) ;;
       update (set_outputPaths (set_baseColorWithAO baseColorPath)) ;;
       push ("Saved base color with AO to: "
             +:+ path_basename node baseColorPath)
   | _ => ret tt
   end) ;;
  update (set_success true).

Definition convertLabPBRToBedrock_result (specularTexturePath : string)
    : ConversionResult :=
  mkConversionResult specularTexturePath
    (mkOutputPaths None None None None None None) false []
    (Some (ConversionDirection_code LabPBRToBedrock)).

Definition convertLabPBRToBedrock
    (specularTexturePath normalTexturePath baseTexturePath : string)
    (outputDir : option string) (options : ConversionOptions)
    (w : World node) : ConversionResult * World node :=
  let result := convertLabPBRToBedrock_result specularTexturePath in
  try_catch
    (convertLabPBRToBedrock_try specularTexturePath normalTexturePath
       baseTexturePath outputDir options)
    w result.

(** [options.conversionDirection || (format === Bedrock ? ... : ...)]:
    the number 0 of [BedrockToLabPBR] is falsy. *)
Definition chooseDirection (options : ConversionOptions)
    (detectionResult : DetectionResult) : Z :=
  match conversionDirection options with
  | Some d =>
      if (d =? 0)%Z then
        match format detectionResult with
        | Bedrock => ConversionDirection_code BedrockToLabPBR
        | _ => ConversionDirection_code LabPBRToBedrock
        end
      else d
  | None =>
      match format detectionResult with
      | Bedrock => ConversionDirection_code BedrockToLabPBR
      | _ => ConversionDirection_code LabPBRToBedrock
      end
  end.

(** The nested call's outcome is copied into [result]. *)
Definition copy_results (nested : ConversionResult)
    (r : ConversionResult) : ConversionResult :=
  mkConversionResult (sourcePath r) (outputPaths nested) (success nested)
    (messages r ++ messages nested) (resultDirection r).

Definition convertAuto_try (texturePath : string)
    (outputDir : option string) (options : ConversionOptions)
    (detectionResult : DetectionResult) (direction : Z)
    : M (node := node) unit :=
  if (direction =? ConversionDirection_code BedrockToLabPBR)%Z then
    push "Converting from Bedrock to LabPBR format..." ;;
    let merTexturePath :=
      or_else (merTexturePath detectionResult) texturePath in
    let colorTexturePath := baseTexturePath detectionResult in
    match truthy (Some merTexturePath), truthy colorTexturePath with
    | Some merTexturePath, Some colorTexturePath =>
        conversionResult <-
          call (PBRConverter.convertTexture node merTexturePath
                  (Some colorTexturePath) outputDir options) ;;
        update (copy_results conversionResult)
    | _, _ =>
        throw "Could not find required textures for Bedrock to LabPBR conversion"
    end
  else if (direction =? ConversionDirection_code LabPBRToBedrock)%Z then
    push "Converting from LabPBR to Bedrock format..." ;;
    let specularTexturePath :=
      or_else (specularTexturePath detectionResult) texturePath in
    let normalTexturePath := normalTexturePath detectionResult in
    let baseTexturePath := baseTexturePath detectionResult in
    match truthy (Some specularTexturePath), truthy normalTexturePath,
          truthy baseTexturePath with
    | Some specularTexturePath, Some normalTexturePath,
      Some baseTexturePath =>
        labPBRToBedrock <-
          call (convertLabPBRToBedrock specularTexturePath
                  normalTexturePath baseTexturePath outputDir options) ;;
        update (copy_results labPBRToBedrock)
    | _, _, _ =>
        throw "Could not find required textures for LabPBR to Bedrock conversion"
    end
  else
    throw "Could not determine conversion direction".

Definition convertAuto_result (texturePath : string)
    (detectionResult : DetectionResult) (direction : Z)
    : ConversionResult :=
  mkConversionResult texturePath
    (mkOutputPaths None None None None None None) false
    [ "Detected format: "
      +:+ TextureFormat_name (format detectionResult)
      +:+ " (confidence: "
      +:+ Number_toFixed2 node (confidence detectionResult) +:+ ")" ]
    (Some direction).

Definition convertAuto (texturePath : string) (outputDir : option string)
    (options : ConversionOptions) (w : World node)
    : ConversionResult * World node :=
  let detectionResult := detectFormat node w texturePath in
  let direction := chooseDirection options detectionResult in
  let result := convertAuto_result texturePath detectionResult direction in
  try_catch
    (convertAuto_try texturePath outputDir options detectionResult
       direction)
    w result.

End WithNode.

End BidirectionalConverter.

(** A file system given by the list of the files that exist, with [path]
    functions that agree with Node's on plain paths [dir/name.ext]. *)
Module SimplePosix.
Local Open Scope string_scope.

Fixpoint split_last (c : Ascii.ascii) (s : string)
    : option (string * string) :=
  match s with
  | EmptyString => None
  | String a s' =>
      match split_last c s' with
      | Some (l, r) => Some (String a l, r)
      | None => if Ascii.eqb a c then Some (EmptyString, s') else None
      end
  end.

Definition basename (p : string) : string :=
  match split_last "/"%char p with
  | Some (_, r) => r
  | None => p
  end.

Definition dirname (p : string) : string :=
  match split_last "/"%char p with
  | Some (l, _) => if String.eqb l EmptyString then "/" else l
  | None => "."
  end.

Definition extname (p : string) : string :=
  match split_last "."%char (basename p) with
  | Some (l, r) => if String.eqb l EmptyString then EmptyString else "." +:+ r
  | None => EmptyString
  end.

Definition basename_ext (p ext : string) : string :=
  let b := basename p in
  if JSString.endsWith b ext && negb (String.eqb b ext)
  then JSString.slice_to_last b (String.length ext)
  else b.

Definition join (a b : string) : string := a +:+ "/" +:+ b.

(** No codec and a read-only file system: reads and writes throw. *)
Definition node : Node :=
  mkNode (list string) dirname basename basename_ext extname join
    (fun files p => existsb (String.eqb p) files)
    (fun _ files => (Throw "EROFS: read-only file system", files))
    (fun _ files =>
       (Throw "Input file contains unsupported image format", files))
    (fun _ => Ok tt)
    (fun _ _ _ _ files => (Throw "EROFS: read-only file system", files))
    (fun s => s)
    (fun _ => "0.00").

End SimplePosix.

(** ** bidirectional/bidirectionalWorkflowConverter.ts *)
Module BidirectionalWorkflowConverter.
Import JS.
Local Open Scope float_scope.

Definition smoothnessToBedrockRoughness (smoothness : number) : number :=
  255 - smoothness.

Definition f0ToMetallic (f0 : number) : number :=
  if 230 <=? f0 then 255
  else if 200 <=? f0 then 255
  else if 150 <=? f0 then 230
  else if 100 <=? f0 then 180
  else if 50 <=? f0 then 100
  else 0.

Definition labPBREmissiveToBedrockEmissive (emissive : number) : number :=
  if emissive =? 0 then 0
  else Math_min 255 (Math_round ((emissive / 254) * 255)).

Definition labPBRSubsurfaceToBedrockSubsurface (subsurface : number)
    : number :=
  if subsurface <? 65 then 0
  else Math_round (((subsurface - 65) / 190) * 255).

Definition reconstructNormalMapBlueChannel (r g : number) : number :=
  let normalizedR := r / 255 in
  let normalizedG := g / 255 in
  let b :=
    sqrt (1 - Math_min 1 (normalizedR * normalizedR
                          + normalizedG * normalizedG)) in
  let b := if is_nan b || (b <? 0) then 0 else b in
  Math_round (b * 255).

Definition isPredefinedMetal (f0 : number) : bool :=
  (230 <=? f0) && (f0 <=? 255).

(** [f0 as PredefinedMetal] is the number [f0] itself; [null] is [None]. *)
Definition getPredefinedMetalType (f0 : number) : option number :=
  if (230 <=? f0) && (f0 <=? 237) then Some f0
  else if (238 <=? f0) && (f0 <=? 255) then None
  else None.

End BidirectionalWorkflowConverter.

(** ** bidirectional/normalMapProcessor.ts: the functions *)
Module NormalMapProcessorImpl.
Import JS ChannelExtractor.
Local Open Scope float_scope.

Definition extractHeightMap (normalTextureData : TextureData)
    : outcome TextureData :=
  let width := td_width normalTextureData in
  let height := td_height normalTextureData in
  let channels := td_channels normalTextureData in
  if negb (channels =? 4)%nat then
    Throw
      "Normal texture does not have an alpha channel for heightmap extraction"
  else
    let channelData := extractChannels normalTextureData in
    match cd_a channelData with
    | None => Throw "Failed to extract alpha channel from normal texture"
    | Some a =>
        let heightmapData := Buffer.alloc (width * height) in
        let heightmapData :=
          for_loop (width * height) (fun i heightmapData =>
            Buffer.set heightmapData i (Buffer.get a i)) heightmapData in
        Ok (mkTextureData width height heightmapData 1)
    end.

Definition reconstructNormalMap (normalTextureData : TextureData)
    : TextureData :=
  let width := td_width normalTextureData in
  let height := td_height normalTextureData in
  let channelData := extractChannels normalTextureData in
  let outputData := Buffer.alloc (width * height * 3) in
  let outputData :=
    for_loop (width * height) (fun i outputData =>
      let r := Buffer.get (cd_r channelData) i / 255 in
      let g := Buffer.get (cd_g channelData) i / 255 in
      let b := sqrt (1 - Math_min 1 (r * r + g * g)) in
      let b := if is_nan b || (b <? 0) then 0 else b in
      let bValue := Math_round (b * 255) in
      let outOffset := (i * 3)%nat in
      let outputData :=
        Buffer.set outputData outOffset (Buffer.get (cd_r channelData) i) in
      let outputData :=
        Buffer.set outputData (outOffset + 1)
          (Buffer.get (cd_g channelData) i) in
      Buffer.set outputData (outOffset + 2) bValue) outputData in
  mkTextureData width height outputData 3.

Definition bakeAOIntoBaseColor (aoData : Buffer.t)
    (baseColorData : TextureData) : TextureData :=
  let width := td_width baseColorData in
  let height := td_height baseColorData in
  let channels := td_channels baseColorData in
  let outputData := Buffer.alloc (width * height * channels) in
  let outputData :=
    for_loop (width * height) (fun i outputData =>
      let aoFactor := 1 - (Buffer.get aoData i / 255) in
      let inOffset := (i * channels)%nat in
      let outOffset := (i * channels)%nat in
      for_loop channels (fun c outputData =>
        if (c <? 3)%nat then
          Buffer.set outputData (outOffset + c)
            (Math_round
               (Buffer.get (td_data baseColorData) (inOffset + c)
                * (1 - aoFactor * 0.5)))
        else
          Buffer.set outputData (outOffset + c)
            (Buffer.get (td_data baseColorData) (inOffset + c)))
        outputData) outputData in
  mkTextureData width height outputData channels.

Definition createDirectXNormalMap (normalX normalY : Buffer.t)
    (width height : nat) : TextureData :=
  let outputData := Buffer.alloc (width * height * 3) in
  let outputData :=
    for_loop (width * height) (fun i outputData =>
      let r := Buffer.get normalX i / 255 in
      let g := Buffer.get normalY i / 255 in
      let b := sqrt (1 - Math_min 1 (r * r + g * g)) in
      let b := if is_nan b || (b <? 0) then 0 else b in
      let bValue := Math_round (b * 255) in
      let outOffset := (i * 3)%nat in
      let outputData := Buffer.set outputData outOffset (Buffer.get normalX i) in
      let outputData :=
        Buffer.set outputData (outOffset + 1) (Buffer.get normalY i) in
      Buffer.set outputData (outOffset + 2) bValue) outputData in
  mkTextureData width height outputData 3.

(** The processor the converter is linked with. *)
Definition processor : NormalMapProcessor.t :=
  NormalMapProcessor.mk
    (fun td => Ok (reconstructNormalMap td))
    extractHeightMap
    (fun aoData td => Ok (bakeAOIntoBaseColor aoData td)).

End NormalMapProcessorImpl.

(** ** bidirectional/formatDetector.ts: scanning a directory

    [readdirSync] is the listing of a directory; it throws when the path is
    not one.  The [Map] the scan fills is a finite map from the keys to the
    results stored last under them. *)
Module FormatDetectorScan.
Import JS JSString ChannelExtractor FormatDetector.

Section Scan.
Context (node : Node).
Context (fs_readdirSync : World node -> string -> outcome (list string)).
Local Open Scope string_scope.

(** One turn of the loop over the files (lines 133-151). *)
Definition scanFile (w : World node) (directoryPath : string)
    (results : gmap string DetectionResult) (file : string)
    : gmap string DetectionResult :=
  if negb (endsWith file ".png") && negb (endsWith file ".jpg")
     && negb (endsWith file ".tga")
  then results
  else
    let filePath := path_join node directoryPath file in
    let result := detectFormat node w filePath in
    let baseName :=
      replace "_mer" EmptyString
        (replace "_n" EmptyString
           (replace "_s" EmptyString
              (path_basename_ext node file (path_extname node file)))) in
    if (0.3 <? confidence result)%float then <[ baseName := result ]> results
    else results.

Definition detectFormatInDirectory (w : World node)
    (directoryPath : string) : outcome (gmap string DetectionResult) :=
  let results : gmap string DetectionResult := ∅ in
  if negb (fs_existsSync node w directoryPath) then Ok results
  else
    match fs_readdirSync w directoryPath with
    | Throw message => Throw message
    | Ok files => Ok (foldl (scanFile w directoryPath) results files)
    end.

End Scan.

End FormatDetectorScan.

(** ** Vocabulary of the statements *)

(** A plane of [n] bytes whose first [k] entries are the stored values of
    [f 0], ..., [f (k - 1)]. *)
Definition filled (n k : nat) (f : nat -> JS.number) (x : Buffer.t) : Prop :=
  length x = n
  /\ forall i, (i < k)%nat -> x !! i = Some (JS.ToUint8 (f i)).

(** The number [combineChannels] stores for channel [c] of pixel [i]. *)
Definition chan_value (ch : ChannelData) (i c : nat) : JS.number :=
  match c with
  | 0%nat => Buffer.get (cd_r ch) i
  | 1%nat => Buffer.get (cd_g ch) i
  | 2%nat => Buffer.get (cd_b ch) i
  | _ => match cd_a ch with
         | Some a => Buffer.get a i
         | None => JS.NaN
         end
  end.

(** The channel count [combineChannels] chooses. *)
Definition channelCount (ch : ChannelData) : nat :=
  match cd_a ch with
  | Some _ => 4%nat
  | None => 3%nat
  end.

(** The numbers [createSpecularTexture] computes for pixel [i]. *)
Module SpecularPixel.
Import ChannelExtractor.

Definition smoothness (mer : MERChannels) (i : nat) : JS.number :=
  WorkflowConverter.roughnessToSmoothness (Buffer.get (roughness mer) i).

Definition f0 (mer : MERChannels) (color : ChannelData) (i : nat)
    : JS.number :=
  if WorkflowConverter.isMetallic (Buffer.get (metallic mer) i) then
    WorkflowConverter.getPredefinedMetal
      (Buffer.get (cd_r color) i) (Buffer.get (cd_g color) i)
      (Buffer.get (cd_b color) i)
  else WorkflowConverter.metallicToF0 (Buffer.get (metallic mer) i).

Definition porosity (mer : MERChannels) (i : nat) : JS.number :=
  match subsurface mer with
  | Some subsurface' =>
      if (0 <? Buffer.get subsurface' i)%float then
        WorkflowConverter.convertSubsurface (Buffer.get subsurface' i)
      else WorkflowConverter.convertPorosity 0.1%float
  | None => WorkflowConverter.convertPorosity 0.1%float
  end.

Definition emission (mer : MERChannels) (i : nat) : JS.number :=
  WorkflowConverter.convertEmissive (Buffer.get (emissive mer) i).

End SpecularPixel.

(** The numbers [createMERTexture] computes for pixel [i]. *)
Module MERPixel.

Definition metallic (spec : ChannelData) (i : nat) : JS.number :=
  let f0 := Buffer.get (cd_g spec) i in
  (if 230 <=? f0 then 255
   else if 200 <=? f0 then 255
   else if 150 <=? f0 then 230
   else if 100 <=? f0 then 180
   else if 50 <=? f0 then 100
   else 0)%float.

Definition emissive (spec : ChannelData) (i : nat) : JS.number := 0%float.

Definition roughness (spec : ChannelData) (i : nat) : JS.number :=
  (255 - Buffer.get (cd_r spec) i)%float.

Definition subsurface (spec : ChannelData) (i : nat) : JS.number :=
  if (65 <=? Buffer.get (cd_b spec) i)%float then Buffer.get (cd_b spec) i
  else 255%float.

End MERPixel.

(** The packed 2x2 texture of the end-to-end example: metallic
    [0,255,0,255], emissive [0,0,128,128], roughness [0,64,128,255], no
    alpha; and a uniform mid-gray colour texture. *)
Definition packed2x2 : TextureData :=
  mkTextureData 2 2 [0; 0; 0;  255; 0; 64;  0; 128; 128;  255; 128; 255] 3.

Definition midgray2x2 : TextureData :=
  mkTextureData 2 2 (replicate 12 128) 3.

(** Some pixel of the blue plane is a subsurface value: a byte of at least
    65 among the first [n]. *)
Definition has_subsurface_pixel (blue : Buffer.t) (n : nat) : Prop :=
  exists (i : nat) (v : Z), (i < n)%nat /\ blue !! i = Some v /\ 65 <= v.

(** Conversion calls and faults. *)
Section Faults.
Context {node : Node}.

(** [c] leaves the [success] flag as it finds it, whatever its outcome. *)
Definition keeps_success {A} (c : Conv.M (node := node) A) : Prop :=
  forall st, success (snd (snd (c st))) = success (snd st).

(** [c] never throws. *)
Definition never_throws {A} (c : Conv.M (node := node) A) : Prop :=
  forall st, exists a, fst (c st) = Ok a.

(** When [c] throws from a result that is not successful, the result it
    leaves is not successful. *)
Definition fails_unsuccessful {A} (c : Conv.M (node := node) A) : Prop :=
  forall st message,
    success (snd st) = false -> fst (c st) = Throw message ->
    success (snd (snd (c st))) = false.

(** The call [res] recovered what the [try] block [body] did from the
    world [w] and the fresh [result]: it is the result the block completed,
    or, when the block threw, the result as the block left it with the
    message of the fault appended last and [success] false. *)
Definition recovered (body : Conv.M (node := node) unit) (w : World node)
    (result : ConversionResult) (res : ConversionResult * World node)
    : Prop :=
  match body (w, result) with
  | (Ok _, (w', r)) => res = (r, w')
  | (Throw message, (w', r)) =>
      res = (Conv.push_message ("Error: " +:+ message) r, w')
      /\ success (fst res) = false
      /\ messages (fst res) = messages r ++ ["Error: " +:+ message]
  end.

End Faults.

(** The PixelBuffer invariant. *)
Definition TextureData_wf (td : TextureData) : Prop :=
  length (td_data td) = (td_width td * td_height td * td_channels td)%nat
  /\ (td_channels td = 3%nat \/ td_channels td = 4%nat)
  /\ Buffer.wf (td_data td).

(** The byte of channel [c] of pixel [i] in interleaved texture data. *)
Definition pixel (td : TextureData) (i c : nat) : option Z :=
  td_data td !! (i * td_channels td + c)%nat.

(** Planes as [combineChannels] expects them: each holds one byte per
    pixel. *)
Definition plane_wf (n : nat) (p : Buffer.t) : Prop :=
  length p = n /\ Buffer.wf p.

Definition ChannelData_wf (ch : ChannelData) : Prop :=
  let n := (cd_width ch * cd_height ch)%nat in
  plane_wf n (cd_r ch) /\ plane_wf n (cd_g ch) /\ plane_wf n (cd_b ch)
  /\ match cd_a ch with
     | Some a => plane_wf n a
     | None => True
     end.

(** [s] starts with [p]. *)
Definition starts_with (p s : string) : Prop := exists rest, s = p +:+ rest.

(** Running a [try] block from a state: [wp c Q E st] holds when [c],
    started in [st], returns [a] in a state that satisfies [Q a], or throws
    [message] in a state that satisfies [E message]. *)
Definition wp {node : Node} {A : Type} (c : Conv.M (node := node) A)
    (Q : A -> Conv.state (node := node) -> Prop)
    (E : string -> Conv.state (node := node) -> Prop)
    (st : Conv.state (node := node)) : Prop :=
  match c st with
  | (Ok a, st') => Q a st'
  | (Throw message, st') => E message st'
  end.

(** [b] is the nearest integer to the square root of
    [255^2 - r^2 - g^2], and 0 when that is negative. *)
Definition is_blue_of (r g b : Z) : Prop :=
  if 65025 <=? r * r + g * g then b = 0
  else (2 * b - 1) * (2 * b - 1) <= 4 * (65025 - (r * r + g * g))
       /\ 4 * (65025 - (r * r + g * g)) < (2 * b + 1) * (2 * b + 1).

Definition is_blue_ofb (r g b : Z) : bool :=
  if 65025 <=? r * r + g * g then b =? 0
  else ((2 * b - 1) * (2 * b - 1) <=? 4 * (65025 - (r * r + g * g)))
       && (4 * (65025 - (r * r + g * g)) <? (2 * b + 1) * (2 * b + 1)).

(** The number [bakeAOIntoBaseColor] stores for channel [c] of pixel [i]. *)
Definition baked (aoData : Buffer.t) (baseColorData : TextureData)
    (i c : nat) : JS.number :=
  let aoFactor := (1 - (Buffer.get aoData i / 255))%float in
  let inOffset := (i * td_channels baseColorData)%nat in
  if (c <? 3)%nat then
    JS.Math_round
      (Buffer.get (td_data baseColorData) (inOffset + c)
       * (1 - aoFactor * 0.5))%float
  else Buffer.get (td_data baseColorData) (inOffset + c).

(** The faults a conversion reports. *)
Definition load_or_save_fault (message : string) : Prop :=
  starts_with "Failed to load texture " message
  \/ starts_with "Failed to save texture to " message.

(** The file names the scan of a directory looks at. *)
Definition isTextureFile (file : string) : bool :=
  JSString.endsWith file ".png" || JSString.endsWith file ".jpg"
  || JSString.endsWith file ".tga".

(** The key under which the scan stores the result for a file. *)
Definition scanKey (node : Node) (file : string) : string :=
  JSString.replace "_mer" EmptyString
    (JSString.replace "_n" EmptyString
       (JSString.replace "_s" EmptyString
          (path_basename_ext node file (path_extname node file)))).

(** An entry the scan of the listing [files] of a directory may hold: the
    detection result of one of its texture files, under that file's key,
    with a confidence above 0.3. *)
Definition scanned (node : Node) (w : World node) (directoryPath : string)
    (files : list string) (key : string)
    (r : FormatDetector.DetectionResult) : Prop :=
  exists file,
    file ∈ files /\ isTextureFile file = true /\ key = scanKey node file
    /\ r = FormatDetector.detectFormat node w
             (path_join node directoryPath file)
    /\ (0.3 <? FormatDetector.confidence r)%float = true.

(** [Math.round x] is the integer [k]: a test by bounds, for a positive [x]
    below 2^52. *)
Definition rounds_to (x : JS.number) (k : Z) : bool :=
  match Prim2SF x with
  | S754_zero false => k =? 0
  | S754_finite false m e =>
      let a := 2 * Zpos m + Z.shiftl 1 (- e) in
      (e <? 0) && (0 <=? k)
      && (Z.shiftl k (- e + 1) <=? a) && (a <? Z.shiftl (k + 1) (- e + 1))
  | _ => false
  end.

(** The nearest integer to the square root of [t], and 0 for a negative
    [t]. *)
Definition nearest_sqrt (t : Z) : Z :=
  if t <=? 0 then 0
  else let n := Z.sqrt t in if n <? t - n * n then n + 1 else n.

(** * Properties *)

Import JS.

(** ** Numbers and bytes *)

Lemma forallb_bytes (f : Z -> bool) :
  forallb f bytes = true -> forall z, 0 <= z < 256 -> f z = true.
Proof.
  intros H z Hz. rewrite forallb_forall in H. apply H.
  unfold bytes. apply in_map_iff. exists (Z.to_nat z). split; [lia |].
  apply in_seq. lia.
Qed.

Lemma in_rangeb_sound lo hi x : in_rangeb lo hi x = true -> in_range lo hi x.
Proof.
  unfold in_rangeb, in_range. destruct (to_Z x) as [k |]; [| discriminate].
  rewrite !andb_true_iff, !Z.leb_le. intros [[H1 H2] H3]. exists k. auto.
Qed.

(** A byte survives the way through a number and back. *)
Lemma ToUint8_Z2F (v : Z) : 0 <= v < 256 -> ToUint8 (Z2F v) = v.
Proof.
  intros Hv.
  apply Z.eqb_eq.
  apply (forallb_bytes (fun v => ToUint8 (Z2F v) =? v)); [| exact Hv].
  vm_compute. reflexivity.
Qed.

Lemma ToUint8_range (x : number) : 0 <= ToUint8 x < 256.
Proof.
  unfold ToUint8. destruct (Prim2SF x); try lia.
  apply Z.mod_pos_bound. lia.
Qed.

(** On bytes the comparison of numbers is the comparison of integers. *)
Lemma leb_65_byte (v : Z) :
  0 <= v < 256 -> (65 <=? Z2F v)%float = (65 <=? v).
Proof.
  intros Hv. apply eqb_prop.
  apply (forallb_bytes (fun v => Bool.eqb (65 <=? Z2F v)%float (65 <=? v)));
    [| exact Hv].
  vm_compute. reflexivity.
Qed.

(** ** workflowConverter.ts *)

(** C5. For a byte [m], [metallicToF0 m] is an integer of [230..255] when
    [m > 200] and an integer of [4..229] when [m <= 200]. *)
Theorem metallicToF0_ranges (m : Z) :
  0 <= m <= 255 ->
  (200 < m -> in_range 230 255 (WorkflowConverter.metallicToF0 (Z2F m)))
  /\ (m <= 200 -> in_range 4 229 (WorkflowConverter.metallicToF0 (Z2F m))).
Proof.
  intros Hm.
  assert (H : (if 200 <? m
               then in_rangeb 230 255 (WorkflowConverter.metallicToF0 (Z2F m))
               else in_rangeb 4 229 (WorkflowConverter.metallicToF0 (Z2F m)))
              = true).
  { apply (forallb_bytes (fun m =>
      if 200 <? m
      then in_rangeb 230 255 (WorkflowConverter.metallicToF0 (Z2F m))
      else in_rangeb 4 229 (WorkflowConverter.metallicToF0 (Z2F m))));
      [vm_compute; reflexivity | lia]. }
  destruct (Z.ltb_spec 200 m); split; intros; try lia;
    apply in_rangeb_sound; exact H.
Qed.

(** [metallicToF0_ranges] at the byte 255. *)
Lemma metallicToF0_ranges_witness :
  0 <= 255 <= 255
  /\ in_range 230 255 (WorkflowConverter.metallicToF0 (Z2F 255)).
Proof.
  split; [lia |]. apply (metallicToF0_ranges 255); lia.
Defined.

(** The values the sources document: 255 is reserved for emission, a
    roughness of 0 is full smoothness. *)
Example convertEmissive_255 :
  WorkflowConverter.convertEmissive (Z2F 255) = Z2F 254
  /\ WorkflowConverter.convertEmissive (Z2F 0) = Z2F 0.
Proof. split; vm_compute; reflexivity. Qed.

Example roughnessToSmoothness_samples :
  map (fun r => WorkflowConverter.roughnessToSmoothness (Z2F r))
      [0; 64; 128; 255]
  = map Z2F [255; 127; 74; 0].
Proof. vm_compute. reflexivity. Qed.

(** C7. The round trip roughness -> smoothness -> roughness is not the
    identity on bytes: it sends 250 to 249. *)
Theorem roughness_round_trip_not_identity :
  exists r : Z,
    0 <= r <= 255
    /\ (WorkflowConverter.smoothnessToRoughness
          (WorkflowConverter.roughnessToSmoothness (Z2F r)) =? Z2F r)%float
       = false.
Proof.
  exists 250. split; [lia |]. vm_compute. reflexivity.
Qed.

(** [getPredefinedMetal] answers with one of four codes whatever it is
    given, [undefined] included. *)
Lemma getPredefinedMetal_cases (r g b : number) :
  let code := WorkflowConverter.getPredefinedMetal r g b in
  code = Z2F (PredefinedMetal_code Gold)
  \/ code = Z2F (PredefinedMetal_code Copper)
  \/ code = Z2F (PredefinedMetal_code Silver)
  \/ code = Z2F (PredefinedMetal_code Iron).
Proof.
  unfold WorkflowConverter.getPredefinedMetal.
  repeat match goal with
         | |- context [if ?c then _ else _] => destruct c
         end; auto.
Qed.

(** ** Loops over buffers *)

(** Split the conjunctions that are written out, leaving definitions
    folded. *)
Ltac split_conj :=
  repeat match goal with
         | |- _ /\ _ => split
         end.

Lemma for_loop_S {St : Type} (n : nat) (body : nat -> St -> St) (s : St) :
  for_loop (S n) body s = body n (for_loop n body s).
Proof.
  unfold for_loop. rewrite seq_S, foldl_app. reflexivity.
Qed.

(** The invariant rule for a counting loop. *)
Lemma for_loop_ind {St : Type} (Inv : nat -> St -> Prop) (n : nat)
    (body : nat -> St -> St) (s : St) :
  Inv 0%nat s ->
  (forall k st, (k < n)%nat -> Inv k st -> Inv (S k) (body k st)) ->
  Inv n (for_loop n body s).
Proof.
  intros H0 Hstep.
  assert (H : forall k, (k <= n)%nat -> Inv k (for_loop k body s)).
  { induction k as [| k IH]; intros Hk.
    - exact H0.
    - rewrite for_loop_S. apply Hstep; [lia |]. apply IH. lia. }
  apply H. lia.
Qed.

Lemma filled_alloc (n : nat) (f : nat -> number) :
  filled n 0 f (Buffer.alloc n).
Proof.
  split; [apply length_replicate |]. intros i Hi. lia.
Qed.

Lemma filled_set (n k : nat) (f : nat -> number) (x : Buffer.t) (v : number) :
  (k < n)%nat -> filled n k f x -> v = f k ->
  filled n (S k) f (Buffer.set x k v).
Proof.
  intros Hk [Hlen Hx] ->. unfold Buffer.set. split.
  - rewrite length_insert. exact Hlen.
  - intros i Hi. destruct (decide (i = k)) as [-> | Hne].
    + apply list_lookup_insert_eq. lia.
    + rewrite list_lookup_insert_ne by congruence. apply Hx. lia.
Qed.

Lemma filled_wf (n : nat) (f : nat -> number) (x : Buffer.t) :
  filled n n f x -> Buffer.wf x.
Proof.
  intros [Hlen Hx]. apply Forall_lookup_2. intros i v Hv.
  assert (Hi : (i < n)%nat) by (rewrite <- Hlen; eapply lookup_lt_Some; eauto).
  rewrite (Hx i Hi) in Hv. injection Hv as <-. apply ToUint8_range.
Qed.

Lemma filled_get (n : nat) (f : nat -> number) (x : Buffer.t) (i : nat) :
  filled n n f x -> (i < n)%nat -> Buffer.get x i = Z2F (ToUint8 (f i)).
Proof.
  intros [_ Hx] Hi. unfold Buffer.get. rewrite (Hx i Hi). reflexivity.
Qed.

(** ** channelExtractor.ts *)

(** What [extractChannels] returns: each plane holds, pixel by pixel, the
    bytes read at the pixel's offset; the alpha plane exists exactly for
    four channels. *)
Lemma extractChannels_spec (td : TextureData) :
  let ch := ChannelExtractor.extractChannels td in
  let n := (td_width td * td_height td)%nat in
  let c := td_channels td in
  cd_width ch = td_width td /\ cd_height ch = td_height td
  /\ filled n n (fun i => Buffer.get (td_data td) (i * c)) (cd_r ch)
  /\ filled n n (fun i => Buffer.get (td_data td) (i * c + 1)) (cd_g ch)
  /\ filled n n (fun i => Buffer.get (td_data td) (i * c + 2)) (cd_b ch)
  /\ match cd_a ch with
     | Some a =>
         c = 4%nat
         /\ filled n n (fun i => Buffer.get (td_data td) (i * c + 3)) a
     | None => c <> 4%nat
     end.
Proof.
  destruct td as [w h data c]. cbn [td_width td_height td_data td_channels].
  unfold ChannelExtractor.extractChannels.
  cbn [td_width td_height td_data td_channels].
  set (n := (w * h)%nat).
  match goal with
  | |- context [for_loop n ?body ?init] =>
      pose proof (for_loop_ind
        (fun k (st : Buffer.t * Buffer.t * Buffer.t * option Buffer.t) =>
           let '(r, g, b, a) := st in
           filled n k (fun i => Buffer.get data (i * c)) r
           /\ filled n k (fun i => Buffer.get data (i * c + 1)) g
           /\ filled n k (fun i => Buffer.get data (i * c + 2)) b
           /\ match a with
              | Some a =>
                  c = 4%nat
                  /\ filled n k (fun i => Buffer.get data (i * c + 3)) a
              | None => c <> 4%nat
              end) n body init) as Hloop;
      destruct (for_loop n body init) as [[[r g] b] a]
  end.
  cbn [cd_width cd_height cd_r cd_g cd_b cd_a].
  split; [reflexivity |]. split; [reflexivity |].
  apply Hloop.
  - cbv beta iota. split_conj; try apply filled_alloc.
    destruct (Nat.eqb_spec c 4);
      [split; [assumption | apply filled_alloc] | assumption].
  - intros k [[[r' g'] b'] a'] Hk Hinv. cbv beta iota in Hinv |- *.
    destruct Hinv as (Hr & Hg & Hb & Ha).
    split_conj; try (apply filled_set; auto).
    destruct a' as [a' |]; [| exact Ha].
    destruct Ha as [Hc Ha]. rewrite (proj2 (Nat.eqb_eq c 4) Hc).
    split; [exact Hc |]. apply filled_set; auto.
Qed.

(** Rewrite a lookup below a chain of stores and decide the indices. *)
Ltac lookup_stores :=
  unfold Buffer.set;
  rewrite ?list_lookup_insert, ?length_insert;
  repeat case_decide; try lia; try reflexivity.

(** What [combineChannels] returns: the planes interleaved, pixel by
    pixel. *)
Lemma combineChannels_spec (ch : ChannelData) :
  let td := ChannelExtractor.combineChannels ch in
  let n := (cd_width ch * cd_height ch)%nat in
  let cc := channelCount ch in
  td_width td = cd_width ch /\ td_height td = cd_height ch
  /\ td_channels td = cc
  /\ length (td_data td) = (n * cc)%nat
  /\ forall i c, (i < n)%nat -> (c < cc)%nat ->
       td_data td !! (i * cc + c)%nat = Some (ToUint8 (chan_value ch i c)).
Proof.
  destruct ch as [r g b a w h].
  unfold ChannelExtractor.combineChannels, channelCount.
  cbn [cd_width cd_height cd_r cd_g cd_b cd_a td_width td_height td_data
       td_channels].
  set (n := (w * h)%nat).
  destruct a as [a |].
  - split_conj; try reflexivity.
    + apply (for_loop_ind (fun _ data => length data = (n * 4)%nat)).
      * apply length_replicate.
      * intros k data _ H. unfold Buffer.set. rewrite !length_insert. exact H.
    + apply (for_loop_ind (fun k data =>
        length data = (n * 4)%nat
        /\ forall i c, (i < k)%nat -> (c < 4)%nat ->
             data !! (i * 4 + c)%nat
             = Some (ToUint8 (chan_value (mkChannelData r g b (Some a) w h) i c)))).
      * split; [apply length_replicate | intros; lia].
      * intros k data Hk [Hlen Hdata]. split.
        { unfold Buffer.set. rewrite !length_insert. exact Hlen. }
        intros i c Hi Hc.
        destruct (decide (i = k)) as [-> | Hne].
        { destruct c as [| [| [| [| c]]]]; try lia; lookup_stores. }
        { lookup_stores. apply Hdata; lia. }
  - split_conj; try reflexivity.
    + apply (for_loop_ind (fun _ data => length data = (n * 3)%nat)).
      * apply length_replicate.
      * intros k data _ H. unfold Buffer.set. rewrite !length_insert. exact H.
    + apply (for_loop_ind (fun k data =>
        length data = (n * 3)%nat
        /\ forall i c, (i < k)%nat -> (c < 3)%nat ->
             data !! (i * 3 + c)%nat
             = Some (ToUint8 (chan_value (mkChannelData r g b None w h) i c)))).
      * split; [apply length_replicate | intros; lia].
      * intros k data Hk [Hlen Hdata]. split.
        { unfold Buffer.set. rewrite !length_insert. exact Hlen. }
        intros i c Hi Hc.
        destruct (decide (i = k)) as [-> | Hne].
        { destruct c as [| [| [| c]]]; try lia; lookup_stores. }
        { lookup_stores. apply Hdata; lia. }
Qed.

(** A byte read from a buffer and stored again is the same byte. *)
Lemma store_of_load (data : Buffer.t) (j : nat) (v : Z) :
  Buffer.wf data -> data !! j = Some v ->
  ToUint8 (Z2F (ToUint8 (Buffer.get data j))) = v.
Proof.
  intros Hwf Hj. unfold Buffer.get. rewrite Hj.
  assert (Hv : 0 <= v < 256) by (eapply (Forall_lookup_1 _ _ _ _ Hwf); eauto).
  rewrite (ToUint8_Z2F v Hv), (ToUint8_Z2F v Hv). reflexivity.
Qed.

(** C8. On a buffer that satisfies the PixelBuffer invariant, combining
    the extracted channels gives the buffer back: same width, height and
    channel count, and the same bytes. *)
Theorem combine_extract_round_trip (td : TextureData) :
  TextureData_wf td ->
  ChannelExtractor.combineChannels (ChannelExtractor.extractChannels td) = td.
Proof.
  intros (Hlen & Hc & Hwf).
  pose proof (extractChannels_spec td) as (Ew & Eh & Er & Eg & Eb & Ea).
  pose proof (combineChannels_spec (ChannelExtractor.extractChannels td))
    as (Cw & Ch & Cc & Clen & Cdata).
  set (ch := ChannelExtractor.extractChannels td) in *.
  assert (Hcc : channelCount ch = td_channels td).
  { unfold channelCount. destruct (cd_a ch); [destruct Ea as [E _]; lia | lia]. }
  rewrite Hcc, Ew, Eh in *.
  destruct (ChannelExtractor.combineChannels ch) as [w' h' data' c'].
  destruct td as [w h data c].
  cbn [td_width td_height td_data td_channels] in *.
  subst w' h' c'. f_equal.
  set (n := (w * h)%nat) in *.
  apply list_eq. intros j.
  destruct (decide (j < n * c)%nat) as [Hj |Hj].
  2:{ rewrite (lookup_ge_None_2 data') by lia.
      rewrite (lookup_ge_None_2 data) by lia. reflexivity. }
  assert (Hc0 : (c <> 0)%nat) by lia.
  pose proof (Nat.div_mod_eq j c) as Hdm.
  pose proof (Nat.mod_upper_bound j c Hc0) as Hmod.
  set (i := (j / c)%nat) in *. set (c0 := (j mod c)%nat) in *.
  assert (Hi : (i < n)%nat) by nia.
  replace j with (i * c + c0)%nat by lia.
  rewrite (Cdata i c0 Hi Hmod).
  destruct (lookup_lt_is_Some_2 data (i * c + c0)) as [v Hv]; [lia |].
  rewrite Hv. f_equal.
  unfold chan_value.
  destruct c0 as [| [| [| c0]]].
  - rewrite (filled_get _ _ _ _ Er Hi).
    rewrite Nat.add_0_r in Hv. apply store_of_load; assumption.
  - rewrite (filled_get _ _ _ _ Eg Hi). apply store_of_load; assumption.
  - rewrite (filled_get _ _ _ _ Eb Hi). apply store_of_load; assumption.
  - destruct (cd_a ch) as [a |]; [| lia].
    destruct Ea as [Hc4 Ea]. assert (c0 = 0%nat) as -> by lia.
    rewrite (filled_get _ _ _ _ Ea Hi). apply store_of_load; assumption.
Qed.

(** [combine_extract_round_trip] at a 2x1 RGB buffer. *)
Lemma combine_extract_round_trip_witness :
  let td := mkTextureData 2 1 [10; 20; 30; 40; 50; 60] 3 in
  TextureData_wf td
  /\ ChannelExtractor.combineChannels (ChannelExtractor.extractChannels td)
     = td.
Proof.
  assert (Hwf : TextureData_wf (mkTextureData 2 1 [10; 20; 30; 40; 50; 60] 3)).
  { split; [reflexivity |]. split; [left; reflexivity |].
    repeat constructor; lia. }
  split; [exact Hwf |].
  apply (combine_extract_round_trip _ Hwf).
Defined.

(** ** pbrConverter.ts *)

(** A stored number, loaded and stored again, is stored unchanged. *)
Lemma store_load_store (x : number) : ToUint8 (Z2F (ToUint8 x)) = ToUint8 x.
Proof. apply ToUint8_Z2F, ToUint8_range. Qed.

(** The four planes of four-channel texture data built from filled
    planes. *)
Lemma combine_filled (w h : nat) (f1 f2 f3 f4 : nat -> number)
    (p1 p2 p3 p4 : Buffer.t) :
  let n := (w * h)%nat in
  filled n n f1 p1 -> filled n n f2 p2 -> filled n n f3 p3 ->
  filled n n f4 p4 ->
  let td :=
    ChannelExtractor.combineChannels (mkChannelData p1 p2 p3 (Some p4) w h) in
  td_width td = w /\ td_height td = h /\ td_channels td = 4%nat
  /\ length (td_data td) = (n * 4)%nat
  /\ forall i, (i < n)%nat ->
       td_data td !! (i * 4)%nat = Some (ToUint8 (f1 i))
       /\ td_data td !! (i * 4 + 1)%nat = Some (ToUint8 (f2 i))
       /\ td_data td !! (i * 4 + 2)%nat = Some (ToUint8 (f3 i))
       /\ td_data td !! (i * 4 + 3)%nat = Some (ToUint8 (f4 i)).
Proof.
  intros n H1 H2 H3 H4 td.
  pose proof (combineChannels_spec (mkChannelData p1 p2 p3 (Some p4) w h))
    as (Cw & Ch & Cc & Clen & Cdata).
  fold td in Cw, Ch, Cc, Clen, Cdata.
  cbn [cd_width cd_height channelCount cd_a] in *. fold n in Clen, Cdata.
  split_conj; auto.
  intros i Hi.
  pose proof (Cdata i 0%nat Hi ltac:(lia)) as D0.
  pose proof (Cdata i 1%nat Hi ltac:(lia)) as D1.
  pose proof (Cdata i 2%nat Hi ltac:(lia)) as D2.
  pose proof (Cdata i 3%nat Hi ltac:(lia)) as D3.
  rewrite Nat.add_0_r in D0.
  unfold chan_value in *. cbn [cd_r cd_g cd_b cd_a] in *.
  rewrite (filled_get _ _ _ _ H1 Hi), store_load_store in D0.
  rewrite (filled_get _ _ _ _ H2 Hi), store_load_store in D1.
  rewrite (filled_get _ _ _ _ H3 Hi), store_load_store in D2.
  rewrite (filled_get _ _ _ _ H4 Hi), store_load_store in D3.
  auto.
Qed.

(** What [createSpecularTexture] returns: an RGBA buffer whose pixel [i]
    holds the stored smoothness, reflectance, porosity-or-subsurface and
    emission of that pixel. *)
Lemma createSpecularTexture_spec (mer : ChannelExtractor.MERChannels)
    (color : ChannelData) (w h : nat) :
  let td := PBRConverter.createSpecularTexture mer color w h in
  td_width td = w /\ td_height td = h /\ td_channels td = 4%nat
  /\ length (td_data td) = (w * h * 4)%nat
  /\ forall i, (i < w * h)%nat ->
       td_data td !! (i * 4)%nat
       = Some (ToUint8 (SpecularPixel.smoothness mer i))
       /\ td_data td !! (i * 4 + 1)%nat
          = Some (ToUint8 (SpecularPixel.f0 mer color i))
       /\ td_data td !! (i * 4 + 2)%nat
          = Some (ToUint8 (SpecularPixel.porosity mer i))
       /\ td_data td !! (i * 4 + 3)%nat
          = Some (ToUint8 (SpecularPixel.emission mer i)).
Proof.
  unfold PBRConverter.createSpecularTexture.
  set (n := (w * h)%nat).
  match goal with
  | |- context [for_loop n ?body ?init] =>
      pose proof (for_loop_ind
        (fun k (st : Buffer.t * Buffer.t * Buffer.t * Buffer.t) =>
           let '(p1, p2, p3, p4) := st in
           filled n k (SpecularPixel.smoothness mer) p1
           /\ filled n k (SpecularPixel.f0 mer color) p2
           /\ filled n k (SpecularPixel.porosity mer) p3
           /\ filled n k (SpecularPixel.emission mer) p4) n body init) as Hloop;
      destruct (for_loop n body init) as [[[p1 p2] p3] p4]
  end.
  assert (Hplanes :
    filled n n (SpecularPixel.smoothness mer) p1
    /\ filled n n (SpecularPixel.f0 mer color) p2
    /\ filled n n (SpecularPixel.porosity mer) p3
    /\ filled n n (SpecularPixel.emission mer) p4).
  { apply Hloop.
    - cbv beta iota. split_conj; apply filled_alloc.
    - intros k [[[q1 q2] q3] q4] Hk Hinv. cbv beta iota in Hinv |- *.
      destruct Hinv as (H1 & H2 & H3 & H4).
      split_conj.
      + apply filled_set; auto.
      + unfold SpecularPixel.f0 in *.
        destruct (WorkflowConverter.isMetallic _) eqn:E;
          apply filled_set; auto; rewrite E; reflexivity.
      + unfold SpecularPixel.porosity in *.
        destruct (ChannelExtractor.subsurface mer) as [sub |];
          [destruct (0 <? Buffer.get sub k)%float eqn:E |];
          apply filled_set; auto; rewrite E; reflexivity.
      + apply filled_set; auto. }
  destruct Hplanes as (H1 & H2 & H3 & H4).
  apply (combine_filled w h _ _ _ _ _ _ _ _ H1 H2 H3 H4).
Qed.

(** C10. [getPredefinedMetal] returns a predefined-metal code of
    [230..237] (gold 231, copper 234, silver 237 or iron 230) for every
    colour, and in the packed-to-LabPBR conversion the reflectance byte of
    every pixel on the metallic branch is such a code. *)
Theorem predefined_metal_code_range :
  (forall r g b : Z, 0 <= r <= 255 -> 0 <= g <= 255 -> 0 <= b <= 255 ->
     in_range 230 237
       (WorkflowConverter.getPredefinedMetal (Z2F r) (Z2F g) (Z2F b)))
  /\ (forall (mer : ChannelExtractor.MERChannels) (color : ChannelData)
             (w h i : nat),
        (i < w * h)%nat ->
        WorkflowConverter.isMetallic
          (Buffer.get (ChannelExtractor.metallic mer) i) = true ->
        exists v,
          td_data (PBRConverter.createSpecularTexture mer color w h)
            !! (i * 4 + 1)%nat = Some v
          /\ (v = PredefinedMetal_code Gold \/ v = PredefinedMetal_code Copper
              \/ v = PredefinedMetal_code Silver
              \/ v = PredefinedMetal_code Iron)
          /\ 230 <= v <= 237).
Proof.
  split.
  - intros r g b _ _ _.
    destruct (getPredefinedMetal_cases (Z2F r) (Z2F g) (Z2F b))
      as [H | [H | [H | H]]]; rewrite H.
    + exists 231. split; [reflexivity | lia].
    + exists 234. split; [reflexivity | lia].
    + exists 237. split; [reflexivity | lia].
    + exists 230. split; [reflexivity | lia].
  - intros mer color w h i Hi Hmetal.
    pose proof (createSpecularTexture_spec mer color w h)
      as (_ & _ & _ & _ & Hdata).
    destruct (Hdata i Hi) as (_ & Hg & _).
    eexists. split; [exact Hg |].
    unfold SpecularPixel.f0. rewrite Hmetal.
    destruct (getPredefinedMetal_cases
                (Buffer.get (cd_r color) i) (Buffer.get (cd_g color) i)
                (Buffer.get (cd_b color) i)) as [H | [H | [H | H]]];
      rewrite H; cbn [PredefinedMetal_code];
      rewrite ToUint8_Z2F by lia; split; auto; lia.
Qed.

(** C1, as the specification states it, fails: the red channel of the
    converted 2x2 example is not [255,63,193,0]. *)
Lemma packed2x2_red_channel_counterexample :
  cd_r (ChannelExtractor.extractChannels
          (PBRConverter.createSpecularTexture
             (ChannelExtractor.extractMERChannels packed2x2)
             (ChannelExtractor.extractChannels midgray2x2) 2 2))
  <> [255; 63; 193; 0].
Proof.
  vm_compute. discriminate.
Qed.

(** C1, amended. Whatever the colour texture, the packed 2x2 example
    converts to a specular texture whose red channel is [255,127,74,0],
    entry by entry [roughnessToSmoothness] of the roughness plane, and whose
    alpha channel is [0,0,128,128], entry by entry [convertEmissive] of the
    emissive plane. *)
Theorem packed2x2_specular_channels (colorTextureData : TextureData) :
  let specular :=
    PBRConverter.createSpecularTexture
      (ChannelExtractor.extractMERChannels packed2x2)
      (ChannelExtractor.extractChannels colorTextureData) 2 2 in
  let out := ChannelExtractor.extractChannels specular in
  cd_r out = [255; 127; 74; 0]
  /\ cd_r out
     = map (fun r => ToUint8 (WorkflowConverter.roughnessToSmoothness (Z2F r)))
           [0; 64; 128; 255]
  /\ cd_a out = Some [0; 0; 128; 128]
  /\ cd_a out
     = Some (map (fun e => ToUint8 (WorkflowConverter.convertEmissive (Z2F e)))
                 [0; 0; 128; 128]).
Proof.
  cbv zeta. split_conj; vm_compute; reflexivity.
Qed.

(** ** bidirectional/bidirectionalConverter.ts *)

(** What [createMERTexture] returns: an RGBA buffer whose pixel [i] holds
    the stored metallic, emissive, roughness and subsurface of that
    pixel. *)
Lemma createMERTexture_spec (spec normal : ChannelData) (w h : nat) :
  let td := BidirectionalConverter.createMERTexture spec normal w h in
  td_width td = w /\ td_height td = h /\ td_channels td = 4%nat
  /\ length (td_data td) = (w * h * 4)%nat
  /\ forall i, (i < w * h)%nat ->
       td_data td !! (i * 4)%nat = Some (ToUint8 (MERPixel.metallic spec i))
       /\ td_data td !! (i * 4 + 1)%nat
          = Some (ToUint8 (MERPixel.emissive spec i))
       /\ td_data td !! (i * 4 + 2)%nat
          = Some (ToUint8 (MERPixel.roughness spec i))
       /\ td_data td !! (i * 4 + 3)%nat
          = Some (ToUint8 (MERPixel.subsurface spec i)).
Proof.
  unfold BidirectionalConverter.createMERTexture.
  set (n := (w * h)%nat).
  match goal with
  | |- context [for_loop n ?body ?init] =>
      pose proof (for_loop_ind
        (fun k (st : Buffer.t * Buffer.t * Buffer.t * Buffer.t) =>
           let '(p1, p2, p3, p4) := st in
           filled n k (MERPixel.metallic spec) p1
           /\ filled n k (MERPixel.emissive spec) p2
           /\ filled n k (MERPixel.roughness spec) p3
           /\ filled n k (MERPixel.subsurface spec) p4) n body init) as Hloop;
      destruct (for_loop n body init) as [[[p1 p2] p3] p4]
  end.
  assert (Hplanes :
    filled n n (MERPixel.metallic spec) p1
    /\ filled n n (MERPixel.emissive spec) p2
    /\ filled n n (MERPixel.roughness spec) p3
    /\ filled n n (MERPixel.subsurface spec) p4).
  { apply Hloop.
    - cbv beta iota. split_conj; apply filled_alloc.
    - intros k [[[q1 q2] q3] q4] Hk Hinv. cbv beta iota zeta in Hinv |- *.
      destruct Hinv as (H1 & H2 & H3 & H4).
      split_conj.
      + unfold MERPixel.metallic in *. cbv zeta.
        repeat match goal with
               | |- context [if ?c then Buffer.set _ _ _ else _] =>
                   destruct c eqn:?
               end; apply filled_set; auto; cbv beta;
          repeat match goal with
                 | E : (_ <=? _)%float = _ |- _ => rewrite E; clear E
                 end; reflexivity.
      + apply filled_set; auto.
      + apply filled_set; auto.
      + unfold MERPixel.subsurface in *.
        destruct (65 <=? Buffer.get (cd_b spec) k)%float eqn:E;
          apply filled_set; auto; rewrite E; reflexivity. }
  destruct Hplanes as (H1 & H2 & H3 & H4).
  apply (combine_filled w h _ _ _ _ _ _ _ _ H1 H2 H3 H4).
Qed.

(** The scan answers whether some pixel compares [>= 65]. *)
Lemma scanSubsurface_spec (ch : ChannelData) (n : nat) :
  BidirectionalConverter.scanSubsurface ch n = true
  <-> exists i, (i < n)%nat /\ (65 <=? Buffer.get (cd_b ch) i)%float = true.
Proof.
  unfold BidirectionalConverter.scanSubsurface.
  induction n as [| n IH].
  - split; [discriminate | intros (i & Hi & _); lia].
  - rewrite for_loop_S.
    destruct (for_loop n _ false) eqn:E.
    + split; [intros _ | reflexivity].
      destruct (proj1 IH eq_refl) as (i & Hi & Hb). exists i. split; [lia | auto].
    + destruct (65 <=? Buffer.get (cd_b ch) n)%float eqn:En.
      * split; [intros _ | reflexivity]. exists n. split; [lia | auto].
      * split; [discriminate |]. intros (i & Hi & Hb).
        destruct (decide (i = n)) as [-> | Hne]; [congruence |].
        assert (false = true); [| discriminate].
        apply IH. exists i. split; [lia | auto].
Qed.

(** On the blue plane of an extracted texture the scan finds exactly the
    bytes of at least 65. *)
Lemma scanSubsurface_bytes (td : TextureData) :
  let ch := ChannelExtractor.extractChannels td in
  let n := (td_width td * td_height td)%nat in
  BidirectionalConverter.scanSubsurface ch n = true
  <-> has_subsurface_pixel (cd_b ch) n.
Proof.
  intros ch n.
  pose proof (extractChannels_spec td) as (_ & _ & _ & _ & Eb & _).
  fold ch n in Eb. pose proof (filled_wf _ _ _ Eb) as Hwf.
  rewrite scanSubsurface_spec. unfold has_subsurface_pixel.
  split.
  - intros (i & Hi & Hb). destruct Eb as [Hlen Hlook].
    exists i, (ToUint8 (Buffer.get (td_data td) (i * td_channels td + 2))).
    split; [exact Hi |]. split; [apply Hlook; exact Hi |].
    unfold Buffer.get at 1 in Hb. rewrite (Hlook i Hi) in Hb.
    rewrite leb_65_byte in Hb by apply ToUint8_range.
    apply Z.leb_le. exact Hb.
  - intros (i & v & Hi & Hv & Hge). exists i. split; [exact Hi |].
    unfold Buffer.get. rewrite Hv.
    rewrite leb_65_byte by (eapply (Forall_lookup_1 _ _ _ _ Hwf); eauto).
    apply Z.leb_le. exact Hge.
Qed.

(** What the forcing step writes: the bytes at the indices
    [3 * pixelCount .. 4 * pixelCount - 1] of the buffer, wherever they
    lie in the interleaved layout; every other byte is kept. *)
Lemma forceOpaque_lookup (td : TextureData) (j : nat) :
  let n := (td_width td * td_height td)%nat in
  td_data (BidirectionalConverter.forceOpaque td) !! j
  = if decide ((n * 3 <= j < n * 3 + n)%nat /\ (j < length (td_data td))%nat)
    then Some 255
    else td_data td !! j.
Proof.
  intros n. unfold BidirectionalConverter.forceOpaque.
  cbn [td_data]. fold n.
  assert (H : forall k,
    let data' :=
      for_loop k (fun i data => Buffer.set data (n * 3 + i) 255%float)
               (td_data td) in
    length data' = length (td_data td)
    /\ forall j,
         data' !! j
         = if decide ((n * 3 <= j < n * 3 + k)%nat
                      /\ (j < length (td_data td))%nat)
           then Some 255
           else td_data td !! j).
  { induction k as [| k [IHlen IH]]; cbv zeta.
    - split; [reflexivity |]. intros j'. case_decide; [lia | reflexivity].
    - rewrite for_loop_S. unfold Buffer.set at 1 3.
      rewrite length_insert. split; [exact IHlen |].
      intros j'. rewrite list_lookup_insert, IHlen, IH.
      repeat case_decide; try lia; reflexivity. }
  apply H.
Qed.

Lemma fileSuffix_mers (b : bool) :
  BidirectionalConverter.fileSuffix b = "_mers"%string <-> b = true.
Proof. destruct b; cbn; split; congruence. Qed.

Lemma fileSuffix_mer (b : bool) :
  BidirectionalConverter.fileSuffix b = "_mer"%string <-> b = false.
Proof. destruct b; cbn; split; congruence. Qed.

(** C4. The LabPBR-to-packed conversion decides once per image: the suffix
    is [_mers] exactly when some pixel of the specular blue plane is at
    least 65 and [_mer] otherwise, the saved file name carries that suffix,
    and without such a pixel every alpha byte of the output is 255. *)
Theorem mer_suffix_and_opaque_alpha
    (specularTextureData normalTextureData : TextureData) :
  let n := (td_width specularTextureData * td_height specularTextureData)%nat in
  let blue := cd_b (ChannelExtractor.extractChannels specularTextureData) in
  let stage :=
    BidirectionalConverter.merStage specularTextureData normalTextureData in
  let suffix := BidirectionalConverter.fileSuffix (snd stage) in
  (suffix = "_mers"%string <-> has_subsurface_pixel blue n)
  /\ (suffix = "_mer"%string <-> ~ has_subsurface_pixel blue n)
  /\ (forall (node : Node) (baseTexturePath : string),
        BidirectionalConverter.outputName node baseTexturePath suffix
        = (path_basename_ext node baseTexturePath
             (path_extname node baseTexturePath)
           +:+ (if snd stage then "_mers" else "_mer")
           +:+ path_extname node baseTexturePath)%string)
  /\ (~ has_subsurface_pixel blue n ->
      forall i, (i < n)%nat -> td_data (fst stage) !! (i * 4 + 3)%nat = Some 255).
Proof.
  intros n blue stage suffix.
  pose proof (scanSubsurface_bytes specularTextureData) as Hscan.
  cbv zeta in Hscan. fold n blue in Hscan.
  unfold suffix, stage, BidirectionalConverter.merStage. cbn [fst snd].
  fold n.
  set (ch := ChannelExtractor.extractChannels specularTextureData) in *.
  set (has := BidirectionalConverter.scanSubsurface ch n) in *.
  split_conj.
  - rewrite fileSuffix_mers. exact Hscan.
  - rewrite fileSuffix_mer, <- Hscan. destruct has; split; congruence.
  - intros node base. unfold BidirectionalConverter.outputName.
    destruct has; reflexivity.
  - intros Hnone i Hi.
    assert (Hhas : has = false).
    { destruct has; [exfalso; apply Hnone, Hscan; reflexivity | reflexivity]. }
    rewrite Hhas. cbn [negb].
    pose proof (createMERTexture_spec ch
                  (ChannelExtractor.extractChannels normalTextureData)
                  (td_width specularTextureData)
                  (td_height specularTextureData))
      as (_ & _ & _ & _ & Hdata).
    fold n in Hdata. destruct (Hdata i Hi) as (_ & _ & _ & Ha).
    rewrite forceOpaque_lookup. case_decide; [reflexivity |].
    rewrite Ha. unfold MERPixel.subsurface.
    destruct (65 <=? Buffer.get (cd_b ch) i)%float eqn:E; [| reflexivity].
    exfalso. assert (has = true); [| congruence].
    apply scanSubsurface_spec. exists i. auto.
Qed.

(** With a subsurface pixel the suffix is [_mers] and the pixel keeps its
    value in the alpha byte. *)
Example merStage_with_subsurface :
  let stage :=
    BidirectionalConverter.merStage
      (mkTextureData 1 1 [200; 10; 100; 0] 4)
      (mkTextureData 1 1 [128; 128; 255; 0] 4) in
  BidirectionalConverter.fileSuffix (snd stage) = "_mers"%string
  /\ td_data (fst stage) = [0; 0; 55; 100].
Proof. cbv zeta. split; vm_compute; reflexivity. Qed.

(** C3 at a failing input. A 2x2 specular texture without a subsurface
    pixel: [createMERTexture] computes metallic 0, emissive 0, roughness 255
    for every pixel, and the forcing step overwrites the bytes 12..15 of the
    interleaved buffer, which are the metallic, emissive, roughness and alpha
    bytes of the last pixel. *)
Theorem forcing_step_overwrites_last_pixel :
  let specularTextureData := mkTextureData 2 2 (replicate 16 0) 4 in
  let ch := ChannelExtractor.extractChannels specularTextureData in
  ~ has_subsurface_pixel (cd_b ch) 4
  /\ td_data (BidirectionalConverter.createMERTexture ch ch 2 2)
     = [0; 0; 255; 255;  0; 0; 255; 255;  0; 0; 255; 255;  0; 0; 255; 255]
  /\ td_data
       (fst (BidirectionalConverter.merStage specularTextureData
               specularTextureData))
     = [0; 0; 255; 255;  0; 0; 255; 255;  0; 0; 255; 255;
        255; 255; 255; 255].
Proof.
  cbv zeta. split_conj.
  - intros (i & v & Hi & Hv & Hge). vm_compute in Hv.
    do 4 (destruct i as [| i]; [injection Hv as <-; lia |]). lia.
  - vm_compute. reflexivity.
  - vm_compute. reflexivity.
Qed.

(** ** bidirectional/formatDetector.ts *)

(** A packed texture [foo_mer.png] beside [foo.png] is detected as Bedrock
    with confidence 0.4 + 0.3 + 0.1 and its path is reported; a LabPBR
    triple is detected as LabPBR. *)
Example detectFormat_packed_pair :
  let r :=
    FormatDetector.detectFormat SimplePosix.node
      ["textures/foo.png"; "textures/foo_mer.png"]%string
      "textures/foo_mer.png" in
  FormatDetector.format r = FormatDetector.Bedrock
  /\ (0.7 <=? FormatDetector.confidence r)%float = true
  /\ FormatDetector.merTexturePath r = Some "textures/foo_mer.png"%string
  /\ FormatDetector.baseTexturePath r = Some "textures/foo.png"%string.
Proof. cbv zeta. split_conj; vm_compute; reflexivity. Qed.

Example detectFormat_labpbr_triple :
  let r :=
    FormatDetector.detectFormat SimplePosix.node
      ["textures/foo.png"; "textures/foo_s.png"; "textures/foo_n.png"]%string
      "textures/foo_s.png" in
  FormatDetector.format r = FormatDetector.LabPBR
  /\ (0.7 <=? FormatDetector.confidence r)%float = true.
Proof. cbv zeta. split_conj; vm_compute; reflexivity. Qed.

(** C2, as the specification states it, fails. With only the base texture
    on disk and no suffix in the name, both scores are 0.1, equal and
    positive, and the answer is [Bedrock], not [Unknown]. *)
Lemma detectFormat_tie_counterexample :
  let files := ["textures/stone.png"%string] in
  let p := FormatDetector.probe SimplePosix.node files "textures/stone.png" in
  let r :=
    FormatDetector.detectFormat SimplePosix.node files "textures/stone.png" in
  (fst (FormatDetector.scores p) =? snd (FormatDetector.scores p))%float = true
  /\ (0 <? snd (FormatDetector.scores p))%float = true
  /\ FormatDetector.format r = FormatDetector.Bedrock
  /\ FormatDetector.format r <> FormatDetector.Unknown.
Proof.
  cbv zeta. split_conj; try (vm_compute; reflexivity).
  vm_compute. discriminate.
Qed.

(** C2, amended. [detectFormat] returns [LabPBR] exactly when the LabPBR
    score is strictly higher; otherwise it returns [Bedrock] exactly when
    the Bedrock score is positive, which covers the strictly higher Bedrock
    score and the ties of positive scores; it returns [Unknown] exactly when
    both scores are zero. *)
Theorem detectFormat_classification (node : Node) (w : World node)
    (texturePath : string) :
  let p := FormatDetector.probe node w texturePath in
  let labPBRConfidence := fst (FormatDetector.scores p) in
  let bedrockConfidence := snd (FormatDetector.scores p) in
  let r := FormatDetector.detectFormat node w texturePath in
  (FormatDetector.format r = FormatDetector.LabPBR
   <-> (bedrockConfidence <? labPBRConfidence)%float = true)
  /\ (FormatDetector.format r = FormatDetector.Bedrock
      <-> (bedrockConfidence <? labPBRConfidence)%float = false
          /\ (0 <? bedrockConfidence)%float = true)
  /\ (FormatDetector.format r = FormatDetector.Unknown
      <-> (labPBRConfidence =? 0)%float = true
          /\ (bedrockConfidence =? 0)%float = true)
  /\ ((labPBRConfidence <? bedrockConfidence)%float = true ->
      FormatDetector.format r = FormatDetector.Bedrock)
  /\ ((labPBRConfidence =? bedrockConfidence)%float = true ->
      (0 <? bedrockConfidence)%float = true ->
      FormatDetector.format r = FormatDetector.Bedrock).
Proof.
  cbv zeta. unfold FormatDetector.detectFormat.
  generalize (FormatDetector.probe node w texturePath).
  intros [isS isN isM pb ps pn pm hB hS hN hM].
  unfold FormatDetector.classify, FormatDetector.scores.
  cbn [FormatDetector.isLabPBRSpecular FormatDetector.isLabPBRNormal
       FormatDetector.isBedrockMER FormatDetector.hasBaseTexture
       FormatDetector.hasSpecularTexture FormatDetector.hasNormalTexture
       FormatDetector.hasMERTexture].
  destruct isS, isN, isM, hB, hS, hN, hM; vm_compute;
    repeat split; intros; try discriminate; try reflexivity;
    repeat match goal with
           | H : _ /\ _ |- _ => destruct H
           end; try discriminate.
Qed.

(** ** The conversion calls and their faults *)

Section FaultLemmas.
Context {node : Node}.
Import Conv.

Lemma keeps_ret {A} (a : A) : keeps_success (ret (node := node) a).
Proof. intros st. reflexivity. Qed.

Lemma keeps_throw {A} (message : string) :
  keeps_success (throw (node := node) (A := A) message).
Proof. intros st. reflexivity. Qed.

Lemma keeps_io {A} (f : World node -> outcome A * World node) :
  keeps_success (io f).
Proof. intros [w r]. unfold io. cbn. destruct (f w). reflexivity. Qed.

Lemma keeps_ask {A} (f : World node -> A) : keeps_success (ask f).
Proof. intros st. reflexivity. Qed.

Lemma keeps_try_pure {A} (o : outcome A) :
  keeps_success (try_pure (node := node) o).
Proof. intros st. reflexivity. Qed.

Lemma keeps_call (f : World node -> ConversionResult * World node) :
  keeps_success (call f).
Proof. intros [w r]. unfold call. cbn. destruct (f w). reflexivity. Qed.

Lemma keeps_push (message : string) :
  keeps_success (push (node := node) message).
Proof. intros st. reflexivity. Qed.

Lemma keeps_set_outputPaths (f : OutputPaths -> OutputPaths) :
  keeps_success (update (node := node) (set_outputPaths f)).
Proof. intros st. reflexivity. Qed.

Lemma keeps_bind {A B} (c : M A) (k : A -> M (node := node) B) :
  keeps_success c -> (forall a, keeps_success (k a)) ->
  keeps_success (bind c k).
Proof.
  intros Hc Hk st. unfold bind. specialize (Hc st).
  destruct (c st) as [[a | message] st']; cbn in *.
  - rewrite Hk. exact Hc.
  - exact Hc.
Qed.

Lemma never_update (f : ConversionResult -> ConversionResult) :
  never_throws (update (node := node) f).
Proof. intros st. exists tt. reflexivity. Qed.

Lemma never_call (f : World node -> ConversionResult * World node) :
  never_throws (call f).
Proof.
  intros [w r]. unfold call. cbn. destruct (f w). eexists. reflexivity.
Qed.

Lemma never_bind {A B} (c : M A) (k : A -> M (node := node) B) :
  never_throws c -> (forall a, never_throws (k a)) ->
  never_throws (bind c k).
Proof.
  intros Hc Hk st. unfold bind. destruct (Hc st) as [a Ha].
  destruct (c st) as [[a' | message] st']; cbn in *; [| discriminate].
  apply Hk.
Qed.

Lemma fails_of_never {A} (c : M (node := node) A) :
  never_throws c -> fails_unsuccessful c.
Proof.
  intros Hc st message _ Hthrow. destruct (Hc st) as [a Ha]. congruence.
Qed.

Lemma fails_of_keeps {A} (c : M (node := node) A) :
  keeps_success c -> fails_unsuccessful c.
Proof. intros Hc st message Hst _. rewrite Hc. exact Hst. Qed.

Lemma fails_bind {A B} (c : M A) (k : A -> M (node := node) B) :
  keeps_success c -> (forall a, fails_unsuccessful (k a)) ->
  fails_unsuccessful (bind c k).
Proof.
  intros Hc Hk st message Hst. unfold bind. specialize (Hc st).
  destruct (c st) as [[a | message'] st']; cbn in *.
  - apply Hk. congruence.
  - intros _. congruence.
Qed.

(** A [try] block that cannot throw after it has set [success] is
    recovered by [try_catch]. *)
Lemma try_catch_recovered (body : M unit) (w : World node)
    (result : ConversionResult) :
  fails_unsuccessful body -> success result = false ->
  recovered body w result (try_catch body w result).
Proof.
  intros Hbody Hresult. unfold recovered, try_catch.
  specialize (Hbody (w, result)).
  destruct (body (w, result)) as [[[] | message] [w' r]]; cbn in *.
  - reflexivity.
  - split_conj; try reflexivity. apply (Hbody message); auto.
Qed.

End FaultLemmas.

Create HintDb conv.
#[local] Hint Resolve keeps_ret keeps_throw keeps_io keeps_ask keeps_try_pure
  keeps_call keeps_push keeps_set_outputPaths never_update never_call : conv.

(** Walk through a [try] block statement by statement. *)
Ltac conv_walk :=
  repeat first
    [ progress cbv zeta
    | solve [auto with conv]
    | apply keeps_bind; [| intros]
    | apply never_bind; [| intros]
    | match goal with
      | |- keeps_success (match ?x with _ => _ end) => destruct x
      | |- never_throws (match ?x with _ => _ end) => destruct x
      | |- fails_unsuccessful (match ?x with _ => _ end) => destruct x
      | |- fails_unsuccessful (Conv.bind _ _) =>
          apply fails_bind; [| intros]
      | |- fails_unsuccessful (Conv.update _) =>
          apply fails_of_never, never_update
      | |- fails_unsuccessful _ => apply fails_of_keeps
      end ].

Lemma convertTexture_try_fails_unsuccessful (node : Node)
    (merTexturePath : string) (colorTexturePath outputDir : option string)
    (options : ConversionOptions) :
  fails_unsuccessful
    (PBRConverter.convertTexture_try node merTexturePath colorTexturePath
       outputDir options).
Proof.
  unfold PBRConverter.convertTexture_try. conv_walk.
Qed.

Lemma convertLabPBRToBedrock_try_fails_unsuccessful (node : Node)
    (nmp : NormalMapProcessor.t)
    (specularTexturePath normalTexturePath baseTexturePath : string)
    (outputDir : option string) (options : ConversionOptions) :
  fails_unsuccessful
    (BidirectionalConverter.convertLabPBRToBedrock_try node nmp
       specularTexturePath normalTexturePath baseTexturePath outputDir
       options).
Proof.
  unfold BidirectionalConverter.convertLabPBRToBedrock_try. conv_walk.
Qed.

Lemma convertAuto_try_fails_unsuccessful (node : Node)
    (nmp : NormalMapProcessor.t) (texturePath : string)
    (outputDir : option string) (options : ConversionOptions)
    (detectionResult : FormatDetector.DetectionResult) (direction : Z) :
  fails_unsuccessful
    (BidirectionalConverter.convertAuto_try node nmp texturePath outputDir
       options detectionResult direction).
Proof.
  unfold BidirectionalConverter.convertAuto_try. conv_walk.
Qed.

(** C9. Each top-level conversion call returns a result whatever its
    collaborators do: a fault thrown inside the call is caught, its message
    is appended last to the messages of the result, [success] is false, and
    the result is returned. *)
Theorem conversion_calls_recover_faults (node : Node)
    (nmp : NormalMapProcessor.t) (w : World node) :
  (forall merTexturePath colorTexturePath outputDir options,
     recovered
       (PBRConverter.convertTexture_try node merTexturePath colorTexturePath
          outputDir options)
       w (PBRConverter.convertTexture_result merTexturePath)
       (PBRConverter.convertTexture node merTexturePath colorTexturePath
          outputDir options w))
  /\ (forall specularTexturePath normalTexturePath baseTexturePath outputDir
             options,
        recovered
          (BidirectionalConverter.convertLabPBRToBedrock_try node nmp
             specularTexturePath normalTexturePath baseTexturePath outputDir
             options)
          w
          (BidirectionalConverter.convertLabPBRToBedrock_result
             specularTexturePath)
          (BidirectionalConverter.convertLabPBRToBedrock node nmp
             specularTexturePath normalTexturePath baseTexturePath outputDir
             options w))
  /\ (forall texturePath outputDir options,
        let detectionResult :=
          FormatDetector.detectFormat node w texturePath in
        let direction :=
          BidirectionalConverter.chooseDirection options detectionResult in
        recovered
          (BidirectionalConverter.convertAuto_try node nmp texturePath
             outputDir options detectionResult direction)
          w
          (BidirectionalConverter.convertAuto_result node texturePath
             detectionResult direction)
          (BidirectionalConverter.convertAuto node nmp texturePath outputDir
             options w)).
Proof.
  split_conj; intros.
  - apply try_catch_recovered;
      [apply convertTexture_try_fails_unsuccessful | reflexivity].
  - apply try_catch_recovered;
      [apply convertLabPBRToBedrock_try_fails_unsuccessful | reflexivity].
  - apply try_catch_recovered;
      [apply convertAuto_try_fails_unsuccessful | reflexivity].
Qed.

(** A conversion that cannot find the colour texture, run on a read-only
    file system without it: the fault is reported in the result. *)
Example convertTexture_without_color_texture :
  PBRConverter.convertTexture SimplePosix.node "textures/stone_mer.png" None
    None (mkConversionOptions None None None None None)
    ["textures/stone_mer.png"%string]
  = (mkConversionResult "textures/stone_mer.png"
       (mkOutputPaths None None None None None None) false
       ["Error: Could not find corresponding color texture"%string] None,
     ["textures/stone_mer.png"%string]).
Proof. vm_compute. reflexivity. Qed.

(** ** Binary64 multiplication by 64 *)

Lemma digits2_pos_bound (m : positive) : Zpos m < 2 ^ Zpos (digits2_pos m).
Proof.
  induction m as [m IH | m IH |]; cbn [digits2_pos].
  - rewrite Pos2Z.inj_succ, Z.pow_succ_r by lia. lia.
  - rewrite Pos2Z.inj_succ, Z.pow_succ_r by lia. lia.
  - reflexivity.
Qed.

Lemma digits2_pos_iter_xO (m k : positive) :
  digits2_pos (Pos.iter xO m k) = (digits2_pos m + k)%positive.
Proof.
  induction k as [| k IH] using Pos.peano_ind.
  - cbn. rewrite Pos.add_1_r. reflexivity.
  - rewrite Pos.iter_succ. cbn [digits2_pos]. rewrite IH, Pos.add_succ_r.
    reflexivity.
Qed.

Lemma mul_pow2_52 (m : positive) :
  (m * 4503599627370496)%positive = Pos.iter xO m 52.
Proof. rewrite Pos.mul_comm. reflexivity. Qed.

(** One value of the shift of the product [m * 2^52]: run the shifts,
    check that the second rounding is idle, and bound the rounded value. *)
Ltac mul64_case c :=
  match goal with
  | Hn0 : ?n = c, Hn' : ?n = _, Hme : _ <= 2 ^ (- ?e) |- _ =>
      rewrite Hn0 in Hn' |- *;
      cbv [SpecFloat.shr SpecFloat.iter_pos SpecFloat.shr_1 Pos.iter orb];
      cbn [round_nearest_even loc_of_shr_record shr_m shr_r shr_s];
      unfold shr_fexp, fexp, emin;
      cbn [Zdigits2 digits2_pos shr_record_of_loc];
      match goal with
      | |- context [shr _ _ ?sh] =>
          replace sh with 0 by (rewrite ?Pos2Z.inj_succ; lia)
      end;
      cbn [shr shr_m];
      match goal with
      | |- context [?x <=? ?y] =>
          replace (x <=? y) with true by (symmetry; apply Z.leb_le; lia)
      end;
      eexists; eexists; split; [reflexivity |]; split; [lia |];
      set (a := - (e + -46 + c));
      assert (Ha : 0 <= a) by (unfold a; lia);
      replace (- e) with (a + (c - 46)) in Hme by (unfold a; lia);
      rewrite Z.pow_add_r in Hme by lia;
      rewrite (Z.pow_add_r 2 a 1) by lia;
      let v := eval vm_compute in (2 ^ (c - 46)) in
      change (2 ^ (c - 46)) with v in Hme;
      change (2 ^ 1) with 2;
      assert (HP : 0 < 2 ^ a) by (apply Z.pow_pos_nonneg; lia);
      clearbody a;
      generalize dependent (2 ^ a); intros P HmP HP;
      split;
      [ apply Z.div_pos; lia
      | apply Z.lt_succ_r, Z.div_lt_upper_bound; lia ]
  end.

(** The product of a binary64 value of [[0, 1]] by 64 is computed without
    rounding, and rounds to an integer of [0..64]. *)
Lemma SFmul_64 (m : positive) (e : Z) :
  bounded prec emax m e = true ->
  SFleb (S754_finite false m e) (S754_finite false 4503599627370496 (-52)) = true ->
  exists M e',
    SFmul prec emax (S754_finite false m e) (S754_finite false 4503599627370496 (-46))
    = S754_finite false M e'
    /\ e' < 0
    /\ 0 <= (2 * Zpos M + 2 ^ (- e')) / 2 ^ (- e' + 1) <= 64.
Proof.
  intros Hb Hle.
  unfold bounded, canonical_mantissa, fexp, emin, prec, emax in Hb.
  apply andb_true_iff in Hb. destruct Hb as [Hcanon _].
  apply Z.eqb_eq in Hcanon.
  set (d := Zpos (digits2_pos m)) in *.
  assert (Hd : 0 < d) by (unfold d; lia).
  pose proof (digits2_pos_bound m) as Hm. fold d in Hm.
  assert (Hdle : d <= 53) by lia.
  assert (He : e <= -52 /\ Zpos m <= 2 ^ (- e)).
  { unfold SFleb, SFcompare in Hle.
    change (IntDef.Z.compare e (-52)) with (e ?= -52) in Hle.
    destruct (e ?= -52) eqn:Hc.
    - apply Z.compare_eq_iff in Hc. subst e. split; [lia |].
      replace (2 ^ (- -52)) with 4503599627370496 by (vm_compute; reflexivity).
      destruct (Pos.compare_cont Eq m 4503599627370496) eqn:Hc';
        try discriminate.
      + apply Pos.compare_eq in Hc'. subst m. lia.
      + rewrite Pos.compare_cont_spec in Hc'. cbn [Pos.switch_Eq] in Hc'.
        destruct (m ?= 4503599627370496)%positive eqn:Hc2; try discriminate.
        rewrite Pos.compare_lt_iff in Hc2. apply Pos2Z.pos_lt_pos in Hc2.
        lia.
    - rewrite Z.compare_lt_iff in Hc. split; [lia |].
      assert (2 ^ d <= 2 ^ (- e)) by (apply Z.pow_le_mono_r; lia). lia.
    - discriminate. }
  destruct He as [He Hme].
  cbn [SFmul xorb]. rewrite mul_pow2_52.
  unfold binary_round_aux.
  unfold shr_fexp at 1.
  cbn [Zdigits2 shr_record_of_loc]. rewrite digits2_pos_iter_xO.
  rewrite Pos2Z.inj_add. fold d.
  unfold fexp, emin, prec, emax.
  set (n := IntDef.Z.max (d + 52 + (e + -46) - 53) (3 - 1024 - 53) - (e + -46)).
  assert (Hn : n = 46 \/ n = 47 \/ n = 48 \/ n = 49 \/ n = 50 \/ n = 51 \/ n = 52)
    by (unfold n; lia).
  assert (Hn' : n = IntDef.Z.max (d + e - 47) (-1074) - e + 46) by (unfold n; lia).
  clearbody n.
  destruct Hn as [Hn | [Hn | [Hn | [Hn | [Hn | [Hn | Hn]]]]]].
  - mul64_case 46.
  - mul64_case 47.
  - mul64_case 48.
  - mul64_case 49.
  - mul64_case 50.
  - mul64_case 51.
  - mul64_case 52.
Qed.

Lemma Z2F_eqb_refl (k : Z) : 0 <= k < 256 -> (Z2F k =? Z2F k)%float = true.
Proof.
  intros Hk.
  apply (forallb_bytes (fun k => (Z2F k =? Z2F k)%float)); [| exact Hk].
  vm_compute. reflexivity.
Qed.

(** [convertPorosity] on every binary64 number of [[0, 1]]. *)
Lemma convertPorosity_range (p : number) :
  (0 <=? p)%float = true -> (p <=? 1)%float = true ->
  in_range 0 64 (WorkflowConverter.convertPorosity p).
Proof.
  intros H0 H1.
  rewrite FloatAxioms.leb_spec in H0, H1.
  pose proof (FloatAxioms.mul_spec p 64) as Hmul.
  pose proof (Prim2SF_valid p) as Hvalid.
  replace (Prim2SF 0) with (S754_zero false) in H0
    by (vm_compute; reflexivity).
  replace (Prim2SF 1) with (S754_finite false 4503599627370496 (-52)) in H1
    by (vm_compute; reflexivity).
  replace (Prim2SF 64) with (S754_finite false 4503599627370496 (-46))
    in Hmul by (vm_compute; reflexivity).
  unfold WorkflowConverter.convertPorosity, in_range, Math_round.
  unfold SF64mul in Hmul.
  destruct (Prim2SF p) as [s | s | | s m e].
  - exists 0. split; [| lia].
    rewrite Hmul. cbn [SFmul].
    rewrite FloatAxioms.eqb_spec, Hmul. destruct s; reflexivity.
  - destruct s; discriminate.
  - discriminate.
  - destruct s; [discriminate |].
    destruct (SFmul_64 m e Hvalid H1) as (M & e' & Hprod & He' & Hk).
    rewrite Hmul, Hprod.
    replace (0 <=? e') with false by (symmetry; apply Z.leb_gt; exact He').
    rewrite andb_false_r. cbn [signed].
    eexists. split; [apply Z2F_eqb_refl; lia | exact Hk].
Qed.

(** C6. [convertSubsurface 0] is 0, [convertSubsurface] sends the bytes
    [1..255] into [65..255], [convertPorosity] sends the numbers of [[0, 1]]
    into [0..64]; so for a nonzero subsurface input the results of the two
    lie in disjoint ranges. *)
Theorem subsurface_and_porosity_ranges :
  (WorkflowConverter.convertSubsurface (Z2F 0) =? Z2F 0)%float = true
  /\ (forall s : Z, 1 <= s <= 255 ->
        in_range 65 255 (WorkflowConverter.convertSubsurface (Z2F s)))
  /\ (forall p : number,
        (0 <=? p)%float = true -> (p <=? 1)%float = true ->
        in_range 0 64 (WorkflowConverter.convertPorosity p))
  /\ (forall (s : Z) (p : number),
        1 <= s <= 255 ->
        (0 <=? p)%float = true -> (p <=? 1)%float = true ->
        exists a b : Z,
          (WorkflowConverter.convertSubsurface (Z2F s) =? Z2F a)%float = true
          /\ (WorkflowConverter.convertPorosity p =? Z2F b)%float = true
          /\ 0 <= b <= 64 /\ 65 <= a <= 255).
Proof.
  assert (Hsub : forall s : Z, 1 <= s <= 255 ->
            in_range 65 255 (WorkflowConverter.convertSubsurface (Z2F s))).
  { intros s Hs. apply in_rangeb_sound.
    assert (H : (if 1 <=? s
                 then in_rangeb 65 255
                        (WorkflowConverter.convertSubsurface (Z2F s))
                 else true) = true).
    { apply (forallb_bytes (fun s =>
        if 1 <=? s
        then in_rangeb 65 255 (WorkflowConverter.convertSubsurface (Z2F s))
        else true)); [vm_compute; reflexivity | lia]. }
    destruct (Z.leb_spec 1 s); [exact H | lia]. }
  split_conj.
  - vm_compute. reflexivity.
  - exact Hsub.
  - exact convertPorosity_range.
  - intros s p Hs H0 H1.
    destruct (Hsub s Hs) as (a & Ha & Hra).
    destruct (convertPorosity_range p H0 H1) as (b & Hb & Hrb).
    exists a, b. auto.
Qed.

(** * Further properties of the converters *)

(** ** The scalar conversions on bytes *)

Lemma forallb_bytes2 (f : Z -> Z -> bool) :
  forallb (fun a => forallb (f a) bytes) bytes = true ->
  forall a b, 0 <= a < 256 -> 0 <= b < 256 -> f a b = true.
Proof.
  intros H a b Ha Hb.
  apply (forallb_bytes (f a)); [| exact Hb].
  apply (forallb_bytes (fun a => forallb (f a) bytes)); assumption.
Qed.

(** A function on bytes that never decreases from one byte to the next
    never decreases. *)
Lemma bytes_monotone (g : Z -> Z) :
  (forall v, 0 <= v < 255 -> g v <= g (v + 1)) ->
  forall v1 v2, 0 <= v1 -> v1 <= v2 -> v2 <= 255 -> g v1 <= g v2.
Proof.
  intros Hstep v1 v2 H1 H12 H2.
  replace v2 with (v1 + Z.of_nat (Z.to_nat (v2 - v1))) in * by lia.
  induction (Z.to_nat (v2 - v1)) as [| n IH].
  - rewrite Z.add_0_r. lia.
  - etransitivity; [apply IH; lia |].
    replace (v1 + Z.of_nat (S n)) with (v1 + Z.of_nat n + 1) by lia.
    apply Hstep. lia.
Qed.

(** X1. On bytes [roughnessToSmoothness] is an integer of [0..255], and
    the smoothness byte stored for a roughness never increases with the
    roughness. *)
Theorem roughnessToSmoothness_antitone (r1 r2 : Z) :
  0 <= r1 -> r1 <= r2 -> r2 <= 255 ->
  in_range 0 255 (WorkflowConverter.roughnessToSmoothness (Z2F r1))
  /\ ToUint8 (WorkflowConverter.roughnessToSmoothness (Z2F r2))
     <= ToUint8 (WorkflowConverter.roughnessToSmoothness (Z2F r1)).
Proof.
  intros H1 H12 H2. split.
  - apply in_rangeb_sound.
    apply (forallb_bytes (fun r =>
      in_rangeb 0 255 (WorkflowConverter.roughnessToSmoothness (Z2F r))));
      [vm_compute; reflexivity | lia].
  - apply Z.opp_le_mono.
    apply (bytes_monotone (fun r =>
      - ToUint8 (WorkflowConverter.roughnessToSmoothness (Z2F r))));
      try assumption.
    intros v Hv. apply Z.leb_le.
    pose proof (forallb_bytes (fun v =>
      (255 <=? v)
      || (- ToUint8 (WorkflowConverter.roughnessToSmoothness (Z2F v))
          <=? - ToUint8 (WorkflowConverter.roughnessToSmoothness
                           (Z2F (v + 1)))))) as H.
    specialize (H ltac:(vm_compute; reflexivity) v ltac:(lia)).
    cbv beta in H. destruct (Z.leb_spec 255 v); [lia | exact H].
Qed.

(** X1 at the roughness bytes 64 and 128. *)
Lemma roughnessToSmoothness_antitone_witness :
  in_range 0 255 (WorkflowConverter.roughnessToSmoothness (Z2F 64))
  /\ ToUint8 (WorkflowConverter.roughnessToSmoothness (Z2F 128))
     <= ToUint8 (WorkflowConverter.roughnessToSmoothness (Z2F 64)).
Proof.
  apply (roughnessToSmoothness_antitone 64 128); lia.
Defined.

(** X2. Roughness to smoothness and back lands within one of the byte it
    started from. *)
Theorem roughness_round_trip_within_one (r : Z) :
  0 <= r <= 255 ->
  in_range (r - 1) (r + 1)
    (WorkflowConverter.smoothnessToRoughness
       (WorkflowConverter.roughnessToSmoothness (Z2F r))).
Proof.
  intros Hr. apply in_rangeb_sound.
  apply (forallb_bytes (fun r =>
    in_rangeb (r - 1) (r + 1)
      (WorkflowConverter.smoothnessToRoughness
         (WorkflowConverter.roughnessToSmoothness (Z2F r)))));
    [vm_compute; reflexivity | lia].
Qed.

(** X2 at the roughness byte 250. *)
Lemma roughness_round_trip_within_one_witness :
  in_range (250 - 1) (250 + 1)
    (WorkflowConverter.smoothnessToRoughness
       (WorkflowConverter.roughnessToSmoothness (Z2F 250))).
Proof. apply (roughness_round_trip_within_one 250); lia. Defined.

(** X3. The inverse the LabPBR-to-packed conversion applies to a smoothness
    is [255 - s], not [smoothnessToRoughness]: a roughness byte sent to
    smoothness and brought back this way is never lower than it was and at
    most 64 higher; 57 comes back as 121. *)
Theorem roughness_through_bedrock_inverse (r : Z) :
  0 <= r <= 255 ->
  in_range r (r + 64)
    (BidirectionalWorkflowConverter.smoothnessToBedrockRoughness
       (WorkflowConverter.roughnessToSmoothness (Z2F r)))
  /\ BidirectionalWorkflowConverter.smoothnessToBedrockRoughness
       (WorkflowConverter.roughnessToSmoothness (Z2F 57)) = Z2F 121.
Proof.
  intros Hr. split; [| vm_compute; reflexivity].
  apply in_rangeb_sound.
  apply (forallb_bytes (fun r =>
    in_rangeb r (r + 64)
      (BidirectionalWorkflowConverter.smoothnessToBedrockRoughness
         (WorkflowConverter.roughnessToSmoothness (Z2F r)))));
    [vm_compute; reflexivity | lia].
Qed.

(** X3 at the roughness byte 64. *)
Lemma roughness_through_bedrock_inverse_witness :
  in_range 64 (64 + 64)
    (BidirectionalWorkflowConverter.smoothnessToBedrockRoughness
       (WorkflowConverter.roughnessToSmoothness (Z2F 64))).
Proof. apply (roughness_through_bedrock_inverse 64); lia. Defined.

(** X4. On bytes the reflectance byte [metallicToF0] gives never decreases
    with the metallic value. *)
Theorem metallicToF0_monotone (m1 m2 : Z) :
  0 <= m1 -> m1 <= m2 -> m2 <= 255 ->
  ToUint8 (WorkflowConverter.metallicToF0 (Z2F m1))
  <= ToUint8 (WorkflowConverter.metallicToF0 (Z2F m2)).
Proof.
  intros H1 H12 H2.
  apply (bytes_monotone (fun m =>
    ToUint8 (WorkflowConverter.metallicToF0 (Z2F m)))); try assumption.
  intros v Hv. apply Z.leb_le.
  pose proof (forallb_bytes (fun v =>
    (255 <=? v)
    || (ToUint8 (WorkflowConverter.metallicToF0 (Z2F v))
        <=? ToUint8 (WorkflowConverter.metallicToF0 (Z2F (v + 1)))))) as H.
  specialize (H ltac:(vm_compute; reflexivity) v ltac:(lia)).
  cbv beta in H. destruct (Z.leb_spec 255 v); [lia | exact H].
Qed.

(** X4 at the metallic bytes 200 and 201, across the threshold. *)
Lemma metallicToF0_monotone_witness :
  ToUint8 (WorkflowConverter.metallicToF0 (Z2F 200))
  <= ToUint8 (WorkflowConverter.metallicToF0 (Z2F 201)).
Proof. apply (metallicToF0_monotone 200 201); lia. Defined.

(** The test by bounds answers for [Math.round]. *)
Lemma rounds_to_sound (x : number) (k : Z) :
  rounds_to x k = true -> Math_round x = Z2F k.
Proof.
  unfold rounds_to, Math_round.
  destruct (Prim2SF x) as [[] | | | [] m e] eqn:Ex; try discriminate.
  - intros Hk. apply Z.eqb_eq in Hk. subst k.
    apply Prim2SF_inj. rewrite Ex. reflexivity.
  - cbv zeta.
    rewrite !andb_true_iff, Z.ltb_lt, !Z.leb_le, Z.ltb_lt.
    intros [[[He Hk] Hlo] Hhi].
    rewrite !Z.shiftl_mul_pow2 in Hlo, Hhi by lia.
    destruct (Z.leb_spec 0 e); [lia |].
    cbn [signed andb]. rewrite andb_false_r.
    f_equal. symmetry.
    assert (Hp : 0 < 2 ^ (- e + 1)) by (apply Z.pow_pos_nonneg; lia).
    apply (Z.div_unique_pos _ _ k
             (2 * Z.pos m + 2 ^ (- e) - k * 2 ^ (- e + 1))); lia.
Qed.

(** X5. A subsurface byte sent to LabPBR and back is the byte itself or one
    less; 0 comes back as 0. *)
Theorem subsurface_round_trip (s : Z) :
  0 <= s <= 255 ->
  in_range (s - 1) s
    (BidirectionalWorkflowConverter.labPBRSubsurfaceToBedrockSubsurface
       (WorkflowConverter.convertSubsurface (Z2F s)))
  /\ BidirectionalWorkflowConverter.labPBRSubsurfaceToBedrockSubsurface
       (WorkflowConverter.convertSubsurface (Z2F 0)) = Z2F 0.
Proof.
  intros Hs. split; [| vm_compute; reflexivity].
  apply in_rangeb_sound.
  apply (forallb_bytes (fun s =>
    in_rangeb (s - 1) s
      (BidirectionalWorkflowConverter.labPBRSubsurfaceToBedrockSubsurface
         (WorkflowConverter.convertSubsurface (Z2F s)))));
    [vm_compute; reflexivity | lia].
Qed.

(** X5 at the subsurface byte 128. *)
Lemma subsurface_round_trip_witness :
  in_range (128 - 1) 128
    (BidirectionalWorkflowConverter.labPBRSubsurfaceToBedrockSubsurface
       (WorkflowConverter.convertSubsurface (Z2F 128))).
Proof. apply (subsurface_round_trip 128); lia. Defined.

(** X6. A metallic byte sent to reflectance and back is a metal exactly
    from 165 on: the dielectric values 165..200 come back as metals, every
    metal comes back as 255, and every value below 52 as 0. *)
Theorem metallic_round_trip (m : Z) :
  0 <= m <= 255 ->
  let back :=
    BidirectionalWorkflowConverter.f0ToMetallic
      (WorkflowConverter.metallicToF0 (Z2F m)) in
  WorkflowConverter.isMetallic back = (165 <=? m)
  /\ (WorkflowConverter.isMetallic (Z2F m) = true -> back = Z2F 255)
  /\ (m < 52 -> back = Z2F 0).
Proof.
  intros Hm back.
  pose proof (forallb_bytes (fun m =>
    let back :=
      BidirectionalWorkflowConverter.f0ToMetallic
        (WorkflowConverter.metallicToF0 (Z2F m)) in
    Bool.eqb (WorkflowConverter.isMetallic back) (165 <=? m)
    && (negb (WorkflowConverter.isMetallic (Z2F m))
        || (ToUint8 back =? 255) && (back =? Z2F 255)%float)
    && (negb (m <? 52) || (back =? Z2F 0)%float))) as H.
  specialize (H ltac:(vm_compute; reflexivity) m ltac:(lia)).
  cbv zeta in H. fold back in H.
  apply andb_true_iff in H. destruct H as [H H3].
  apply andb_true_iff in H. destruct H as [H1 H2].
  split_conj.
  - apply eqb_prop. exact H1.
  - intros Hmet. rewrite Hmet in H2. cbn [negb orb] in H2.
    unfold back, BidirectionalWorkflowConverter.f0ToMetallic in *.
    repeat match goal with
           | |- context [if ?c then _ else _] => destruct c
           end; try reflexivity; vm_compute in H2; discriminate.
  - intros Hlow. destruct (Z.ltb_spec m 52); [| lia]. cbn [negb orb] in H3.
    unfold back, BidirectionalWorkflowConverter.f0ToMetallic in *.
    repeat match goal with
           | |- context [if ?c then _ else _] => destruct c
           end; try reflexivity; vm_compute in H3; discriminate.
Qed.

(** X6 at the metallic byte 165. *)
Lemma metallic_round_trip_witness :
  let back :=
    BidirectionalWorkflowConverter.f0ToMetallic
      (WorkflowConverter.metallicToF0 (Z2F 165)) in
  WorkflowConverter.isMetallic back = (165 <=? 165)
  /\ (WorkflowConverter.isMetallic (Z2F 165) = true -> back = Z2F 255)
  /\ (165 < 52 -> back = Z2F 0).
Proof. apply (metallic_round_trip 165); lia. Defined.

(** X7. An emissive byte sent to LabPBR and back is the byte itself below
    127 and one more from 127 on, up to 255. *)
Theorem emissive_round_trip (e : Z) :
  0 <= e <= 255 ->
  (BidirectionalWorkflowConverter.labPBREmissiveToBedrockEmissive
     (WorkflowConverter.convertEmissive (Z2F e))
   =? Z2F (if (e <? 127)%Z then e else Z.min 255 (e + 1)%Z))%float = true.
Proof.
  intros He.
  apply (forallb_bytes (fun e =>
    (BidirectionalWorkflowConverter.labPBREmissiveToBedrockEmissive
       (WorkflowConverter.convertEmissive (Z2F e))
     =? Z2F (if (e <? 127)%Z then e else Z.min 255 (e + 1)%Z))%float));
    [vm_compute; reflexivity | lia].
Qed.

(** X7 at the emissive byte 200. *)
Lemma emissive_round_trip_witness :
  (BidirectionalWorkflowConverter.labPBREmissiveToBedrockEmissive
     (WorkflowConverter.convertEmissive (Z2F 200))
   =? Z2F (if (200 <? 127)%Z then 200 else Z.min 255 (200 + 1)%Z))%float
  = true.
Proof. apply (emissive_round_trip 200); lia. Defined.

(** X8. On bytes [reconstructNormalMapBlueChannel] is the nearest integer to
    the square root of [255^2 - r^2 - g^2], so that the three channels make
    a vector of length 255 up to rounding, and 0 where [r^2 + g^2] is
    [255^2] or more. *)
Theorem reconstructNormalMapBlueChannel_nearest (r g : Z) :
  0 <= r <= 255 -> 0 <= g <= 255 ->
  exists b : Z,
    (BidirectionalWorkflowConverter.reconstructNormalMapBlueChannel
       (Z2F r) (Z2F g) =? Z2F b)%float = true
    /\ 0 <= b <= 255 /\ is_blue_of r g b.
Proof.
  intros Hr Hg.
  pose proof (forallb_bytes2 (fun r g =>
    let b := nearest_sqrt (65025 - (r * r + g * g)) in
    let normalizedR := (Z2F r / 255)%float in
    let normalizedG := (Z2F g / 255)%float in
    let x :=
      sqrt (1 - Math_min 1 (normalizedR * normalizedR
                            + normalizedG * normalizedG))%float in
    negb (is_nan x || (x <? 0)%float)
    && rounds_to (x * 255)%float b
    && (0 <=? b) && (b <=? 255) && is_blue_ofb r g b)) as H.
  specialize (H ltac:(vm_compute; reflexivity) r g ltac:(lia) ltac:(lia)).
  cbv beta zeta in H.
  set (b := nearest_sqrt (65025 - (r * r + g * g))) in *.
  exists b. rewrite !andb_true_iff, !Z.leb_le in H.
  destruct H as [[[[H0 H1] H2] H3] H4].
  apply negb_true_iff in H0. apply rounds_to_sound in H1.
  unfold BidirectionalWorkflowConverter.reconstructNormalMapBlueChannel.
  cbv zeta. rewrite H0, H1.
  split_conj; auto.
  - apply Z2F_eqb_refl. lia.
  - unfold is_blue_of, is_blue_ofb in *.
    destruct (65025 <=? r * r + g * g); [lia |].
    rewrite andb_true_iff, Z.leb_le, Z.ltb_lt in H4. exact H4.
Qed.

(** X8 at the flat normal (128, 128). *)
Lemma reconstructNormalMapBlueChannel_nearest_witness :
  exists b : Z,
    (BidirectionalWorkflowConverter.reconstructNormalMapBlueChannel
       (Z2F 128) (Z2F 128) =? Z2F b)%float = true
    /\ 0 <= b <= 255 /\ is_blue_of 128 128 b.
Proof. apply (reconstructNormalMapBlueChannel_nearest 128 128); lia. Defined.

(** ** Buffers handed on by the converters *)

(** A buffer whose every byte was stored is a buffer of bytes. *)
Lemma stored_wf (data : Buffer.t) (n cc : nat) (f : nat -> nat -> number) :
  length data = (n * cc)%nat ->
  (forall i c, (i < n)%nat -> (c < cc)%nat ->
     data !! (i * cc + c)%nat = Some (ToUint8 (f i c))) ->
  Buffer.wf data.
Proof.
  intros Hlen Hdata. apply Forall_lookup_2. intros j v Hj.
  assert (Hlt : (j < n * cc)%nat)
    by (rewrite <- Hlen; eapply lookup_lt_Some; eauto).
  assert (Hcc : (cc <> 0)%nat) by lia.
  pose proof (Nat.div_mod_eq j cc) as Hdm.
  pose proof (Nat.mod_upper_bound j cc Hcc) as Hmod.
  assert (Hi : (j / cc < n)%nat) by nia.
  specialize (Hdata (j / cc)%nat (j mod cc)%nat Hi Hmod).
  replace (j / cc * cc + j mod cc)%nat with j in Hdata by lia.
  rewrite Hdata in Hj. injection Hj as <-. apply ToUint8_range.
Qed.

Lemma combineChannels_wf (ch : ChannelData) :
  TextureData_wf (ChannelExtractor.combineChannels ch)
  /\ td_width (ChannelExtractor.combineChannels ch) = cd_width ch
  /\ td_height (ChannelExtractor.combineChannels ch) = cd_height ch
  /\ td_channels (ChannelExtractor.combineChannels ch) = channelCount ch.
Proof.
  pose proof (combineChannels_spec ch) as (Cw & Ch & Cc & Clen & Cdata).
  split_conj; auto.
  unfold TextureData_wf. rewrite Cw, Ch, Cc. split_conj.
  - exact Clen.
  - unfold channelCount. destruct (cd_a ch); auto.
  - eapply stored_wf; [exact Clen | exact Cdata].
Qed.

(** X9. Whatever planes it is given, [combineChannels] returns a buffer that
    satisfies the PixelBuffer invariant, with four channels exactly when an
    alpha plane is given; an entry a colour plane lacks is stored as 0. *)
Theorem combineChannels_always_well_formed (ch : ChannelData) :
  let td := ChannelExtractor.combineChannels ch in
  TextureData_wf td
  /\ td_width td = cd_width ch /\ td_height td = cd_height ch
  /\ (td_channels td = 4%nat <-> is_Some (cd_a ch))
  /\ (forall i, (i < cd_width ch * cd_height ch)%nat ->
        ((length (cd_r ch) <= i)%nat -> pixel td i 0 = Some 0)
        /\ ((length (cd_g ch) <= i)%nat -> pixel td i 1 = Some 0)
        /\ ((length (cd_b ch) <= i)%nat -> pixel td i 2 = Some 0)).
Proof.
  intros td.
  pose proof (combineChannels_wf ch) as (Hwf & Hw & Hh & Hc).
  pose proof (combineChannels_spec ch) as (_ & _ & _ & _ & Cdata).
  fold td in Hwf, Hw, Hh, Hc, Cdata.
  split_conj; auto.
  - rewrite Hc. unfold channelCount.
    destruct (cd_a ch); split; intros H; try lia; eauto.
    destruct H as [? H]; discriminate.
  - intros i Hi.
    assert (Hcc : (3 <= channelCount ch)%nat)
      by (unfold channelCount; destruct (cd_a ch); lia).
    unfold pixel. rewrite Hc.
    split_conj; intros Hshort; rewrite Cdata by (auto; lia);
      unfold chan_value, Buffer.get;
      rewrite lookup_ge_None_2 by exact Hshort; reflexivity.
Qed.

(** Bytes read from a buffer of bytes. *)
Lemma ToUint8_get (data : Buffer.t) (j : nat) :
  Buffer.wf data ->
  ToUint8 (Buffer.get data j) = default 0 (data !! j).
Proof.
  intros Hwf. unfold Buffer.get. destruct (data !! j) as [v |] eqn:E.
  - apply ToUint8_Z2F. eapply (Forall_lookup_1 _ _ _ _ Hwf); eauto.
  - reflexivity.
Qed.

Lemma filled_plane_wf (n : nat) (f : nat -> number) (x : Buffer.t) :
  filled n n f x -> plane_wf n x.
Proof.
  intros H. split; [apply H | eapply filled_wf; eauto].
Qed.

(** X10. [extractChannels] accepts any texture data: each plane holds one
    byte per pixel, the alpha plane exists exactly for four channels, and a
    byte the buffer lacks is read as 0. *)
Theorem extractChannels_any_buffer (td : TextureData) :
  Buffer.wf (td_data td) ->
  let ch := ChannelExtractor.extractChannels td in
  let n := (td_width td * td_height td)%nat in
  let c := td_channels td in
  cd_width ch = td_width td /\ cd_height ch = td_height td
  /\ ChannelData_wf ch
  /\ (is_Some (cd_a ch) <-> c = 4%nat)
  /\ forall i, (i < n)%nat ->
       cd_r ch !! i = Some (default 0 (td_data td !! (i * c)%nat))
       /\ cd_g ch !! i = Some (default 0 (td_data td !! (i * c + 1)%nat))
       /\ cd_b ch !! i = Some (default 0 (td_data td !! (i * c + 2)%nat))
       /\ (forall a, cd_a ch = Some a ->
             a !! i = Some (default 0 (td_data td !! (i * c + 3)%nat))).
Proof.
  intros Hwf ch n c.
  pose proof (extractChannels_spec td) as (Ew & Eh & Er & Eg & Eb & Ea).
  fold ch n c in Ew, Eh, Er, Eg, Eb, Ea.
  split_conj; auto.
  - unfold ChannelData_wf. rewrite Ew, Eh. fold n.
    split_conj; try (eapply filled_plane_wf; eauto).
    destruct (cd_a ch); [| exact I].
    destruct Ea as [_ Ea]. eapply filled_plane_wf; eauto.
  - destruct (cd_a ch); split; intros H; try tauto; eauto.
    destruct H as [? H]; discriminate.
  - intros i Hi. split_conj.
    + rewrite (proj2 Er i Hi), ToUint8_get by exact Hwf. reflexivity.
    + rewrite (proj2 Eg i Hi), ToUint8_get by exact Hwf. reflexivity.
    + rewrite (proj2 Eb i Hi), ToUint8_get by exact Hwf. reflexivity.
    + intros a Ha. rewrite Ha in Ea. destruct Ea as [_ Ea].
      rewrite (proj2 Ea i Hi), ToUint8_get by exact Hwf. reflexivity.
Qed.

(** X10 at a 2x1 RGB texture whose buffer is two bytes short. *)
Lemma extractChannels_any_buffer_witness :
  let td := mkTextureData 2 1 [10; 20; 30; 40] 3 in
  let ch := ChannelExtractor.extractChannels td in
  Buffer.wf (td_data td)
  /\ ChannelData_wf ch
  /\ cd_b ch !! 1%nat = Some 0.
Proof.
  cbv zeta.
  assert (Hwf : Buffer.wf (td_data (mkTextureData 2 1 [10; 20; 30; 40] 3))).
  { repeat constructor; lia. }
  split; [exact Hwf |].
  pose proof (extractChannels_any_buffer _ Hwf) as H. cbv zeta in H.
  destruct H as (_ & _ & Hch & _ & Hdata).
  split; [exact Hch |].
  destruct (Hdata 1%nat ltac:(cbn; lia)) as (_ & _ & Hb & _). exact Hb.
Defined.

(** A plane of bytes is the plane of its own stored values. *)
Lemma plane_filled (n : nat) (p : Buffer.t) :
  plane_wf n p -> filled n n (Buffer.get p) p.
Proof.
  intros [Hlen Hwf]. split; [exact Hlen |]. intros i Hi.
  rewrite ToUint8_get by exact Hwf.
  destruct (lookup_lt_is_Some_2 p i ltac:(lia)) as [v ->]. reflexivity.
Qed.

Lemma filled_ext (n : nat) (f : nat -> number) (x y : Buffer.t) :
  filled n n f x -> filled n n f y -> x = y.
Proof.
  intros [Hx Hfx] [Hy Hfy]. apply list_eq. intros i.
  destruct (decide (i < n)%nat) as [Hi | Hi].
  - rewrite Hfx, Hfy by exact Hi. reflexivity.
  - rewrite !lookup_ge_None_2 by lia. reflexivity.
Qed.

(** X11. On planes of one byte per pixel, extracting the channels of the
    combined buffer gives the planes back. *)
Theorem extract_combine_round_trip (ch : ChannelData) :
  ChannelData_wf ch ->
  ChannelExtractor.extractChannels (ChannelExtractor.combineChannels ch) = ch.
Proof.
  intros (Hr & Hg & Hb & Ha).
  pose proof (combineChannels_spec ch) as (Cw & Ch & Cc & Clen & Cdata).
  pose proof (extractChannels_spec (ChannelExtractor.combineChannels ch))
    as (Ew & Eh & Er & Eg & Eb & Ea).
  set (td := ChannelExtractor.combineChannels ch) in *.
  rewrite Cw, Ch, Cc in *.
  set (n := (cd_width ch * cd_height ch)%nat) in *.
  assert (Hcc : (3 <= channelCount ch)%nat)
    by (unfold channelCount; destruct (cd_a ch); lia).
  assert (Hget : forall i c, (i < n)%nat -> (c < channelCount ch)%nat ->
            ToUint8 (Buffer.get (td_data td) (i * channelCount ch + c))
            = ToUint8 (chan_value ch i c)).
  { intros i c Hi Hc. unfold Buffer.get at 1. rewrite (Cdata i c Hi Hc).
    apply store_load_store. }
  assert (Hplane : forall c p (q : Buffer.t) (f : nat -> number),
            (c < channelCount ch)%nat -> plane_wf n p ->
            (forall i, (i < n)%nat -> chan_value ch i c = Buffer.get p i) ->
            (forall i,
               f i = Buffer.get (td_data td) (i * channelCount ch + c)) ->
            filled n n f q -> q = p).
  { intros c p q f Hc Hp Hval Hf [Hq Hfq].
    apply (filled_ext n (Buffer.get p)); [| apply plane_filled; exact Hp].
    split; [exact Hq |]. intros i Hi.
    rewrite (Hfq i Hi), Hf, (Hget i c Hi Hc), (Hval i Hi). reflexivity. }
  destruct (ChannelExtractor.extractChannels td) as [r' g' b' a' w' h'].
  destruct ch as [r g b a w h].
  cbn [cd_width cd_height cd_r cd_g cd_b cd_a] in *. subst w' h'.
  assert (r' = r) as ->.
  { eapply (Hplane 0%nat); [lia | exact Hr | reflexivity | | exact Er].
    intros i. cbv beta. f_equal. lia. }
  assert (g' = g) as ->.
  { eapply (Hplane 1%nat); [lia | exact Hg | reflexivity | | exact Eg].
    reflexivity. }
  assert (b' = b) as ->.
  { eapply (Hplane 2%nat); [lia | exact Hb | reflexivity | | exact Eb].
    reflexivity. }
  assert (a' = a) as ->; [| reflexivity].
  unfold channelCount in *. cbn [cd_a] in *.
  destruct a as [a |], a' as [a' |]; try lia; [| reflexivity]. f_equal.
  destruct Ea as [_ Ea].
  eapply (Hplane 3%nat); [lia | exact Ha | reflexivity | | exact Ea].
  reflexivity.
Qed.

(** X11 at three planes of two bytes. *)
Lemma extract_combine_round_trip_witness :
  let ch := mkChannelData [1; 2] [3; 4] [5; 6] None 2 1 in
  ChannelData_wf ch
  /\ ChannelExtractor.extractChannels (ChannelExtractor.combineChannels ch)
     = ch.
Proof.
  assert (Hwf : ChannelData_wf (mkChannelData [1; 2] [3; 4] [5; 6] None 2 1)).
  { unfold ChannelData_wf, plane_wf. cbn.
    split_conj; try reflexivity; try exact I; repeat constructor; lia. }
  split; [exact Hwf |].
  apply (extract_combine_round_trip _ Hwf).
Defined.

(** ** The packed-to-LabPBR pipeline on textures *)

Lemma metallicToF0_dielectric_byte (v : Z) :
  0 <= v < 256 -> WorkflowConverter.isMetallic (Z2F v) = false ->
  4 <= ToUint8 (WorkflowConverter.metallicToF0 (Z2F v)) <= 229.
Proof.
  intros Hv Hd.
  pose proof (forallb_bytes (fun v =>
    WorkflowConverter.isMetallic (Z2F v)
    || (4 <=? ToUint8 (WorkflowConverter.metallicToF0 (Z2F v)))
       && (ToUint8 (WorkflowConverter.metallicToF0 (Z2F v)) <=? 229))) as H.
  specialize (H ltac:(vm_compute; reflexivity) v Hv). cbv beta in H.
  rewrite Hd in H. cbn [orb] in H.
  apply andb_true_iff in H. rewrite !Z.leb_le in H. exact H.
Qed.

Lemma convertSubsurface_positive_byte (v : Z) :
  0 <= v < 256 -> (0 <? Z2F v)%float = true ->
  65 <= ToUint8 (WorkflowConverter.convertSubsurface (Z2F v)) <= 255.
Proof.
  intros Hv Hp.
  pose proof (forallb_bytes (fun v =>
    negb (0 <? Z2F v)%float
    || (65 <=? ToUint8 (WorkflowConverter.convertSubsurface (Z2F v)))
       && (ToUint8 (WorkflowConverter.convertSubsurface (Z2F v)) <=? 255))) as H.
  specialize (H ltac:(vm_compute; reflexivity) v Hv). cbv beta in H.
  rewrite Hp in H. cbn [negb orb] in H.
  apply andb_true_iff in H. rewrite !Z.leb_le in H. exact H.
Qed.

Lemma convertEmissive_byte (v : Z) :
  0 <= v < 256 ->
  ToUint8 (WorkflowConverter.convertEmissive (Z2F v)) = Z.min 254 v.
Proof.
  intros Hv. apply Z.eqb_eq.
  apply (forallb_bytes (fun v =>
    ToUint8 (WorkflowConverter.convertEmissive (Z2F v)) =? Z.min 254 v));
    [vm_compute; reflexivity | exact Hv].
Qed.

(** X12. Every pixel of the specular texture made from a packed texture and a
    colour texture respects the values LabPBR reserves, whatever the two
    buffers hold: the reflectance byte is a dielectric value of [4..229] or
    one of the codes 230, 231, 234, 237; the blue byte is the porosity 6 or a
    subsurface value of [65..255], and 6 everywhere when the packed texture
    has no alpha channel; the emission byte is never 255. *)
Theorem specular_pixels_respect_reserved_values
    (merTextureData colorTextureData : TextureData) (i : nat) :
  let specular :=
    PBRConverter.createSpecularTexture
      (ChannelExtractor.extractMERChannels merTextureData)
      (ChannelExtractor.extractChannels colorTextureData)
      (td_width merTextureData) (td_height merTextureData) in
  (i < td_width merTextureData * td_height merTextureData)%nat ->
  exists f0 porosity emission : Z,
    pixel specular i 1 = Some f0
    /\ pixel specular i 2 = Some porosity
    /\ pixel specular i 3 = Some emission
    /\ (4 <= f0 <= 229 \/ f0 = 230 \/ f0 = 231 \/ f0 = 234 \/ f0 = 237)
    /\ (porosity = 6 \/ 65 <= porosity <= 255)
    /\ (td_channels merTextureData <> 4%nat -> porosity = 6)
    /\ 0 <= emission <= 254.
Proof.
  intros specular Hi.
  pose proof (createSpecularTexture_spec
                (ChannelExtractor.extractMERChannels merTextureData)
                (ChannelExtractor.extractChannels colorTextureData)
                (td_width merTextureData) (td_height merTextureData))
    as (_ & _ & Hc & _ & Hdata).
  fold specular in Hc, Hdata.
  destruct (Hdata i Hi) as (_ & Hf & Hp & He).
  pose proof (extractChannels_spec merTextureData)
    as (_ & _ & Er & Eg & _ & Ea).
  set (color := ChannelExtractor.extractChannels colorTextureData) in *.
  unfold pixel. rewrite Hc, Hf, Hp, He.
  do 3 eexists. split_conj; try reflexivity.
  - unfold SpecularPixel.f0, ChannelExtractor.extractMERChannels.
    cbn [ChannelExtractor.metallic].
    rewrite (filled_get _ _ _ _ Er Hi).
    destruct (WorkflowConverter.isMetallic _) eqn:Em.
    + destruct (getPredefinedMetal_cases
                  (Buffer.get (cd_r color) i) (Buffer.get (cd_g color) i)
                  (Buffer.get (cd_b color) i)) as [H | [H | [H | H]]];
        rewrite H; cbn [PredefinedMetal_code];
        rewrite ToUint8_Z2F by lia; auto.
    + left. apply metallicToF0_dielectric_byte;
        [apply ToUint8_range | exact Em].
  - unfold SpecularPixel.porosity, ChannelExtractor.extractMERChannels.
    cbn [ChannelExtractor.subsurface].
    destruct (cd_a (ChannelExtractor.extractChannels merTextureData))
      as [a |]; [| left; vm_compute; reflexivity].
    destruct Ea as [_ Ea]. rewrite (filled_get _ _ _ _ Ea Hi).
    destruct (0 <? _)%float eqn:E0; [| left; vm_compute; reflexivity].
    right. apply convertSubsurface_positive_byte;
      [apply ToUint8_range | exact E0].
  - intros Hno.
    unfold SpecularPixel.porosity, ChannelExtractor.extractMERChannels.
    cbn [ChannelExtractor.subsurface].
    destruct (cd_a (ChannelExtractor.extractChannels merTextureData))
      as [a |]; [| vm_compute; reflexivity].
    destruct Ea as [Ha _]. contradiction.
  - apply ToUint8_range.
  - unfold SpecularPixel.emission, ChannelExtractor.extractMERChannels.
    cbn [ChannelExtractor.emissive].
    rewrite (filled_get _ _ _ _ Eg Hi).
    rewrite convertEmissive_byte by apply ToUint8_range. lia.
Qed.

(** X12 at the last pixel of the packed 2x2 example. *)
Lemma specular_pixels_respect_reserved_values_witness :
  exists f0 porosity emission : Z,
    pixel (PBRConverter.createSpecularTexture
             (ChannelExtractor.extractMERChannels packed2x2)
             (ChannelExtractor.extractChannels midgray2x2) 2 2) 3 1 = Some f0
    /\ pixel (PBRConverter.createSpecularTexture
                (ChannelExtractor.extractMERChannels packed2x2)
                (ChannelExtractor.extractChannels midgray2x2) 2 2) 3 2
       = Some porosity
    /\ pixel (PBRConverter.createSpecularTexture
                (ChannelExtractor.extractMERChannels packed2x2)
                (ChannelExtractor.extractChannels midgray2x2) 2 2) 3 3
       = Some emission
    /\ (4 <= f0 <= 229 \/ f0 = 230 \/ f0 = 231 \/ f0 = 234 \/ f0 = 237)
    /\ (porosity = 6 \/ 65 <= porosity <= 255)
    /\ (td_channels packed2x2 <> 4%nat -> porosity = 6)
    /\ 0 <= emission <= 254.
Proof.
  apply (specular_pixels_respect_reserved_values packed2x2 midgray2x2 3).
  cbn. lia.
Defined.

(** X13. A colour texture with fewer pixels than the packed texture is
    accepted: a metallic pixel it does not cover is given the reflectance
    code of iron. *)
Theorem metal_beyond_colour_texture_is_iron
    (merTextureData colorTextureData : TextureData) (i : nat) (m : Z) :
  let specular :=
    PBRConverter.createSpecularTexture
      (ChannelExtractor.extractMERChannels merTextureData)
      (ChannelExtractor.extractChannels colorTextureData)
      (td_width merTextureData) (td_height merTextureData) in
  (i < td_width merTextureData * td_height merTextureData)%nat ->
  (td_width colorTextureData * td_height colorTextureData <= i)%nat ->
  pixel merTextureData i 0 = Some m -> 200 < m < 256 ->
  pixel specular i 1 = Some (PredefinedMetal_code Iron).
Proof.
  intros specular Hi Hcolor Hm Hmetal.
  pose proof (createSpecularTexture_spec
                (ChannelExtractor.extractMERChannels merTextureData)
                (ChannelExtractor.extractChannels colorTextureData)
                (td_width merTextureData) (td_height merTextureData))
    as (_ & _ & Hc & _ & Hdata).
  fold specular in Hc, Hdata.
  destruct (Hdata i Hi) as (_ & Hf & _).
  pose proof (extractChannels_spec merTextureData) as (_ & _ & Er & _).
  pose proof (extractChannels_spec colorTextureData)
    as (_ & _ & [Cr _] & [Cg _] & [Cb _] & _).
  unfold pixel in *. rewrite Hc, Hf. f_equal.
  unfold SpecularPixel.f0, ChannelExtractor.extractMERChannels.
  cbn [ChannelExtractor.metallic].
  rewrite (filled_get _ _ _ _ Er Hi).
  rewrite Nat.add_0_r in Hm. unfold Buffer.get at 1. rewrite Hm.
  rewrite (ToUint8_Z2F m) by lia.
  assert (Hmet : WorkflowConverter.isMetallic (Z2F m) = true).
  { pose proof (forallb_bytes (fun m =>
      negb (200 <? m) || WorkflowConverter.isMetallic (Z2F m))) as H.
    specialize (H ltac:(vm_compute; reflexivity) m ltac:(lia)). cbv beta in H.
    destruct (Z.ltb_spec 200 m); [exact H | lia]. }
  rewrite Hmet. unfold Buffer.get.
  rewrite !lookup_ge_None_2 by lia. vm_compute. reflexivity.
Qed.

(** X13 at the packed 2x2 example with a golden colour texture of one pixel. *)
Lemma metal_beyond_colour_texture_is_iron_witness :
  pixel (PBRConverter.createSpecularTexture
           (ChannelExtractor.extractMERChannels packed2x2)
           (ChannelExtractor.extractChannels (mkTextureData 1 1 [255; 200; 0] 3))
           2 2) 1 1
  = Some (PredefinedMetal_code Iron).
Proof.
  apply (metal_beyond_colour_texture_is_iron packed2x2
           (mkTextureData 1 1 [255; 200; 0] 3) 1 255);
    [cbn; lia | cbn; lia | reflexivity | lia].
Defined.

(** ** The LabPBR-to-packed pipeline on textures *)

Lemma smoothnessToBedrockRoughness_byte (v : Z) :
  0 <= v < 256 ->
  ToUint8 (BidirectionalWorkflowConverter.smoothnessToBedrockRoughness (Z2F v))
  = 255 - v.
Proof.
  intros Hv. apply Z.eqb_eq.
  apply (forallb_bytes (fun v =>
    ToUint8 (BidirectionalWorkflowConverter.smoothnessToBedrockRoughness
               (Z2F v)) =? 255 - v));
    [vm_compute; reflexivity | exact Hv].
Qed.

(** X14. [createMERTexture] converts pixel by pixel as the scalar converter
    does: the metallic byte is [f0ToMetallic] of the reflectance, the
    roughness byte is [smoothnessToBedrockRoughness] of the smoothness, that
    is 255 minus it; the emissive byte is 0 whatever the texture holds, and
    the alpha byte is the blue byte from 65 on and 255 below. *)
Theorem createMERTexture_pixel
    (specularTextureData normalTextureData : TextureData) (i : nat)
    (r g b : Z) :
  let merTexture :=
    BidirectionalConverter.createMERTexture
      (ChannelExtractor.extractChannels specularTextureData)
      (ChannelExtractor.extractChannels normalTextureData)
      (td_width specularTextureData) (td_height specularTextureData) in
  Buffer.wf (td_data specularTextureData) ->
  (i < td_width specularTextureData * td_height specularTextureData)%nat ->
  pixel specularTextureData i 0 = Some r ->
  pixel specularTextureData i 1 = Some g ->
  pixel specularTextureData i 2 = Some b ->
  pixel merTexture i 0
  = Some (ToUint8 (BidirectionalWorkflowConverter.f0ToMetallic (Z2F g)))
  /\ pixel merTexture i 1 = Some 0
  /\ pixel merTexture i 2
     = Some (ToUint8 (BidirectionalWorkflowConverter.smoothnessToBedrockRoughness
                        (Z2F r)))
  /\ pixel merTexture i 2 = Some (255 - r)
  /\ pixel merTexture i 3 = Some (if 65 <=? b then b else 255).
Proof.
  intros merTexture Hwf Hi Hr Hg Hb.
  pose proof (createMERTexture_spec
                (ChannelExtractor.extractChannels specularTextureData)
                (ChannelExtractor.extractChannels normalTextureData)
                (td_width specularTextureData)
                (td_height specularTextureData))
    as (_ & _ & Hc & _ & Hdata).
  fold merTexture in Hc, Hdata.
  destruct (Hdata i Hi) as (Dm & De & Dr & Da).
  pose proof (extractChannels_spec specularTextureData)
    as (_ & _ & Er & Eg & Eb & _).
  unfold pixel in *. rewrite Nat.add_0_r in *.
  assert (Hbyte : forall j v, td_data specularTextureData !! j = Some v ->
            0 <= v < 256).
  { intros j v Hv. eapply (Forall_lookup_1 _ _ _ _ Hwf); eauto. }
  assert (Gr : Buffer.get
                 (cd_r (ChannelExtractor.extractChannels specularTextureData)) i
               = Z2F r).
  { rewrite (filled_get _ _ _ _ Er Hi). unfold Buffer.get. rewrite Hr.
    rewrite ToUint8_Z2F by eauto. reflexivity. }
  assert (Gg : Buffer.get
                 (cd_g (ChannelExtractor.extractChannels specularTextureData)) i
               = Z2F g).
  { rewrite (filled_get _ _ _ _ Eg Hi). unfold Buffer.get. rewrite Hg.
    rewrite ToUint8_Z2F by eauto. reflexivity. }
  assert (Gb : Buffer.get
                 (cd_b (ChannelExtractor.extractChannels specularTextureData)) i
               = Z2F b).
  { rewrite (filled_get _ _ _ _ Eb Hi). unfold Buffer.get. rewrite Hb.
    rewrite ToUint8_Z2F by eauto. reflexivity. }
  rewrite Hc, Dm, De, Dr, Da.
  unfold MERPixel.metallic, MERPixel.emissive, MERPixel.roughness,
    MERPixel.subsurface.
  rewrite Gr, Gg, Gb.
  split_conj.
  - reflexivity.
  - reflexivity.
  - reflexivity.
  - f_equal.
    apply (smoothnessToBedrockRoughness_byte r). eauto.
  - f_equal. rewrite leb_65_byte by eauto.
    destruct (65 <=? b); [apply ToUint8_Z2F; eauto | reflexivity].
Qed.

(** X14 at a specular texture of one pixel. *)
Lemma createMERTexture_pixel_witness :
  let specularTextureData := mkTextureData 1 1 [200; 10; 100; 7] 4 in
  pixel (BidirectionalConverter.createMERTexture
           (ChannelExtractor.extractChannels specularTextureData)
           (ChannelExtractor.extractChannels specularTextureData) 1 1) 0 2
  = Some (255 - 200).
Proof.
  cbv zeta.
  apply (createMERTexture_pixel (mkTextureData 1 1 [200; 10; 100; 7] 4)
           (mkTextureData 1 1 [200; 10; 100; 7] 4) 0 200 10 100);
    [repeat constructor; lia | cbn; lia | reflexivity | reflexivity
    | reflexivity].
Defined.

Lemma forceOpaque_wf (td : TextureData) :
  TextureData_wf td -> TextureData_wf (BidirectionalConverter.forceOpaque td).
Proof.
  intros (Hlen & Hc & Hwf).
  assert (Hl : length (td_data (BidirectionalConverter.forceOpaque td))
               = length (td_data td)).
  { unfold BidirectionalConverter.forceOpaque. cbn [td_data].
    apply (for_loop_ind (fun _ data => length data = length (td_data td)));
      [reflexivity |].
    intros k data _ H. unfold Buffer.set. rewrite length_insert. exact H. }
  unfold TextureData_wf. split_conj.
  - rewrite Hl. exact Hlen.
  - exact Hc.
  - apply Forall_lookup_2. intros j v Hv.
    rewrite forceOpaque_lookup in Hv. case_decide.
    + injection Hv as <-. lia.
    + eapply (Forall_lookup_1 _ _ _ _ Hwf); eauto.
Qed.

Lemma createSpecularTexture_wf (mer : ChannelExtractor.MERChannels)
    (color : ChannelData) (w h : nat) :
  TextureData_wf (PBRConverter.createSpecularTexture mer color w h).
Proof.
  unfold PBRConverter.createSpecularTexture.
  destruct (for_loop _ _ _) as [[[p1 p2] p3] p4].
  apply combineChannels_wf.
Qed.

Lemma createMERTexture_wf (spec normal : ChannelData) (w h : nat) :
  TextureData_wf (BidirectionalConverter.createMERTexture spec normal w h).
Proof.
  unfold BidirectionalConverter.createMERTexture.
  destruct (for_loop _ _ _) as [[[p1 p2] p3] p4].
  apply combineChannels_wf.
Qed.

(** X15. The textures the two pipelines hand to the writer satisfy the
    PixelBuffer invariant, with four channels and the dimensions asked for,
    whatever buffers they are made from. *)
Theorem pipeline_outputs_well_formed :
  (forall (mer : ChannelExtractor.MERChannels) (color : ChannelData)
          (w h : nat),
     let specular := PBRConverter.createSpecularTexture mer color w h in
     TextureData_wf specular
     /\ td_width specular = w /\ td_height specular = h
     /\ td_channels specular = 4%nat)
  /\ (forall specularTextureData normalTextureData : TextureData,
        let merTexture :=
          fst (BidirectionalConverter.merStage specularTextureData
                 normalTextureData) in
        TextureData_wf merTexture
        /\ td_width merTexture = td_width specularTextureData
        /\ td_height merTexture = td_height specularTextureData
        /\ td_channels merTexture = 4%nat).
Proof.
  split.
  - intros mer color w h specular.
    pose proof (createSpecularTexture_spec mer color w h) as (Hw & Hh & Hc & _).
    split_conj; auto. apply createSpecularTexture_wf.
  - intros spec normal merTexture.
    pose proof (createMERTexture_spec
                  (ChannelExtractor.extractChannels spec)
                  (ChannelExtractor.extractChannels normal)
                  (td_width spec) (td_height spec)) as (Hw & Hh & Hc & _).
    pose proof (createMERTexture_wf
                  (ChannelExtractor.extractChannels spec)
                  (ChannelExtractor.extractChannels normal)
                  (td_width spec) (td_height spec)) as Hwf.
    unfold merTexture, BidirectionalConverter.merStage. cbn [fst].
    destruct (negb _).
    + split_conj; auto. apply forceOpaque_wf. exact Hwf.
    + split_conj; auto.
Qed.

(** X16. Without a subsurface pixel the forcing step writes 255 over the last
    quarter of the interleaved buffer and leaves the rest as
    [createMERTexture] made it: every pixel from three quarters of the image
    on has its metallic, emissive and roughness bytes replaced by 255. *)
Theorem forcing_step_overwrites_last_quarter
    (specularTextureData normalTextureData : TextureData) :
  let n := (td_width specularTextureData * td_height specularTextureData)%nat in
  let blue := cd_b (ChannelExtractor.extractChannels specularTextureData) in
  let created :=
    BidirectionalConverter.createMERTexture
      (ChannelExtractor.extractChannels specularTextureData)
      (ChannelExtractor.extractChannels normalTextureData)
      (td_width specularTextureData) (td_height specularTextureData) in
  let saved :=
    fst (BidirectionalConverter.merStage specularTextureData
           normalTextureData) in
  ~ has_subsurface_pixel blue n ->
  (forall j, (j < n * 3)%nat -> td_data saved !! j = td_data created !! j)
  /\ (forall j, (n * 3 <= j < n * 4)%nat -> td_data saved !! j = Some 255)
  /\ (forall i c, (i < n)%nat -> (n * 3 <= i * 4)%nat -> (c < 4)%nat ->
        pixel saved i c = Some 255).
Proof.
  intros n blue created saved Hnone.
  pose proof (scanSubsurface_bytes specularTextureData) as Hscan.
  cbv zeta in Hscan. fold n blue in Hscan.
  pose proof (createMERTexture_spec
                (ChannelExtractor.extractChannels specularTextureData)
                (ChannelExtractor.extractChannels normalTextureData)
                (td_width specularTextureData)
                (td_height specularTextureData))
    as (Hw & Hh & Hc & Hlen & _).
  fold created n in Hw, Hh, Hc, Hlen.
  assert (Hsaved : saved = BidirectionalConverter.forceOpaque created).
  { unfold saved, BidirectionalConverter.merStage. cbn [fst]. fold n.
    destruct (BidirectionalConverter.scanSubsurface _ n);
      [exfalso; apply Hnone, Hscan; reflexivity | reflexivity]. }
  assert (Hforced : forall j, (n * 3 <= j < n * 4)%nat ->
            td_data saved !! j = Some 255).
  { intros j Hj. rewrite Hsaved, forceOpaque_lookup, Hw, Hh. fold n.
    case_decide; [reflexivity | lia]. }
  split_conj.
  - intros j Hj. rewrite Hsaved, forceOpaque_lookup, Hw, Hh. fold n.
    case_decide; [lia | reflexivity].
  - exact Hforced.
  - intros i c Hi Hq Hc4. unfold pixel.
    replace (td_channels saved) with 4%nat
      by (rewrite Hsaved; symmetry; exact Hc).
    apply Hforced. lia.
Qed.

(** X16 at the 2x2 specular texture of zeros. *)
Lemma forcing_step_overwrites_last_quarter_witness :
  let specularTextureData := mkTextureData 2 2 (replicate 16 0) 4 in
  pixel (fst (BidirectionalConverter.merStage specularTextureData
                specularTextureData)) 3 0 = Some 255.
Proof.
  cbv zeta.
  assert (Hnone :
    ~ has_subsurface_pixel
        (cd_b (ChannelExtractor.extractChannels
                 (mkTextureData 2 2 (replicate 16 0) 4))) (2 * 2)).
  { intros (i & v & Hi & Hv & Hge). vm_compute in Hv.
    do 4 (destruct i as [| i]; [injection Hv as <-; lia |]). lia. }
  pose proof (forcing_step_overwrites_last_quarter
                (mkTextureData 2 2 (replicate 16 0) 4)
                (mkTextureData 2 2 (replicate 16 0) 4) Hnone)
    as (_ & _ & H).
  apply H; cbn; lia.
Defined.

(** ** bidirectional/normalMapProcessor.ts *)

Lemma for_loop_ext {St : Type} (n : nat) (body body' : nat -> St -> St)
    (s : St) :
  (forall i st, (i < n)%nat -> body i st = body' i st) ->
  for_loop n body s = for_loop n body' s.
Proof.
  intros H. induction n as [| n IH]; [reflexivity |].
  rewrite !for_loop_S, IH by (intros; apply H; lia). apply H. lia.
Qed.

(** A loop that stores [f 0], ..., [f (k - 1)] from the offset [off] on. *)
Lemma for_loop_store (k off : nat) (f : nat -> number) (data : Buffer.t) :
  let data' := for_loop k (fun c data => Buffer.set data (off + c) (f c)) data in
  length data' = length data
  /\ forall j,
       data' !! j
       = if decide ((off <= j < off + k)%nat /\ (j < length data)%nat)
         then Some (ToUint8 (f (j - off)%nat))
         else data !! j.
Proof.
  induction k as [| k [IHlen IH]]; cbv zeta.
  - split; [reflexivity |]. intros j. case_decide; [lia | reflexivity].
  - rewrite for_loop_S. unfold Buffer.set at 1 3.
    rewrite length_insert. split; [exact IHlen |].
    intros j. rewrite list_lookup_insert, IHlen, IH.
    repeat case_decide; try lia; try reflexivity.
    do 3 f_equal. lia.
Qed.

Lemma bakeAOIntoBaseColor_spec (aoData : Buffer.t) (base : TextureData) :
  let out := NormalMapProcessorImpl.bakeAOIntoBaseColor aoData base in
  let n := (td_width base * td_height base)%nat in
  let ch := td_channels base in
  td_width out = td_width base /\ td_height out = td_height base
  /\ td_channels out = ch
  /\ length (td_data out) = (n * ch)%nat
  /\ forall i c, (i < n)%nat -> (c < ch)%nat ->
       td_data out !! (i * ch + c)%nat = Some (ToUint8 (baked aoData base i c)).
Proof.
  intros out n ch. unfold out, NormalMapProcessorImpl.bakeAOIntoBaseColor.
  cbn [td_width td_height td_channels td_data]. fold n ch.
  split_conj; try reflexivity.
  - apply (for_loop_ind (fun _ data => length data = (n * ch)%nat)).
    + apply length_replicate.
    + intros k data _ H.
      apply (for_loop_ind (fun _ data => length data = (n * ch)%nat));
        [exact H |].
      intros c d _ Hd. destruct (c <? 3)%nat; unfold Buffer.set;
        rewrite length_insert; exact Hd.
  - apply (for_loop_ind (fun k data =>
      length data = (n * ch)%nat
      /\ forall i c, (i < k)%nat -> (c < ch)%nat ->
           data !! (i * ch + c)%nat = Some (ToUint8 (baked aoData base i c)))).
    + split; [apply length_replicate | intros; lia].
    + intros k data Hk [Hlen Hdata].
      rewrite (for_loop_ext ch _
                 (fun c data =>
                    Buffer.set data (k * ch + c) (baked aoData base k c))).
      2:{ intros c st _. unfold baked. fold ch.
          destruct (c <? 3)%nat; reflexivity. }
      pose proof (for_loop_store ch (k * ch) (baked aoData base k) data)
        as [Slen Sdata].
      cbv zeta in Slen, Sdata. split; [lia |].
      intros i c Hi Hc. rewrite Sdata. case_decide.
      * assert (i = k) as -> by nia.
        do 3 f_equal. lia.
      * apply Hdata; [| exact Hc].
        destruct (decide (i = k)) as [-> | Hne]; [| lia].
        exfalso. apply H. nia.
Qed.

Lemma baked_byte (ao v : Z) :
  0 <= ao < 256 -> 0 <= v < 256 ->
  let out :=
    ToUint8 (Math_round (Z2F v * (1 - (1 - (Z2F ao / 255)) * 0.5))%float) in
  out <= v /\ v <= 2 * out /\ (ao = 255 -> out = v).
Proof.
  intros Hao Hv.
  pose proof (forallb_bytes2 (fun ao v =>
    let x := (Z2F v * (1 - (1 - (Z2F ao / 255)) * 0.5))%float in
    let k := (v * (255 + ao) + 255) / 510 in
    let ok (k : Z) :=
      (0 <=? k) && (k <=? v) && (v <=? 2 * k)
      && (negb (ao =? 255) || (k =? v)) in
    if rounds_to x k then ok k else rounds_to x (k - 1) && ok (k - 1))) as H.
  specialize (H ltac:(vm_compute; reflexivity) ao v Hao Hv).
  cbv beta zeta in H |- *.
  set (x := (Z2F v * _)%float) in *.
  assert (Hk : exists k,
            Math_round x = Z2F k /\ 0 <= k /\ k <= v /\ v <= 2 * k
            /\ (ao = 255 -> k = v)).
  { destruct (rounds_to x _) eqn:E1.
    - apply rounds_to_sound in E1. eexists. split; [exact E1 |].
      rewrite !andb_true_iff, !Z.leb_le in H. destruct H as [[[H0 H1] H2] H3].
      split_conj; auto.
      intros ->. cbn [Z.eqb Pos.eqb negb orb] in H3. apply Z.eqb_eq, H3.
    - apply andb_true_iff in H. destruct H as [E2 H].
      apply rounds_to_sound in E2. eexists. split; [exact E2 |].
      rewrite !andb_true_iff, !Z.leb_le in H. destruct H as [[[H0 H1] H2] H3].
      split_conj; auto.
      intros ->. cbn [Z.eqb Pos.eqb negb orb] in H3. apply Z.eqb_eq, H3. }
  destruct Hk as (k & -> & H0 & H1 & H2 & H3).
  rewrite ToUint8_Z2F by lia. auto.
Qed.

Lemma baked_without_ao (v : Z) :
  0 <= v < 256 ->
  ToUint8 (Math_round (Z2F v * (1 - (1 - (NaN / 255)) * 0.5))%float) = 0.
Proof.
  intros Hv. apply Z.eqb_eq.
  apply (forallb_bytes (fun v =>
    ToUint8 (Math_round (Z2F v * (1 - (1 - (NaN / 255)) * 0.5))%float) =? 0));
    [vm_compute; reflexivity | exact Hv].
Qed.

(** X17. Baking ambient occlusion into a base colour keeps the size, the
    channel count and the alpha bytes; a colour byte is never made brighter
    and never darker than half its value, and is kept as it is where the
    occlusion byte is 255; where the occlusion plane has no entry for the
    pixel the colour becomes 0. *)
Theorem bakeAOIntoBaseColor_darkens (aoData : Buffer.t)
    (baseColorData : TextureData) (i c : nat) (v : Z) :
  let out := NormalMapProcessorImpl.bakeAOIntoBaseColor aoData baseColorData in
  Buffer.wf aoData -> Buffer.wf (td_data baseColorData) ->
  (i < td_width baseColorData * td_height baseColorData)%nat ->
  (c < td_channels baseColorData)%nat ->
  pixel baseColorData i c = Some v ->
  td_width out = td_width baseColorData
  /\ td_height out = td_height baseColorData
  /\ td_channels out = td_channels baseColorData
  /\ exists b : Z,
       pixel out i c = Some b
       /\ ((3 <= c)%nat -> b = v)
       /\ ((c < 3)%nat ->
           match aoData !! i with
           | Some ao => b <= v /\ v <= 2 * b /\ (ao = 255 -> b = v)
           | None => b = 0
           end).
Proof.
  intros out Hao Hwf Hi Hc Hv.
  pose proof (bakeAOIntoBaseColor_spec aoData baseColorData)
    as (Hw & Hh & Hch & _ & Hdata).
  fold out in Hw, Hh, Hch, Hdata.
  split_conj; auto.
  assert (Bv : 0 <= v < 256) by (eapply (Forall_lookup_1 _ _ _ _ Hwf); eauto).
  unfold pixel in *. rewrite Hch, (Hdata i c Hi Hc).
  eexists. split; [reflexivity |].
  unfold baked, Buffer.get. rewrite Hv.
  split.
  - intros H3. destruct (Nat.ltb_spec c 3); [lia |]. apply ToUint8_Z2F, Bv.
  - intros H3. destruct (Nat.ltb_spec c 3); [| lia].
    destruct (aoData !! i) as [ao |] eqn:Eao.
    + apply baked_byte; [| exact Bv].
      eapply (Forall_lookup_1 _ _ _ _ Hao); eauto.
    + apply baked_without_ao, Bv.
Qed.

(** X17 at one RGBA pixel under full occlusion. *)
Lemma bakeAOIntoBaseColor_darkens_witness :
  exists b : Z,
    pixel (NormalMapProcessorImpl.bakeAOIntoBaseColor [0]
             (mkTextureData 1 1 [200; 100; 50; 77] 4)) 0 0 = Some b
    /\ ((3 <= 0)%nat -> b = 200)
    /\ ((0 < 3)%nat ->
        match [0] !! 0%nat with
        | Some ao => b <= 200 /\ 200 <= 2 * b /\ (ao = 255 -> b = 200)
        | None => b = 0
        end).
Proof.
  apply (bakeAOIntoBaseColor_darkens [0]
           (mkTextureData 1 1 [200; 100; 50; 77] 4) 0 0 200);
    [repeat constructor; lia | repeat constructor; lia | cbn; lia | cbn; lia
    | reflexivity].
Defined.

(** X18. [extractHeightMap] throws exactly when the normal texture has not
    four channels; with four it returns a single-channel texture of the same
    size that holds the alpha byte of every pixel, and 0 where the buffer is
    too short to have one. *)
Theorem extractHeightMap_alpha_plane (normalTextureData : TextureData) :
  let n := (td_width normalTextureData * td_height normalTextureData)%nat in
  (td_channels normalTextureData <> 4%nat ->
   NormalMapProcessorImpl.extractHeightMap normalTextureData
   = Throw
       "Normal texture does not have an alpha channel for heightmap extraction")
  /\ (td_channels normalTextureData = 4%nat ->
      Buffer.wf (td_data normalTextureData) ->
      exists heightmapData : Buffer.t,
        NormalMapProcessorImpl.extractHeightMap normalTextureData
        = Ok (mkTextureData (td_width normalTextureData)
                (td_height normalTextureData) heightmapData 1)
        /\ length heightmapData = n
        /\ forall i, (i < n)%nat ->
             heightmapData !! i
             = Some (default 0 (pixel normalTextureData i 3))).
Proof.
  intros n. unfold NormalMapProcessorImpl.extractHeightMap.
  pose proof (extractChannels_spec normalTextureData)
    as (_ & _ & _ & _ & _ & Ea).
  fold n in Ea.
  split.
  - intros Hc. destruct (Nat.eqb_spec (td_channels normalTextureData) 4);
      [contradiction | reflexivity].
  - intros Hc Hwf. rewrite (proj2 (Nat.eqb_eq _ _) Hc). cbn [negb].
    destruct (cd_a (ChannelExtractor.extractChannels normalTextureData))
      as [a |]; [| contradiction].
    destruct Ea as [_ Ea]. fold n.
    eexists. split; [reflexivity |].
    pose proof (for_loop_store n 0 (Buffer.get a) (Buffer.alloc n))
      as [Slen Sdata].
    cbv zeta in Slen, Sdata. cbn [Nat.add] in Slen, Sdata.
    unfold Buffer.alloc in *. rewrite length_replicate in *.
    split; [exact Slen |].
    intros i Hi. rewrite Sdata. case_decide; [| lia].
    rewrite Nat.sub_0_r, (filled_get _ _ _ _ Ea Hi), store_load_store.
    rewrite ToUint8_get by exact Hwf. unfold pixel. rewrite Hc. reflexivity.
Qed.

(** What [reconstructNormalMap] returns: an RGB buffer whose pixel [i]
    holds the red and green bytes of the pixel and the blue byte
    reconstructed from them. *)
Lemma createDirectXNormalMap_spec (normalX normalY : Buffer.t) (w h : nat) :
  let out := NormalMapProcessorImpl.createDirectXNormalMap normalX normalY w h in
  td_width out = w /\ td_height out = h /\ td_channels out = 3%nat
  /\ length (td_data out) = (w * h * 3)%nat
  /\ forall i, (i < w * h)%nat ->
       td_data out !! (i * 3)%nat = Some (ToUint8 (Buffer.get normalX i))
       /\ td_data out !! (i * 3 + 1)%nat = Some (ToUint8 (Buffer.get normalY i))
       /\ td_data out !! (i * 3 + 2)%nat
          = Some (ToUint8
                    (BidirectionalWorkflowConverter.reconstructNormalMapBlueChannel
                       (Buffer.get normalX i) (Buffer.get normalY i))).
Proof.
  intros out. unfold out, NormalMapProcessorImpl.createDirectXNormalMap.
  cbn [td_width td_height td_channels td_data].
  set (n := (w * h)%nat).
  split_conj; try reflexivity.
  - apply (for_loop_ind (fun _ data => length data = (n * 3)%nat)).
    + apply length_replicate.
    + intros k data _ H. unfold Buffer.set. rewrite !length_insert. exact H.
  - apply (for_loop_ind (fun k data =>
      length data = (n * 3)%nat
      /\ forall i, (i < k)%nat ->
           data !! (i * 3)%nat = Some (ToUint8 (Buffer.get normalX i))
           /\ data !! (i * 3 + 1)%nat = Some (ToUint8 (Buffer.get normalY i))
           /\ data !! (i * 3 + 2)%nat
              = Some (ToUint8
                        (BidirectionalWorkflowConverter.reconstructNormalMapBlueChannel
                           (Buffer.get normalX i) (Buffer.get normalY i))))).
    + split; [apply length_replicate | intros; lia].
    + intros k data Hk [Hlen Hdata]. cbv zeta.
      split; [unfold Buffer.set; rewrite !length_insert; exact Hlen |].
      intros i Hi.
      destruct (decide (i = k)) as [-> | Hne].
      * split_conj; lookup_stores.
      * destruct (Hdata i ltac:(lia)) as (H0 & H1 & H2).
        split_conj; lookup_stores; assumption.
Qed.

(** X19. [reconstructNormalMap] is [createDirectXNormalMap] on the red and
    green planes of the texture: it returns an RGB buffer of the same size
    that satisfies the PixelBuffer invariant, keeps the red and green bytes
    of every pixel and writes the blue byte that
    [reconstructNormalMapBlueChannel] computes from them. *)
Theorem reconstructNormalMap_pixels (normalTextureData : TextureData)
    (i : nat) (r g : Z) :
  let out := NormalMapProcessorImpl.reconstructNormalMap normalTextureData in
  let ch := ChannelExtractor.extractChannels normalTextureData in
  Buffer.wf (td_data normalTextureData) ->
  (i < td_width normalTextureData * td_height normalTextureData)%nat ->
  pixel normalTextureData i 0 = Some r ->
  pixel normalTextureData i 1 = Some g ->
  out = NormalMapProcessorImpl.createDirectXNormalMap (cd_r ch) (cd_g ch)
          (td_width normalTextureData) (td_height normalTextureData)
  /\ TextureData_wf out /\ td_channels out = 3%nat
  /\ td_width out = td_width normalTextureData
  /\ td_height out = td_height normalTextureData
  /\ pixel out i 0 = Some r /\ pixel out i 1 = Some g
  /\ pixel out i 2
     = Some (ToUint8
               (BidirectionalWorkflowConverter.reconstructNormalMapBlueChannel
                  (Z2F r) (Z2F g))).
Proof.
  intros out ch Hwf Hi Hr Hg.
  assert (Hout : out = NormalMapProcessorImpl.createDirectXNormalMap
                         (cd_r ch) (cd_g ch) (td_width normalTextureData)
                         (td_height normalTextureData)) by reflexivity.
  split; [exact Hout |].
  pose proof (createDirectXNormalMap_spec (cd_r ch) (cd_g ch)
                (td_width normalTextureData) (td_height normalTextureData))
    as (Hw & Hh & Hc & Hlen & Hdata).
  rewrite <- Hout in Hw, Hh, Hc, Hlen, Hdata.
  pose proof (extractChannels_spec normalTextureData)
    as (_ & _ & Er & Eg & _).
  fold ch in Er, Eg.
  assert (Bytes : forall j v, td_data normalTextureData !! j = Some v ->
            0 <= v < 256).
  { intros j v Hv. eapply (Forall_lookup_1 _ _ _ _ Hwf); eauto. }
  unfold pixel in *. rewrite Nat.add_0_r in *.
  assert (Gr : Buffer.get (cd_r ch) i = Z2F r).
  { rewrite (filled_get _ _ _ _ Er Hi). unfold Buffer.get. rewrite Hr.
    rewrite ToUint8_Z2F by eauto. reflexivity. }
  assert (Gg : Buffer.get (cd_g ch) i = Z2F g).
  { rewrite (filled_get _ _ _ _ Eg Hi). unfold Buffer.get. rewrite Hg.
    rewrite ToUint8_Z2F by eauto. reflexivity. }
  destruct (Hdata i Hi) as (D0 & D1 & D2). rewrite Gr, Gg in *.
  rewrite (ToUint8_Z2F r) in D0 by eauto.
  rewrite (ToUint8_Z2F g) in D1 by eauto.
  split_conj; auto; try (rewrite Hc; assumption).
  unfold TextureData_wf. rewrite Hw, Hh, Hc. split_conj; auto.
  apply (stored_wf _ (td_width normalTextureData * td_height normalTextureData)
           3
           (fun i c =>
              match c with
              | 0%nat => Buffer.get (cd_r ch) i
              | 1%nat => Buffer.get (cd_g ch) i
              | _ => BidirectionalWorkflowConverter.reconstructNormalMapBlueChannel
                       (Buffer.get (cd_r ch) i) (Buffer.get (cd_g ch) i)
              end)); [exact Hlen |].
  intros i' c Hi' Hc'. destruct (Hdata i' Hi') as (E0 & E1 & E2).
  destruct c as [| [| [| c]]]; try lia; try assumption.
  rewrite Nat.add_0_r. exact E0.
Qed.

(** X19 at a normal texture of one pixel. *)
Lemma reconstructNormalMap_pixels_witness :
  pixel (NormalMapProcessorImpl.reconstructNormalMap
           (mkTextureData 1 1 [0; 0; 9; 77] 4)) 0 2
  = Some (ToUint8
            (BidirectionalWorkflowConverter.reconstructNormalMapBlueChannel
               (Z2F 0) (Z2F 0))).
Proof.
  apply (reconstructNormalMap_pixels (mkTextureData 1 1 [0; 0; 9; 77] 4)
           0 0 0);
    [repeat constructor; lia | cbn; lia | reflexivity | reflexivity].
Defined.

(** X20. The metal codes across the two converters.  The code
    [getPredefinedMetal] writes for a colour is always resolved by
    [getPredefinedMetalType]; on bytes [metallicToF0] gives a value that
    [isPredefinedMetal] accepts exactly when [isMetallic] holds; from the
    metallic byte 240 on that value is above 237, which
    [getPredefinedMetalType] does not resolve. *)
Theorem predefined_metal_codes_across_converters :
  (forall r g b : number,
     BidirectionalWorkflowConverter.getPredefinedMetalType
       (WorkflowConverter.getPredefinedMetal r g b)
     = Some (WorkflowConverter.getPredefinedMetal r g b))
  /\ (forall m : Z, 0 <= m <= 255 ->
        BidirectionalWorkflowConverter.isPredefinedMetal
          (WorkflowConverter.metallicToF0 (Z2F m))
        = WorkflowConverter.isMetallic (Z2F m))
  /\ (forall m : Z, 240 <= m <= 255 ->
        BidirectionalWorkflowConverter.isPredefinedMetal
          (WorkflowConverter.metallicToF0 (Z2F m)) = true
        /\ BidirectionalWorkflowConverter.getPredefinedMetalType
             (WorkflowConverter.metallicToF0 (Z2F m)) = None).
Proof.
  split_conj.
  - intros r g b.
    destruct (getPredefinedMetal_cases r g b) as [H | [H | [H | H]]];
      rewrite H; vm_compute; reflexivity.
  - intros m Hm. apply eqb_prop.
    apply (forallb_bytes (fun m =>
      Bool.eqb
        (BidirectionalWorkflowConverter.isPredefinedMetal
           (WorkflowConverter.metallicToF0 (Z2F m)))
        (WorkflowConverter.isMetallic (Z2F m))));
      [vm_compute; reflexivity | lia].
  - intros m Hm.
    pose proof (forallb_bytes (fun m =>
      negb (240 <=? m)
      || BidirectionalWorkflowConverter.isPredefinedMetal
           (WorkflowConverter.metallicToF0 (Z2F m))
         && match BidirectionalWorkflowConverter.getPredefinedMetalType
                    (WorkflowConverter.metallicToF0 (Z2F m)) with
            | None => true
            | Some _ => false
            end)) as H.
    specialize (H ltac:(vm_compute; reflexivity) m ltac:(lia)). cbv beta in H.
    destruct (Z.leb_spec 240 m); [| lia]. cbn [negb orb] in H.
    apply andb_true_iff in H. destruct H as [H1 H2].
    split; [exact H1 |].
    destruct (BidirectionalWorkflowConverter.getPredefinedMetalType _);
      [discriminate | reflexivity].
Qed.

(** ** bidirectional/formatDetector.ts: what a detection result holds *)

(** The result of [classify] field by field. *)
Lemma classify_fields (p : FormatDetector.Probe) :
  let r := FormatDetector.classify p in
  (forall path, FormatDetector.baseTexturePath r = Some path ->
     FormatDetector.hasBaseTexture p = true /\ path = FormatDetector.basePath p)
  /\ (forall path, FormatDetector.merTexturePath r = Some path ->
        FormatDetector.hasMERTexture p = true
        /\ path = FormatDetector.merPath p
        /\ FormatDetector.format r = FormatDetector.Bedrock)
  /\ (forall path, FormatDetector.specularTexturePath r = Some path ->
        FormatDetector.hasSpecularTexture p = true
        /\ path = FormatDetector.specularPath p
        /\ FormatDetector.format r = FormatDetector.LabPBR)
  /\ (forall path, FormatDetector.normalTexturePath r = Some path ->
        FormatDetector.hasNormalTexture p = true
        /\ path = FormatDetector.normalPath p
        /\ FormatDetector.format r = FormatDetector.LabPBR)
  /\ (FormatDetector.format r = FormatDetector.Unknown ->
      r = FormatDetector.mkDetectionResult FormatDetector.Unknown None None
            None None 0%float)
  /\ (FormatDetector.format r <> FormatDetector.Unknown ->
      (0.1 <=? FormatDetector.confidence r)%float = true)
  /\ (FormatDetector.confidence r <=? 0.8)%float = true.
Proof.
  destruct p as [isS isN isM pb ps pn pm hB hS hN hM].
  unfold FormatDetector.classify, FormatDetector.scores.
  cbn [FormatDetector.isLabPBRSpecular FormatDetector.isLabPBRNormal
       FormatDetector.isBedrockMER FormatDetector.hasBaseTexture
       FormatDetector.hasSpecularTexture FormatDetector.hasNormalTexture
       FormatDetector.hasMERTexture FormatDetector.basePath
       FormatDetector.merPath FormatDetector.specularPath
       FormatDetector.normalPath].
  destruct isS, isN, isM, hB, hS, hN, hM; vm_compute;
    repeat split; intros; try discriminate; try reflexivity; try congruence.
Qed.

Lemma detectFormat_unknown_confidence (node : Node) (w : World node)
    (texturePath : string) :
  FormatDetector.format (FormatDetector.detectFormat node w texturePath)
  = FormatDetector.Unknown ->
  FormatDetector.confidence (FormatDetector.detectFormat node w texturePath)
  = 0%float.
Proof.
  intros Hu.
  pose proof (classify_fields (FormatDetector.probe node w texturePath))
    as (_ & _ & _ & _ & H & _).
  unfold FormatDetector.detectFormat in *. rewrite (H Hu). reflexivity.
Qed.

(** X21. Every path a detection result reports is a file that exists; a
    Bedrock result reports no specular or normal path and a LabPBR result no
    packed path; an [Unknown] result reports nothing and has confidence 0;
    any other result has a confidence between 0.1 and 0.8. *)
Theorem detectFormat_reports_existing_files (node : Node) (w : World node)
    (texturePath : string) :
  let r := FormatDetector.detectFormat node w texturePath in
  (forall path,
     FormatDetector.baseTexturePath r = Some path
     \/ FormatDetector.merTexturePath r = Some path
     \/ FormatDetector.specularTexturePath r = Some path
     \/ FormatDetector.normalTexturePath r = Some path ->
     fs_existsSync node w path = true)
  /\ (FormatDetector.format r = FormatDetector.Bedrock ->
      FormatDetector.specularTexturePath r = None
      /\ FormatDetector.normalTexturePath r = None)
  /\ (FormatDetector.format r = FormatDetector.LabPBR ->
      FormatDetector.merTexturePath r = None)
  /\ (FormatDetector.format r = FormatDetector.Unknown ->
      r = FormatDetector.mkDetectionResult FormatDetector.Unknown None None
            None None 0%float)
  /\ (FormatDetector.format r <> FormatDetector.Unknown ->
      (0.1 <=? FormatDetector.confidence r)%float = true)
  /\ (FormatDetector.confidence r <=? 0.8)%float = true.
Proof.
  intros r.
  pose proof (classify_fields (FormatDetector.probe node w texturePath))
    as (Hb & Hm & Hs & Hn & Hu & Hlo & Hhi).
  fold (FormatDetector.detectFormat node w texturePath) in *. fold r in Hb, Hm, Hs, Hn, Hu, Hlo, Hhi.
  split_conj; auto.
  - intros path [H | [H | [H | H]]].
    + destruct (Hb path H) as [He ->]. exact He.
    + destruct (Hm path H) as (He & -> & _). exact He.
    + destruct (Hs path H) as (He & -> & _). exact He.
    + destruct (Hn path H) as (He & -> & _). exact He.
  - intros Hf. split.
    + destruct (FormatDetector.specularTexturePath r) as [path |] eqn:E;
        [| reflexivity].
      destruct (Hs path eq_refl) as (_ & _ & Hl). congruence.
    + destruct (FormatDetector.normalTexturePath r) as [path |] eqn:E;
        [| reflexivity].
      destruct (Hn path eq_refl) as (_ & _ & Hl). congruence.
  - intros Hf.
    destruct (FormatDetector.merTexturePath r) as [path |] eqn:E;
      [| reflexivity].
    destruct (Hm path eq_refl) as (_ & _ & Hl). congruence.
Qed.

(** ** bidirectional/formatDetector.ts: scanning a directory *)

Section ScanProperties.
Context (node : Node).
Context (fs_readdirSync : World node -> string -> outcome (list string)).
Context (w : World node) (directoryPath : string).

Lemma scanFile_entries (files : list string)
    (acc : gmap string FormatDetector.DetectionResult) (all : list string) :
  files ⊆ all ->
  (forall key r, acc !! key = Some r -> scanned node w directoryPath all key r) ->
  forall key r,
    foldl (FormatDetectorScan.scanFile node w directoryPath) acc files !! key
    = Some r ->
    scanned node w directoryPath all key r.
Proof.
  revert acc. induction files as [| file files IH]; intros acc Hsub Hacc.
  - exact Hacc.
  - cbn [foldl]. apply IH; [set_solver |].
    intros key r. unfold FormatDetectorScan.scanFile.
    destruct (negb (JSString.endsWith file ".png")
              && negb (JSString.endsWith file ".jpg")
              && negb (JSString.endsWith file ".tga")) eqn:Eimg;
      [apply Hacc |].
    destruct (0.3 <? _)%float eqn:Econf; [| apply Hacc].
    fold (scanKey node file).
    destruct (decide (key = scanKey node file)) as [-> | Hne].
    + rewrite lookup_insert_eq. intros [= <-].
      exists file. split_conj; auto; [set_solver |].
      unfold isTextureFile.
      destruct (JSString.endsWith file ".png"),
        (JSString.endsWith file ".jpg"), (JSString.endsWith file ".tga");
        try reflexivity; discriminate.
    + rewrite lookup_insert_ne by congruence. apply Hacc.
Qed.

Lemma scanFile_skips (files : list string)
    (acc : gmap string FormatDetector.DetectionResult) :
  foldl (FormatDetectorScan.scanFile node w directoryPath) acc files
  = foldl (FormatDetectorScan.scanFile node w directoryPath) acc
      (List.filter isTextureFile files).
Proof.
  revert acc. induction files as [| file files IH]; intros acc;
    [reflexivity |].
  cbn [foldl List.filter].
  destruct (isTextureFile file) eqn:E.
  - cbn [foldl]. apply IH.
  - rewrite IH. f_equal. unfold FormatDetectorScan.scanFile.
    unfold isTextureFile in E.
    destruct (JSString.endsWith file ".png"),
      (JSString.endsWith file ".jpg"), (JSString.endsWith file ".tga");
      try discriminate. reflexivity.
Qed.

(** X22. The scan of a directory that does not exist is empty and does not
    list it.  Otherwise every entry it returns is the detection result of a
    texture file of the listing, stored under that file's key, with a
    confidence above 0.3 and hence a format other than [Unknown]; the files
    of the listing that end in none of [.png], [.jpg], [.tga] do not change
    the answer. *)
Theorem detectFormatInDirectory_entries :
  (fs_existsSync node w directoryPath = false ->
   FormatDetectorScan.detectFormatInDirectory node fs_readdirSync w
     directoryPath = Ok ∅)
  /\ (forall files results,
        fs_readdirSync w directoryPath = Ok files ->
        FormatDetectorScan.detectFormatInDirectory node fs_readdirSync w
          directoryPath = Ok results ->
        forall key r, results !! key = Some r ->
          scanned node w directoryPath files key r
          /\ FormatDetector.format r <> FormatDetector.Unknown)
  /\ (forall files,
        fs_existsSync node w directoryPath = true ->
        fs_readdirSync w directoryPath = Ok files ->
        FormatDetectorScan.detectFormatInDirectory node fs_readdirSync w
          directoryPath
        = Ok (foldl (FormatDetectorScan.scanFile node w directoryPath) ∅
                (List.filter isTextureFile files))).
Proof.
  unfold FormatDetectorScan.detectFormatInDirectory. split_conj.
  - intros ->. reflexivity.
  - intros files results Hfiles Hres key r Hkey.
    assert (Hs : scanned node w directoryPath files key r).
    { destruct (fs_existsSync node w directoryPath); cbn [negb] in Hres.
      - rewrite Hfiles in Hres. injection Hres as <-.
        eapply scanFile_entries; [| | exact Hkey]; [set_solver |].
        intros k r0 H. rewrite lookup_empty in H. discriminate.
      - injection Hres as <-. rewrite lookup_empty in Hkey. discriminate. }
    split; [exact Hs |].
    destruct Hs as (file & _ & _ & _ & -> & Hconf).
    intros Hu.
    pose proof (detectFormat_unknown_confidence node w
                  (path_join node directoryPath file) Hu) as H0.
    rewrite H0 in Hconf. vm_compute in Hconf. discriminate.
  - intros files -> ->. cbn [negb]. f_equal. apply scanFile_skips.
Qed.

End ScanProperties.

(** ** textureLoader.ts and textureWriter.ts *)

Lemma first_existing_spec (node : Node) (w : World node) (dir : string)
    (names : list string) :
  match TextureLoader.first_existing node w dir names with
  | Some colorPath =>
      fs_existsSync node w colorPath = true
      /\ exists k name,
           names !! k = Some name /\ colorPath = path_join node dir name
           /\ forall j other, (j < k)%nat -> names !! j = Some other ->
                fs_existsSync node w (path_join node dir other) = false
  | None =>
      forall name, name ∈ names ->
        fs_existsSync node w (path_join node dir name) = false
  end.
Proof.
  induction names as [| name names IH]; cbn [TextureLoader.first_existing].
  - intros name H. set_solver.
  - destruct (fs_existsSync node w (path_join node dir name)) eqn:E.
    + split; [exact E |]. exists 0%nat, name. split_conj; try reflexivity.
      intros j other Hj. lia.
    + destruct (TextureLoader.first_existing node w dir names) as [p |].
      * destruct IH as (He & k & name' & Hk & -> & Hfirst).
        split; [exact He |]. exists (S k), name'. split_conj; auto.
        intros [| j] other Hj Ho.
        -- injection Ho as <-. exact E.
        -- apply (Hfirst j); [lia | exact Ho].
      * intros name' Hin. apply elem_of_cons in Hin as [-> | Hin]; auto.
Qed.

(** X23. [findColorTexture] answers with the first of its three candidates,
    the plain name, then [_color], then [_diffuse], that exists beside the
    packed texture; it answers [null] exactly when none of them exists. *)
Theorem findColorTexture_first_candidate (node : Node) (w : World node)
    (merFilePath : string) :
  let dir := path_dirname node merFilePath in
  let baseName :=
    JSString.replace "_mer" EmptyString
      (JSString.replace "_mer.png" EmptyString
         (String_toLowerCase node (path_basename node merFilePath))) in
  let candidates :=
    [ path_join node dir (baseName +:+ ".png");
      path_join node dir (baseName +:+ "_color.png");
      path_join node dir (baseName +:+ "_diffuse.png") ] in
  match TextureLoader.findColorTexture node w merFilePath with
  | Some colorPath =>
      fs_existsSync node w colorPath = true
      /\ exists k,
           candidates !! k = Some colorPath
           /\ forall j other, (j < k)%nat -> candidates !! j = Some other ->
                fs_existsSync node w other = false
  | None => forall other, other ∈ candidates -> fs_existsSync node w other = false
  end.
Proof.
  intros dir baseName candidates.
  unfold TextureLoader.findColorTexture. fold dir baseName.
  pose proof (first_existing_spec node w dir
                [ baseName +:+ ".png"; baseName +:+ "_color.png";
                  baseName +:+ "_diffuse.png" ]) as H.
  destruct (TextureLoader.first_existing node w dir _) as [p |].
  - destruct H as (He & k & name & Hk & -> & Hfirst).
    split; [exact He |]. exists k. split.
    + unfold candidates.
      destruct k as [| [| [| k]]]; cbn in Hk |- *; try discriminate;
        injection Hk as <-; reflexivity.
    + intros j other Hj Ho. unfold candidates in Ho.
      destruct j as [| [| [| j]]]; cbn in Ho; try discriminate;
        injection Ho as <-; eapply Hfirst; eauto; reflexivity.
  - intros other Hin. unfold candidates in Hin.
    repeat (apply elem_of_cons in Hin as [-> | Hin]; [apply H; set_solver |]).
    set_solver.
Qed.

(** X24. [loadTexture] returns texture data only for a file that exists and
    that the decoder reads with a width and a height other than 0, and then
    it returns what the decoder read; for a file that does not exist it
    throws without consulting the decoder; every fault it throws is
    reported as a failure to load that file. *)
Theorem loadTexture_outcomes (node : Node) (w : World node)
    (filePath : string) :
  (fs_existsSync node w filePath = false ->
   TextureLoader.loadTexture node filePath w
   = (Throw ("Failed to load texture " +:+ filePath
             +:+ ": Error: Texture file not found: " +:+ filePath), w))
  /\ (forall td w',
        TextureLoader.loadTexture node filePath w = (Ok td, w') ->
        fs_existsSync node w filePath = true
        /\ sharp_read node filePath w = (Ok td, w')
        /\ td_width td <> 0%nat /\ td_height td <> 0%nat)
  /\ (forall message w',
        TextureLoader.loadTexture node filePath w = (Throw message, w') ->
        exists cause,
          message
          = "Failed to load texture " +:+ filePath +:+ ": Error: " +:+ cause).
Proof.
  unfold TextureLoader.loadTexture. split_conj.
  - intros ->. cbn [negb]. reflexivity.
  - intros td w'.
    destruct (fs_existsSync node w filePath); cbn [negb]; [| discriminate].
    destruct (sharp_read node filePath w) as [[td0 | m] w0]; [| discriminate].
    destruct (Nat.eqb_spec (td_width td0) 0), (Nat.eqb_spec (td_height td0) 0);
      cbn [orb]; try discriminate.
    intros [= <- <-]. auto.
  - intros message w'.
    destruct (fs_existsSync node w filePath); cbn [negb].
    + destruct (sharp_read node filePath w) as [[td0 | m] w0].
      * destruct ((td_width td0 =? 0)%nat || (td_height td0 =? 0)%nat);
          [| discriminate].
        intros [= <- <-]. eexists. reflexivity.
      * intros [= <- <-]. eexists. reflexivity.
    + intros [= <- <-]. eexists. reflexivity.
Qed.

(** X25. [saveTexture] returns the path it was given and nothing else; every
    fault it throws is reported as a failure to save to that path; a
    compression level of 0 is taken as none given; and the format [tga]
    always ends in a fault, without a call of the encoder. *)
Theorem saveTexture_outcomes (node : Node) (w : World node)
    (textureData : TextureData) (outputPath : string)
    (options : TextureWriter.SaveOptions) :
  String_toLowerCase node "tga" = "tga"%string ->
  (forall p w',
     TextureWriter.saveTexture node textureData outputPath options w
     = (Ok p, w') -> p = outputPath)
  /\ (forall message w',
        TextureWriter.saveTexture node textureData outputPath options w
        = (Throw message, w') ->
        exists cause,
          message
          = "Failed to save texture to " +:+ outputPath +:+ ": Error: "
            +:+ cause)
  /\ (TextureWriter.quality options = Some 0%float ->
      TextureWriter.saveTexture node textureData outputPath options w
      = TextureWriter.saveTexture node textureData outputPath
          (TextureWriter.mkSaveOptions (TextureWriter.format options) None) w)
  /\ (TextureWriter.format options = Some tga ->
      (exists message w',
         TextureWriter.saveTexture node textureData outputPath options w
         = (Throw message, w'))
      /\ (fs_existsSync node w (path_dirname node outputPath) = true ->
          sharp_raw node textureData = Ok tt ->
          TextureWriter.saveTexture node textureData outputPath options w
          = (Throw ("Failed to save texture to " +:+ outputPath
                    +:+ ": Error: TGA format not supported in this version"),
             w))).
Proof.
  intros Hlower. unfold TextureWriter.saveTexture. split_conj.
  - intros p w'.
    match goal with
    | |- (let '(o, w1) := ?c in _) = _ -> _ => destruct c as [[[] | m] w0]
    end; intros [= <- <-]; reflexivity.
  - intros message w'.
    match goal with
    | |- (let '(o, w1) := ?c in _) = _ -> _ => destruct c as [[[] | m] w0]
    end; intros [= <- <-]. eexists. reflexivity.
  - intros Hq. destruct options as [f q]. cbn in Hq. subst q.
    cbn [TextureWriter.format TextureWriter.quality].
    reflexivity.
  - intros Hf. destruct options as [f q]. cbn in Hf. subst f.
    cbn [TextureWriter.format TextureWriter.quality option_map
         OutputFormat_name].
    change (JSString.or_else (Some "tga"%string) _) with "tga"%string.
    rewrite Hlower. cbn [String.eqb Ascii.eqb Bool.eqb orb].
    split.
    + destruct (if negb _ then _ else _) as [[[] | m] w1];
        [destruct (sharp_raw node textureData) as [[] | m] |];
        eexists _, _; reflexivity.
    + intros -> ->. reflexivity.
Qed.

(** X25 on a file system that holds the output directory. *)
Lemma saveTexture_outcomes_witness :
  TextureWriter.saveTexture SimplePosix.node (mkTextureData 1 1 [1; 2; 3] 3)
    "out/a_s.tga" (TextureWriter.mkSaveOptions (Some tga) None)
    ["out"%string]
  = (Throw ("Failed to save texture to " +:+ "out/a_s.tga"
            +:+ ": Error: TGA format not supported in this version"),
     ["out"%string]).
Proof.
  pose proof (saveTexture_outcomes SimplePosix.node ["out"%string]
                (mkTextureData 1 1 [1; 2; 3] 3) "out/a_s.tga"
                (TextureWriter.mkSaveOptions (Some tga) None) eq_refl)
    as (_ & _ & _ & H).
  destruct (H eq_refl) as [_ H']. apply H'; reflexivity.
Defined.

(** ** Running the conversion calls *)

Section WpLemmas.
Context {node : Node}.
Import Conv.
Implicit Types (st : Conv.state (node := node)).

Lemma wp_ret {A} (a : A) Q E st : Q a st -> wp (ret a) Q E st.
Proof. intros H. exact H. Qed.

Lemma wp_throw {A} (message : string) (Q : A -> _ -> Prop) E st :
  E message st -> wp (throw message) Q E st.
Proof. intros H. exact H. Qed.

Lemma wp_bind {A B} (c : M A) (k : A -> M (node := node) B) Q E st :
  wp c (fun a st' => wp (k a) Q E st') E st -> wp (bind c k) Q E st.
Proof.
  unfold wp, bind. destruct (c st) as [[a | message] st']; auto.
Qed.

Lemma wp_push (message : string) Q E st :
  Q tt (fst st, push_message message (snd st)) -> wp (push message) Q E st.
Proof. intros H. exact H. Qed.

Lemma wp_update (f : ConversionResult -> ConversionResult) Q E st :
  Q tt (fst st, f (snd st)) -> wp (update f) Q E st.
Proof. intros H. exact H. Qed.

Lemma wp_ask {A} (f : World node -> A) Q E st :
  Q (f (fst st)) st -> wp (ask f) Q E st.
Proof. intros H. exact H. Qed.

Lemma wp_io {A} (f : World node -> outcome A * World node) Q E st :
  (forall o w', f (fst st) = (o, w') ->
     match o with
     | Ok a => Q a (w', snd st)
     | Throw message => E message (w', snd st)
     end) ->
  wp (io f) Q E st.
Proof.
  intros H. unfold wp, io. destruct (f (fst st)) as [o w'] eqn:Ef.
  specialize (H o w' eq_refl). destruct o; exact H.
Qed.

Lemma wp_try_pure {A} (o : outcome A) Q E st :
  match o with
  | Ok a => Q a st
  | Throw message => E message st
  end ->
  wp (try_pure o) Q E st.
Proof. intros H. unfold wp, try_pure. destruct o; exact H. Qed.

Lemma wp_call (f : World node -> ConversionResult * World node) Q E st :
  (forall r w', f (fst st) = (r, w') -> Q r (w', snd st)) ->
  wp (call f) Q E st.
Proof.
  intros H. unfold wp, call. destruct (f (fst st)) as [r w'] eqn:Ef.
  apply H. reflexivity.
Qed.

(** What holds of the result when the [try] block ends and when it throws
    holds of the result of the call. *)
Lemma wp_try_catch (body : M unit) (w : World node) (result : ConversionResult)
    (R : ConversionResult * World node -> Prop) :
  wp body (fun _ st' => R (snd st', fst st'))
    (fun message st' =>
       R (push_message ("Error: " +:+ message) (snd st'), fst st'))
    (w, result) ->
  R (try_catch body w result).
Proof.
  unfold wp, try_catch.
  destruct (body (w, result)) as [[[] | message] [w' r']]; auto.
Qed.

End WpLemmas.

(** Run a [try] block statement by statement; the calls into the loader and
    the writer are left to the proof. *)
Ltac wp_step :=
  lazymatch goal with
  | |- wp (Conv.bind _ _) _ _ _ => apply wp_bind
  | |- wp (Conv.push _) _ _ _ => apply wp_push
  | |- wp (Conv.update _) _ _ _ => apply wp_update
  | |- wp (Conv.ret _) _ _ _ => apply wp_ret
  | |- wp (Conv.throw _) _ _ _ => apply wp_throw
  | |- wp (Conv.ask _) _ _ _ => apply wp_ask
  end;
  cbn [fst snd].

Lemma loadTexture_fault (node : Node) (w w' : World node)
    (filePath message : string) :
  TextureLoader.loadTexture node filePath w = (Throw message, w') ->
  starts_with "Failed to load texture " message.
Proof.
  unfold TextureLoader.loadTexture.
  match goal with
  | |- (let '(o, w1) := ?c in _) = _ -> _ => destruct c as [[td | m] w0]
  end; intros [= <- <-]. eexists. reflexivity.
Qed.

Lemma saveTexture_fault (node : Node) (w w' : World node)
    (textureData : TextureData) (outputPath message : string)
    (options : TextureWriter.SaveOptions) :
  TextureWriter.saveTexture node textureData outputPath options w
  = (Throw message, w') ->
  starts_with "Failed to save texture to " message.
Proof.
  unfold TextureWriter.saveTexture.
  match goal with
  | |- (let '(o, w1) := ?c in _) = _ -> _ => destruct c as [[[] | m] w0]
  end; intros [= <- <-]. eexists. reflexivity.
Qed.

(** Compute the fields of a result that was built step by step. *)
Ltac result_simpl :=
  cbn [Conv.push_message Conv.set_success Conv.set_outputPaths
       BidirectionalConverter.copy_results
       PBRConverter.set_specular BidirectionalConverter.set_mer
       BidirectionalConverter.set_bedrockNormal
       BidirectionalConverter.set_heightMap
       BidirectionalConverter.set_baseColorWithAO
       sourcePath outputPaths success messages resultDirection
       out_specular out_normal out_mer out_bedrockNormal out_heightMap
       out_baseColorWithAO fst snd app last].

(** Run a [try] block to its ends: the goals left are the states in which
    it returns or throws, with the equations of the calls made on the
    way. *)
Ltac wp_walk :=
  repeat first
    [ wp_step
    | match goal with
      | |- wp (match ?x with _ => _ end) _ _ _ => destruct x eqn:?
      | |- wp (Conv.io _) _ _ _ =>
          apply wp_io; intros [? | ?] ? ?; cbn [fst snd]
      | |- wp (Conv.try_pure _) _ _ _ => apply wp_try_pure
      end ].

Ltac fault_evidence :=
  first
    [ left; reflexivity
    | right; left; eapply loadTexture_fault; eassumption
    | right; right; eapply saveTexture_fault; eassumption
    | left; eapply loadTexture_fault; eassumption
    | right; eapply saveTexture_fault; eassumption ].

(** X26. The result of [convertTexture].  It is successful exactly when it
    names the specular texture, which is the only output it ever names; a
    successful result ends with the note about normal maps; a failed one
    ends with the report of the fault, which is that no colour texture was
    found, or a failure to load or to save a texture. *)
Theorem convertTexture_result_shape (node : Node) (w : World node)
    (merTexturePath : string) (colorTexturePath outputDir : option string)
    (options : ConversionOptions) :
  let r :=
    fst (PBRConverter.convertTexture node merTexturePath colorTexturePath
           outputDir options w) in
  sourcePath r = merTexturePath
  /\ (success r = true <-> is_Some (out_specular (outputPaths r)))
  /\ outputPaths r
     = mkOutputPaths (out_specular (outputPaths r)) None None None None None
  /\ (success r = true ->
      last (messages r)
      = Some "Note: Normal map processing not implemented in this version"%string)
  /\ (success r = false ->
      exists message,
        last (messages r) = Some ("Error: " +:+ message)
        /\ (message = "Could not find corresponding color texture"%string
            \/ load_or_save_fault message)).
Proof.
  cbv zeta. unfold PBRConverter.convertTexture.
  match goal with
  | |- context [Conv.try_catch ?b ?w ?r] => pattern (Conv.try_catch b w r)
  end.
  apply wp_try_catch.
  unfold PBRConverter.convertTexture_try, PBRConverter.convertTexture_result.
  wp_walk; result_simpl; split_conj;
    try reflexivity; try discriminate;
    try (split; [discriminate | intros [? ?]; discriminate]);
    try (split; [eauto | reflexivity]);
    try (intros _; eexists; split; [reflexivity | fault_evidence]).
Qed.


Lemma extractHeightMap_four_channels (td : TextureData) :
  td_channels td = 4%nat ->
  exists heightMap, NormalMapProcessorImpl.extractHeightMap td = Ok heightMap.
Proof.
  intros Hc. unfold NormalMapProcessorImpl.extractHeightMap.
  pose proof (extractChannels_spec td) as (_ & _ & _ & _ & _ & Ea).
  rewrite (proj2 (Nat.eqb_eq _ _) Hc). cbn [negb].
  destruct (cd_a (ChannelExtractor.extractChannels td));
    [eexists; reflexivity | contradiction].
Qed.

Ltac wp_walk_nmp :=
  repeat first
    [ wp_step
    | match goal with
      | |- wp (match ?x with _ => _ end) _ _ _ => destruct x eqn:?
      | |- wp (Conv.io _) _ _ _ =>
          apply wp_io; intros [? | ?] ? ?; cbn [fst snd]
      | |- wp (Conv.try_pure _) _ _ _ =>
          apply wp_try_pure;
          cbn [NormalMapProcessor.reconstructNormalMap
               NormalMapProcessor.extractHeightMap
               NormalMapProcessor.bakeAOIntoBaseColor
               NormalMapProcessorImpl.processor]
      | |- match ?o with Ok _ => _ | Throw _ => _ end => destruct o eqn:?
      end ].

(** X27. The result of [convertLabPBRToBedrock], linked with the normal map
    processor of the repository.  The outputs are named in the order they
    are written, so a result names the normal map only after the packed
    texture, and the height map and the baked colour only after the normal
    map; the height map is named only when it was not declined and the
    baked colour only when it was asked for; a successful result names the
    packed texture, the normal map and, when asked for, the baked colour; a
    failed result ends with the report of a failure to load or to save a
    texture, the only faults there are. *)
Theorem convertLabPBRToBedrock_result_shape (node : Node) (w : World node)
    (specularTexturePath normalTexturePath baseTexturePath : string)
    (outputDir : option string) (options : ConversionOptions) :
  let r :=
    fst (BidirectionalConverter.convertLabPBRToBedrock node
           NormalMapProcessorImpl.processor specularTexturePath
           normalTexturePath baseTexturePath outputDir options w) in
  let o := outputPaths r in
  sourcePath r = specularTexturePath
  /\ out_specular o = None /\ out_normal o = None
  /\ (success r = true ->
      is_Some (out_mer o) /\ is_Some (out_bedrockNormal o)
      /\ (bakeAO options = Some true -> is_Some (out_baseColorWithAO o)))
  /\ (is_Some (out_bedrockNormal o) -> is_Some (out_mer o))
  /\ (is_Some (out_heightMap o) ->
      is_Some (out_bedrockNormal o) /\ extractHeightMap options <> Some false)
  /\ (is_Some (out_baseColorWithAO o) ->
      is_Some (out_bedrockNormal o) /\ bakeAO options = Some true)
  /\ (success r = false ->
      exists message,
        last (messages r) = Some ("Error: " +:+ message)
        /\ load_or_save_fault message).
Proof.
  cbv zeta. unfold BidirectionalConverter.convertLabPBRToBedrock.
  match goal with
  | |- context [Conv.try_catch ?b ?w ?r] => pattern (Conv.try_catch b w r)
  end.
  apply wp_try_catch.
  unfold BidirectionalConverter.convertLabPBRToBedrock_try,
    BidirectionalConverter.convertLabPBRToBedrock_result.
  wp_walk_nmp.
  all: try match goal with
       | H : NormalMapProcessorImpl.extractHeightMap ?td = Throw _,
         G : _ && (td_channels ?td =? 4)%nat = true |- _ =>
           exfalso; apply andb_true_iff in G; destruct G as [_ G];
           apply Nat.eqb_eq in G;
           destruct (extractHeightMap_four_channels td G); congruence
       end.
  all: result_simpl; split_conj; intros;
    repeat match goal with
           | H : is_Some None |- _ => destruct H as [? H]; discriminate H
           | H : false = true |- _ => discriminate H
           | H : true = false |- _ => discriminate H
           | |- _ /\ _ => split
           | |- _ -> _ => intro
           | |- is_Some (Some _) => eexists; reflexivity
           end;
    try reflexivity; try congruence;
    try (eexists; split; [reflexivity | fault_evidence]).
  all: match goal with
       | G : negb match extractHeightMap ?o with _ => _ end && _ = true
         |- extractHeightMap ?o <> Some false =>
           intros Heq; rewrite Heq in G; discriminate G
       end.
Qed.


(** X28. A forced direction other than the two conversions, [Auto]
    included, makes [convertAuto] fail at once: the result is not
    successful, names no output, holds the detection message and the report
    that the direction could not be determined, and the file system is left
    as it was. *)
Theorem convertAuto_undetermined_direction (node : Node)
    (nmp : NormalMapProcessor.t) (w : World node) (texturePath : string)
    (outputDir : option string) (options : ConversionOptions) (d : Z) :
  conversionDirection options = Some d -> d <> 0 -> d <> 1 ->
  BidirectionalConverter.convertAuto node nmp texturePath outputDir options w
  = (mkConversionResult texturePath
       (mkOutputPaths None None None None None None) false
       [ "Detected format: "
         +:+ BidirectionalConverter.TextureFormat_name
               (FormatDetector.format
                  (FormatDetector.detectFormat node w texturePath))
         +:+ " (confidence: "
         +:+ Number_toFixed2 node
               (FormatDetector.confidence
                  (FormatDetector.detectFormat node w texturePath))
         +:+ ")";
         "Error: Could not determine conversion direction" ]%string
       (Some d), w).
Proof.
  intros Hd H0 H1.
  unfold BidirectionalConverter.convertAuto,
    BidirectionalConverter.chooseDirection. cbv zeta. rewrite Hd.
  destruct (Z.eqb_spec d 0) as [| _]; [contradiction |].
  unfold BidirectionalConverter.convertAuto_try,
    BidirectionalConverter.convertAuto_result.
  cbn [BidirectionalConverter.ConversionDirection_code].
  destruct (Z.eqb_spec d 0) as [| _]; [contradiction |].
  destruct (Z.eqb_spec d 1) as [| _]; [contradiction |].
  reflexivity.
Qed.

(** X28 at a packed pair with the direction [Auto] forced. *)
Lemma convertAuto_undetermined_direction_witness :
  success
    (fst (BidirectionalConverter.convertAuto SimplePosix.node
            NormalMapProcessorImpl.processor "textures/foo_mer.png" None
            (mkConversionOptions None None
(Some 2) None None)
            ["textures/foo.png"; "textures/foo_mer.png"]%string))
  = false.
Proof.
  rewrite (convertAuto_undetermined_direction SimplePosix.node
             NormalMapProcessorImpl.processor
             ["textures/foo.png"; "textures/foo_mer.png"]%string
             "textures/foo_mer.png" None
             (mkConversionOptions None None (Some 2) None None) 2);
    [reflexivity | reflexivity | lia | lia].
Defined.

(** X29. Forcing the direction [BedrockToLabPBR] has no effect: its number is
    0, which the choice of the direction takes as no direction given.  The
    call behaves as the call without a forced direction, and on a texture
    that is not detected as Bedrock it converts from LabPBR to Bedrock. *)
Theorem convertAuto_forced_bedrock_is_ignored (node : Node)
    (nmp : NormalMapProcessor.t) (w : World node) (texturePath : string)
    (outputDir : option string) (options : ConversionOptions) :
  conversionDirection options
  = Some (BidirectionalConverter.ConversionDirection_code
            FormatDetector.BedrockToLabPBR) ->
  BidirectionalConverter.convertAuto node nmp texturePath outputDir options w
  = BidirectionalConverter.convertAuto node nmp texturePath outputDir
      (mkConversionOptions (outputFormat options) (compressionLevel options)
         None (bakeAO options) (extractHeightMap options)) w
  /\ (FormatDetector.format (FormatDetector.detectFormat node w texturePath)
      <> FormatDetector.Bedrock ->
      resultDirection
        (fst (BidirectionalConverter.convertAuto node nmp texturePath
                outputDir options w))
      = Some (BidirectionalConverter.ConversionDirection_code
                FormatDetector.LabPBRToBedrock)).
Proof.
  intros Hd. destruct options as [f q d b h]. cbn in Hd. subst d.
  cbn [outputFormat compressionLevel bakeAO extractHeightMap].
  split.
  - reflexivity.
  - intros Hf. unfold BidirectionalConverter.convertAuto.
    cbv zeta. unfold BidirectionalConverter.chooseDirection.
    cbn [conversionDirection Z.eqb].
    match goal with
    | |- context [Conv.try_catch ?b ?w ?r] => pattern (Conv.try_catch b w r)
    end.
    apply wp_try_catch.
    unfold BidirectionalConverter.convertAuto_try,
      BidirectionalConverter.convertAuto_result.
    destruct (FormatDetector.format _); [contradiction | |];
      cbn [BidirectionalConverter.ConversionDirection_code Z.eqb Pos.eqb];
      wp_walk;
      try (apply wp_call; intros ? ? ?; cbn [fst snd]; wp_walk);
      reflexivity.
Qed.

(** X29 at a LabPBR triple with the direction [BedrockToLabPBR] forced. *)
Lemma convertAuto_forced_bedrock_is_ignored_witness :
  resultDirection
    (fst (BidirectionalConverter.convertAuto SimplePosix.node
            NormalMapProcessorImpl.processor "textures/foo_s.png" None
            (mkConversionOptions None None (Some 0) None None)
            ["textures/foo.png"; "textures/foo_s.png"; "textures/foo_n.png"]%string))
  = Some 1.
Proof.
  apply (convertAuto_forced_bedrock_is_ignored SimplePosix.node
           NormalMapProcessorImpl.processor
           ["textures/foo.png"; "textures/foo_s.png"; "textures/foo_n.png"]%string
           "textures/foo_s.png" None
           (mkConversionOptions None None (Some 0) None None) eq_refl).
  vm_compute. discriminate.
Defined.

(** X30. A texture of unknown format, with no direction forced, is taken
    through the LabPBR-to-Bedrock branch, although
    [determineConversionDirection] answers [Auto] for it; the branch finds
    no normal texture and the call fails at once, leaving the file system as
    it was. *)
Theorem convertAuto_unknown_format (node : Node) (nmp : NormalMapProcessor.t)
    (w : World node) (texturePath : string) (outputDir : option string)
    (options : ConversionOptions) :
  FormatDetector.format (FormatDetector.detectFormat node w texturePath)
  = FormatDetector.Unknown ->
  conversionDirection options = None ->
  FormatDetector.determineConversionDirection node w texturePath
  = FormatDetector.Auto
  /\ BidirectionalConverter.convertAuto node nmp texturePath outputDir options
       w
     = (mkConversionResult texturePath
          (mkOutputPaths None None None None None None) false
          [ "Detected format: Unknown (confidence: "
            +:+ Number_toFixed2 node 0%float +:+ ")";
            "Converting from LabPBR to Bedrock format...";
            "Error: Could not find required textures for LabPBR to Bedrock conversion"
          ]%string
          (Some (BidirectionalConverter.ConversionDirection_code
                   FormatDetector.LabPBRToBedrock)), w).
Proof.
  intros Hu Hd.
  pose proof (classify_fields (FormatDetector.probe node w texturePath))
    as (_ & _ & _ & _ & Hr & _).
  fold (FormatDetector.detectFormat node w texturePath) in Hr.
  specialize (Hr Hu).
  split.
  - unfold FormatDetector.determineConversionDirection. rewrite Hu.
    reflexivity.
  - unfold BidirectionalConverter.convertAuto,
      BidirectionalConverter.chooseDirection. cbv zeta.
    rewrite Hd, Hr.
    unfold BidirectionalConverter.convertAuto_try, JSString.or_else,
      JSString.truthy.
    cbn [FormatDetector.format FormatDetector.specularTexturePath
         FormatDetector.normalTexturePath FormatDetector.baseTexturePath
         BidirectionalConverter.ConversionDirection_code Z.eqb Pos.eqb].
    destruct (String.eqb texturePath EmptyString); reflexivity.
Qed.

(** X30 at a texture that is not on disk. *)
Lemma convertAuto_unknown_format_witness :
  FormatDetector.determineConversionDirection SimplePosix.node []
    "textures/stone.png"
  = FormatDetector.Auto
  /\ success
       (fst (BidirectionalConverter.convertAuto SimplePosix.node
               NormalMapProcessorImpl.processor "textures/stone.png" None
               (mkConversionOptions None None None None None) []))
     = false.
Proof.
  destruct (convertAuto_unknown_format SimplePosix.node
              NormalMapProcessorImpl.processor [] "textures/stone.png" None
              (mkConversionOptions None None None None None) eq_refl eq_refl)
    as [H1 H2].
  split; [exact H1 | rewrite H2; reflexivity].
Defined.
